(** * The CIFAR data provider (data_providers/cifar.py)

    A shallow embedding of the augmentation and normalization helpers, of the
    epoch dataset [CifarDataSet] and of [CifarDataProvider] with its four
    classes: the reading of the batch files, the encoding of the labels and
    the datasets the constructor makes.  The properties of the design
    document are proved (or refuted) against it, and further properties of
    the code after them.

    Numpy arrays are values with an explicit shape.  The arrays a dataset
    holds (the corpus, the epoch buffers, the arrays the helpers allocate
    and fill in place) live in a store and are named by references; an
    array that does not outlive the call that made it ([zeros_padded],
    [new_image]) is a plain value.  Python integers are [Z], array elements
    are binary64 floats, the global random generator is a tape of raw
    draws, and a method is a function from the program state to an
    outcome: a result, an exception, or a recursion that was cut. *)

From Stdlib Require Import ZArith Floats Lia Ascii.
From Stdlib Require QArith Qround.
From stdpp Require Import base list strings gmap pretty.

Local Open Scope Z_scope.
Local Open Scope list_scope.

(** ** Exceptions and results *)

Inductive exn :=
| ValueError
| IndexError
| AttributeError
| OverflowError
| BadReference. (* a reference that names no array: no Python program has one *)

Inductive result (A : Type) :=
| Ok (a : A)
| Err (e : exn).
Arguments Ok {A} a.
Arguments Err {A} e.

Definition rbind {A B} (r : result A) (k : A -> result B) : result B :=
  match r with
  | Ok a => k a
  | Err e => Err e
  end.

(** ** Python indexing *)

(** [a[k]] on an axis of [size] elements: negative indices count from the
    end, anything outside [-size, size) is an IndexError. *)
Definition index_axis (size : nat) (k : Z) : option nat :=
  if (0 <=? k) && (k <? Z.of_nat size) then Some (Z.to_nat k)
  else if (- Z.of_nat size <=? k) && (k <? 0) then Some (Z.to_nat (k + Z.of_nat size))
  else None.

(** A bound of [a[start:stop]]: negative bounds count from the end, and
    every bound is clamped into [0, n]. *)
Definition slice_bound (n : Z) (i : Z) : Z :=
  if i <? 0 then Z.max 0 (i + n) else Z.min i n.

(** First index and length of [a[start:stop]] on an axis of [n] elements; a
    missing bound is [None]. *)
Definition slice_range (n : nat) (start stop : option Z) : nat * nat :=
  let lo := from_option (slice_bound (Z.of_nat n)) 0 start in
  let hi := from_option (slice_bound (Z.of_nat n)) (Z.of_nat n) stop in
  (Z.to_nat lo, Z.to_nat (hi - lo)).

Definition py_slice {A} (l : list A) (start stop : option Z) : list A :=
  let '(lo, len) := slice_range (length l) start stop in
  take len (drop lo l).

(** [a[idx]] with an index array: a new array, row [i] of which is row
    [idx[i]] of [a]. *)
Fixpoint take_rows {A} (a : list A) (idx : list nat) : result (list A) :=
  match idx with
  | [] => Ok []
  | i :: rest =>
      match a !! i with
      | None => Err IndexError
      | Some x => rbind (take_rows a rest) (fun xs => Ok (x :: xs))
      end
  end.

(** ** Arrays of floats with their shape *)

Definition tab {A} (n : nat) (f : nat -> A) : list A := map f (seq 0 n).

Record ndarray2 := Nd2 { shape2 : nat * nat; rows2 : list (list float) }.
Record ndarray3 := Nd3 { shape3 : nat * nat * nat; rows3 : list (list (list float)) }.

(** An image is a 3-D array (H, W, C); a batch (N, H, W, C) is the list of
    its images. *)
Definition image := ndarray3.

Definition get2 (a : ndarray2) (x y : nat) : float :=
  nth y (nth x (rows2 a) []) 0%float.
Definition get3 (a : ndarray3) (x y c : nat) : float :=
  nth c (nth y (nth x (rows3 a) []) []) 0%float.

Definition build2 (h w : nat) (f : nat -> nat -> float) : ndarray2 :=
  Nd2 (h, w) (tab h (fun x => tab w (fun y => f x y))).
Definition build3 (h w c : nat) (f : nat -> nat -> nat -> float) : ndarray3 :=
  Nd3 (h, w, c) (tab h (fun x => tab w (fun y => tab c (fun k => f x y k)))).

Definition np_zeros2 (shape : nat * nat) : ndarray2 :=
  let '(h, w) := shape in build2 h w (fun _ _ => 0%float).
Definition np_zeros3 (shape : nat * nat * nat) : ndarray3 :=
  let '(h, w, c) := shape in build3 h w c (fun _ _ _ => 0%float).

Definition map3 (f : float -> float) (a : ndarray3) : ndarray3 :=
  Nd3 (shape3 a) (map (map (map f)) (rows3 a)).

(** [a[:, :, k]] *)
Definition channel (a : ndarray3) (k : nat) : ndarray2 :=
  let '(h, w, _) := shape3 a in build2 h w (fun x y => get3 a x y k).

(** [a[:, :, k] = v] for [v] of shape (H, W) *)
Definition set_channel (a : ndarray3) (k : nat) (v : ndarray2) : ndarray3 :=
  let '(h, w, c) := shape3 a in
  build3 h w c (fun x y j => if (j =? k)%nat then get2 v x y else get3 a x y j).

(** Numpy's broadcasting of a value into a slot of a given shape: each
    axis of the value has the slot's size or size 1, the value's axes
    aligned with the slot's last ones; otherwise a ValueError. *)
Definition fits (v s : nat) : bool := (v =? s)%nat || (v =? 1)%nat.
Definition pick (v i : nat) : nat := if (v =? 1)%nat then 0%nat else i.

Definition broadcast3 (slot : nat * nat * nat) (v : ndarray3) : result ndarray3 :=
  let '(h, w, c) := slot in
  let '(vh, vw, vc) := shape3 v in
  if fits vh h && fits vw w && fits vc c
  then Ok (build3 h w c (fun x y k => get3 v (pick vh x) (pick vw y) (pick vc k)))
  else Err ValueError.

Definition broadcast2 (slot : nat * nat * nat) (v : ndarray2) : result ndarray3 :=
  let '(h, w, c) := slot in
  let '(vw, vc) := shape2 v in
  if fits vw w && fits vc c
  then Ok (build3 h w c (fun x y k => get2 v (pick vw y) (pick vc k)))
  else Err ValueError.

(** The elements of a 2-D array, in C order. *)
Definition elements2 (a : ndarray2) : list float := concat (rows2 a).

(** The sum of the elements of an array of floats, as [np.add.reduce]
    makes it over the whole array: numpy's pairwise summation.  Fewer
    than 8 elements are added one by one, from the left.  From 8 to 128
    elements go into 8 accumulators, element [i] into accumulator
    [i mod 8] as long as whole blocks of 8 are left; the accumulators are
    added two by two, and the elements after the last whole block are
    added to that, one by one.  More than 128 elements are cut in two,
    the first part of [n / 2] elements less [n / 2 mod 8], and the sums
    of the two parts are added. *)
Fixpoint add_blocks (blocks : nat) (r a : list float) : list float :=
  match blocks with
  | O => r
  | S blocks' =>
      add_blocks blocks' (zip_with PrimFloat.add r (take 8 a)) (drop 8 a)
  end.

Definition unrolled_sum (a : list float) : float :=
  let n := length a in
  let r := add_blocks (n / 8 - 1) (take 8 a) (drop 8 a) in
  let res :=
    match r with
    | [r0; r1; r2; r3; r4; r5; r6; r7] =>
        (((r0 + r1) + (r2 + r3)) + ((r4 + r5) + (r6 + r7)))%float
    | _ => 0%float
    end in
  foldl PrimFloat.add res (drop (n - n mod 8) a).

(** [depth] bounds the number of cuts: the length of the array is
    enough, each part of a cut being shorter than the whole. *)
Fixpoint pairwise_sum (depth : nat) (a : list float) : float :=
  let n := length a in
  if (n <? 8)%nat then foldl PrimFloat.add 0%float a
  else if (n <=? 128)%nat then unrolled_sum a
  else match depth with
       | O => 0%float
       | S depth' =>
           let n2 := (n / 2 - (n / 2) mod 8)%nat in
           (pairwise_sum depth' (take n2 a) + pairwise_sum depth' (drop n2 a))%float
       end.

(** The result of the reduction starts as 0.0 and the sum is added to it. *)
Definition fsum (l : list float) : float :=
  (0 + pairwise_sum (length l) l)%float.

(** [np.mean] and [np.std] of a 2-D array: the sum of the elements
    divided by their number, and the square root of the mean of the
    squares of the deviations from the mean, each sum made as above. *)
Definition flen (l : list float) : float :=
  PrimFloat.of_uint63 (Uint63.of_Z (Z.of_nat (length l))).
Definition np_mean (a : ndarray2) : float :=
  (fsum (elements2 a) / flen (elements2 a))%float.
Definition np_std (a : ndarray2) : float :=
  let m := np_mean a in
  let sq := map (fun x => ((x - m) * (x - m))%float) (elements2 a) in
  PrimFloat.sqrt (fsum sq / flen sq)%float.

Definition map2 (f : float -> float) (a : ndarray2) : ndarray2 :=
  Nd2 (shape2 a) (map (map f) (rows2 a)).

(** [a[x0:x1, y0:y1, :] = v] *)
Definition setitem_region (a : ndarray3) (x0 x1 y0 y1 : Z) (v : ndarray3)
  : result ndarray3 :=
  let '(h, w, c) := shape3 a in
  let '(rx, nx) := slice_range h (Some x0) (Some x1) in
  let '(ry, ny) := slice_range w (Some y0) (Some y1) in
  rbind (broadcast3 (nx, ny, c) v) (fun b =>
    Ok (build3 h w c (fun x y k =>
          if ((rx <=? x) && (x <? rx + nx) && (ry <=? y) && (y <? ry + ny))%nat
          then get3 b (x - rx) (y - ry) k
          else get3 a x y k))).

(** [a[x0:x1, y0:y1, k]]: the third index is a scalar, so the result has
    two axes. *)
Definition getitem_crop (a : ndarray3) (x0 x1 y0 y1 : Z) (k : Z) : result ndarray2 :=
  let '(h, w, c) := shape3 a in
  match index_axis c k with
  | None => Err IndexError
  | Some j =>
      let '(rx, nx) := slice_range h (Some x0) (Some x1) in
      let '(ry, ny) := slice_range w (Some y0) (Some y1) in
      Ok (build2 nx ny (fun x y => get3 a (rx + x) (ry + y) j))
  end.

(** One turn of the loop of [normalize_image_by_chanel]. *)
Definition normalize_chanel (img : image) (new_image : ndarray3) (chanel : Z)
  : result ndarray3 :=
  let '(_, _, c) := shape3 img in
  match index_axis c chanel with
  | None => Err IndexError
  | Some k =>
      let mean := np_mean (channel img k) in
      let std := np_std (channel img k) in
      Ok (set_channel new_image k
            (map2 (fun x => ((x - mean) / std)%float) (channel img k)))
  end.

Definition normalize_image_by_chanel (img : image) : result image :=
  let new_image := np_zeros3 (shape3 img) in
  foldl (fun acc chanel => rbind acc (fun a => normalize_chanel img a chanel))
        (Ok new_image) [0; 1; 2].

(** ** The random generator

    [np.random.permutation n] is one raw draw decoded as a permutation of
    [range(n)] (the factorial number system: every permutation is the
    decoding of some draw). *)
Definition insert_at {A} (k : nat) (x : A) (l : list A) : list A :=
  take k l ++ x :: drop k l.

Fixpoint permutation_of (n : nat) (r : nat) : list nat :=
  match n with
  | O => []
  | S m => insert_at (r mod S m) m (permutation_of m (r / S m))
  end.

(** ** The store, the dataset object and the monad of the methods *)

Definition ref := nat.

Section DataSet.
Context {label : Type}.

(** The attributes of a [CifarDataSet] instance; [None] is an attribute no
    assignment has created yet. *)
Record CifarDataSet := Attrs {
  shuffle_every_epoch : option bool;
  images : option ref;
  labels : option ref;
  n_classes : option Z;
  augmentation : option bool;
  normalization : option (option string);
  _batch_counter : option Z;
  epoch_images : option ref;
  epoch_labels : option ref }.

Definition blank : CifarDataSet := Attrs None None None None None None None None None.

Record state := State {
  self : CifarDataSet;
  image_arrays : list (list image);   (* the 4-D arrays allocated so far *)
  label_arrays : list (list label);   (* the label arrays allocated so far *)
  raw_draws : nat -> nat;             (* the tape of the random generator *)
  draws_used : nat }.

Inductive outcome (A : Type) :=
| Ret (a : A) (s : state)
| Raise (e : exn) (s : state)
| Unfinished (s : state). (* the recursion budget ran out *)
Arguments Ret {A} a s.
Arguments Raise {A} e s.
Arguments Unfinished {A} s.

Definition M (A : Type) : Type := state -> outcome A.

Definition ret {A} (a : A) : M A := fun s => Ret a s.
Definition raise {A} (e : exn) : M A := fun s => Raise e s.
Definition bind {A B} (m : M A) (k : A -> M B) : M B :=
  fun s =>
    match m s with
    | Ret a s' => k a s'
    | Raise e s' => Raise e s'
    | Unfinished s' => Unfinished s'
    end.
Definition lift {A} (r : result A) : M A :=
  match r with
  | Ok a => ret a
  | Err e => raise e
  end.

Notation "x <- m ;; k" := (bind m (fun x => k))
  (at level 100, m at next level, right associativity).
Notation "m ;; k" := (bind m (fun _ => k))
  (at level 100, right associativity).

Fixpoint for_each {A} (l : list A) (body : A -> M unit) : M unit :=
  match l with
  | [] => ret tt
  | x :: rest => body x ;; for_each rest body
  end.

(** Modelled from the spec: the base class [DataSet] (base_provider.py),
    whose text is not among the sources.  It is an interface that gives a
    dataset no attribute of its own, as the design has a dataset with an
    unknown shuffle mode fail when it is built: a name the instance never
    assigned is looked up in the class and not found there. *)
Definition DataSet_attribute {A} (name : CifarDataSet -> option A) : option A := None.

Definition getattr {A} (name : CifarDataSet -> option A) : M A :=
  fun s =>
    match name (self s) with
    | Some v => Ret v s
    | None =>
        match DataSet_attribute name with
        | Some v => Ret v s
        | None => Raise AttributeError s
        end
    end.

Definition setattr (assign : CifarDataSet -> CifarDataSet) : M unit :=
  fun s => Ret tt (State (assign (self s)) (image_arrays s) (label_arrays s)
                         (raw_draws s) (draws_used s)).

Definition set_shuffle_every_epoch (v : bool) (o : CifarDataSet) : CifarDataSet :=
  Attrs (Some v) (images o) (labels o) (n_classes o) (augmentation o)
        (normalization o) (_batch_counter o) (epoch_images o) (epoch_labels o).
Definition set_images (v : ref) (o : CifarDataSet) : CifarDataSet :=
  Attrs (shuffle_every_epoch o) (Some v) (labels o) (n_classes o) (augmentation o)
        (normalization o) (_batch_counter o) (epoch_images o) (epoch_labels o).
Definition set_labels (v : ref) (o : CifarDataSet) : CifarDataSet :=
  Attrs (shuffle_every_epoch o) (images o) (Some v) (n_classes o) (augmentation o)
        (normalization o) (_batch_counter o) (epoch_images o) (epoch_labels o).
Definition set_n_classes (v : Z) (o : CifarDataSet) : CifarDataSet :=
  Attrs (shuffle_every_epoch o) (images o) (labels o) (Some v) (augmentation o)
        (normalization o) (_batch_counter o) (epoch_images o) (epoch_labels o).
Definition set_augmentation (v : bool) (o : CifarDataSet) : CifarDataSet :=
  Attrs (shuffle_every_epoch o) (images o) (labels o) (n_classes o) (Some v)
        (normalization o) (_batch_counter o) (epoch_images o) (epoch_labels o).
Definition set_normalization (v : option string) (o : CifarDataSet) : CifarDataSet :=
  Attrs (shuffle_every_epoch o) (images o) (labels o) (n_classes o) (augmentation o)
        (Some v) (_batch_counter o) (epoch_images o) (epoch_labels o).
Definition set_batch_counter (v : Z) (o : CifarDataSet) : CifarDataSet :=
  Attrs (shuffle_every_epoch o) (images o) (labels o) (n_classes o) (augmentation o)
        (normalization o) (Some v) (epoch_images o) (epoch_labels o).
Definition set_epoch_images (v : ref) (o : CifarDataSet) : CifarDataSet :=
  Attrs (shuffle_every_epoch o) (images o) (labels o) (n_classes o) (augmentation o)
        (normalization o) (_batch_counter o) (Some v) (epoch_labels o).
Definition set_epoch_labels (v : ref) (o : CifarDataSet) : CifarDataSet :=
  Attrs (shuffle_every_epoch o) (images o) (labels o) (n_classes o) (augmentation o)
        (normalization o) (_batch_counter o) (epoch_images o) (Some v).

(** *** Arrays in the store *)

Definition with_image_arrays (h : list (list image)) (s : state) : state :=
  State (self s) h (label_arrays s) (raw_draws s) (draws_used s).
Definition with_label_arrays (h : list (list label)) (s : state) : state :=
  State (self s) (image_arrays s) h (raw_draws s) (draws_used s).

Definition read_images (r : ref) : M (list image) :=
  fun s =>
    match image_arrays s !! r with
    | Some a => Ret a s
    | None => Raise BadReference s
    end.
Definition read_labels (r : ref) : M (list label) :=
  fun s =>
    match label_arrays s !! r with
    | Some a => Ret a s
    | None => Raise BadReference s
    end.

(** A new array: its reference is the next free place of the store. *)
Definition new_image_array (a : list image) : M ref :=
  fun s => Ret (length (image_arrays s)) (with_image_arrays (image_arrays s ++ [a]) s).
Definition new_label_array (a : list label) : M ref :=
  fun s => Ret (length (label_arrays s)) (with_label_arrays (label_arrays s ++ [a]) s).

(** [images[i]] *)
Definition getitem_image (r : ref) (i : nat) : M image :=
  a <- read_images r ;;
  match a !! i with
  | Some im => ret im
  | None => raise IndexError
  end.

(** [new_images[i] = v]: the array named by [r] is updated in place. *)
Definition setitem_image (r : ref) (i : nat) (v : result image) : M unit :=
  a <- read_images r ;;
  match a !! i with
  | None => raise IndexError
  | Some _ =>
      im <- lift v ;;
      fun s => Ret tt (with_image_arrays (<[r := <[i := im]> a]> (image_arrays s)) s)
  end.

(** *** The random generator *)

Definition draw : M nat :=
  fun s => Ret (raw_draws s (draws_used s))
               (State (self s) (image_arrays s) (label_arrays s)
                      (raw_draws s) (S (draws_used s))).

(** [np.random.randint(low, high)]: an integer of [low, high), a ValueError
    when that range is empty. *)
Definition randint (low high : Z) : M Z :=
  if low <? high
  then r <- draw ;; ret (low + Z.of_nat r mod (high - low))
  else raise ValueError.

Definition np_random_permutation (n : nat) : M (list nat) :=
  r <- draw ;; ret (permutation_of n r).

(** ** The augmentation helpers *)

Definition augment_image (img : image) (pad : nat) : M ndarray2 :=
  let init_shape := shape3 img in
  let '(h, w, c) := init_shape in
  let new_shape := (h + pad * 2, w + pad * 2, c)%nat in
  let zeros_padded := np_zeros3 new_shape in
  zeros_padded <- lift (setitem_region zeros_padded
                          (Z.of_nat pad) (Z.of_nat (h + pad))
                          (Z.of_nat pad) (Z.of_nat (w + pad)) img) ;;
  (* randomly crop to original size *)
  init_x <- randint 0 (Z.of_nat pad * 2) ;;
  init_y <- randint 0 (Z.of_nat pad * 2) ;;
  cropped <- lift (getitem_crop zeros_padded
                     init_x (init_x + Z.of_nat h)
                     init_y (init_y + Z.of_nat w)
                     (Z.of_nat c)) ;;
  flip <- randint 0 1 ;;
  if negb (flip =? 0)
  then raise IndexError (* cropped[:, ::-1, :]: three indices, two axes *)
  else ret cropped.

Definition augment_all_images (initial_images : ref) (pad : nat) : M ref :=
  a <- read_images initial_images ;;
  new_images <- new_image_array (map (fun im => np_zeros3 (shape3 im)) a) ;;
  for_each (seq 0 (length a)) (fun i =>
    im <- getitem_image initial_images i ;;
    v <- augment_image im 4 ;;
    slot <- getitem_image new_images i ;;
    setitem_image new_images i (broadcast2 (shape3 slot) v)) ;;
  ret new_images.

(** ** The normalization helpers *)

Definition normalize_all_images_by_chanels (initial_images : ref) : M ref :=
  a <- read_images initial_images ;;
  new_images <- new_image_array (map (fun im => np_zeros3 (shape3 im)) a) ;;
  for_each (seq 0 (length a)) (fun i =>
    im <- getitem_image initial_images i ;;
    v <- lift (normalize_image_by_chanel im) ;;
    slot <- getitem_image new_images i ;;
    setitem_image new_images i (broadcast3 (shape3 slot) v)) ;;
  ret new_images.

(** [images / d]: a new array. *)
Definition true_divide (r : ref) (d : float) : M ref :=
  a <- read_images r ;;
  new_image_array (map (map3 (fun x => (x / d)%float)) a).

(** ** CifarDataSet *)

Definition shuffle_images_labels (imgs labs : ref) : M (ref * ref) :=
  a <- read_images imgs ;;
  rand_indexes <- np_random_permutation (length a) ;;
  rows <- lift (take_rows a rand_indexes) ;;
  shuffled_images <- new_image_array rows ;;
  b <- read_labels labs ;;
  rows <- lift (take_rows b rand_indexes) ;;
  shuffled_labels <- new_label_array rows ;;
  ret (shuffled_images, shuffled_labels).

(** Python's truth value of a [str] or [None], and [==] with a literal. *)
Definition truthy (v : option string) : bool :=
  match v with
  | Some s => negb (String.eqb s "")
  | None => false
  end.
Definition is_str (v : option string) (lit : string) : bool :=
  match v with
  | Some s => String.eqb s lit
  | None => false
  end.

Definition start_new_epoch : M unit :=
  setattr (set_batch_counter 0) ;;
  every <- getattr shuffle_every_epoch ;;
  p <- (if every : bool
        then i <- getattr images ;; l <- getattr labels ;;
             shuffle_images_labels i l
        else i <- getattr images ;; l <- getattr labels ;;
             ret (i, l)) ;;
  let labs := p.2 in
  aug <- getattr augmentation ;;
  imgs <- (if aug : bool then augment_all_images p.1 4 else ret p.1) ;;
  norm <- getattr normalization ;;
  imgs <- (if truthy norm
           then if is_str norm "divide_255" then true_divide imgs 255
                else if is_str norm "divide_256" then true_divide imgs 256
                else if is_str norm "by_chanels"
                     then normalize_all_images_by_chanels imgs
                     else ret imgs
           else ret imgs) ;;
  setattr (set_epoch_images imgs) ;;
  setattr (set_epoch_labels labs).

Definition CifarDataSet__init__ (imgs labs : ref) (classes : Z)
    (shuffle normalization_ : option string) (augmentation_ : bool) : M unit :=
  p <- (match shuffle with
        | None =>
            setattr (set_shuffle_every_epoch false) ;; ret (imgs, labs)
        | Some mode =>
            if String.eqb mode "once_prior_train"
            then setattr (set_shuffle_every_epoch false) ;;
                 shuffle_images_labels imgs labs
            else if String.eqb mode "every_epoch"
                 then setattr (set_shuffle_every_epoch true) ;; ret (imgs, labs)
                 else ret (imgs, labs)
        end) ;;
  setattr (set_images p.1) ;;
  setattr (set_labels p.2) ;;
  setattr (set_n_classes classes) ;;
  setattr (set_augmentation augmentation_) ;;
  setattr (set_normalization normalization_) ;;
  start_new_epoch.

(** [CifarDataSet(images, labels, ...)]: a new object, then [__init__]. *)
Definition new_CifarDataSet (imgs labs : ref) (classes : Z)
    (shuffle normalization_ : option string) (augmentation_ : bool) : M unit :=
  setattr (fun _ => blank) ;;
  CifarDataSet__init__ imgs labs classes shuffle normalization_ augmentation_.

Definition num_examples : M Z :=
  l <- getattr labels ;;
  b <- read_labels l ;;
  ret (Z.of_nat (length b)).

(** [fuel] bounds the depth of the recursion: [next_batch 1] may not call
    itself, [next_batch 2] may do so once, and so on; a call that needs
    more is [Unfinished].  (The interpreter's own limit on the depth of
    recursion is not part of the model.) *)
Fixpoint next_batch (fuel : nat) (batch_size : Z) : M (list image * list label) :=
  match fuel with
  | O => fun s => Unfinished s
  | S fuel' =>
      counter <- getattr _batch_counter ;;
      let start := counter * batch_size in
      let end_ := (counter + 1) * batch_size in
      setattr (set_batch_counter (counter + 1)) ;;
      ei <- getattr epoch_images ;;
      a <- read_images ei ;;
      let images_slice := py_slice a (Some start) (Some end_) in
      el <- getattr epoch_labels ;;
      b <- read_labels el ;;
      let labels_slice := py_slice b (Some start) (Some end_) in
      if negb (Z.of_nat (length images_slice) =? batch_size)
      then start_new_epoch ;; next_batch fuel' batch_size
      else ret (images_slice, labels_slice)
  end.

(** ** CifarDataProvider *)

(** [int(x)] of a float: truncation toward zero. *)
Definition py_int (x : float) : result Z :=
  match Prim2SF x with
  | S754_zero _ => Ok 0
  | S754_finite sign m e =>
      let magnitude :=
        match e with
        | Z0 => Zpos m
        | Zpos p => Z.shiftl (Zpos m) (Zpos p)
        | Zneg p => Z.shiftr (Zpos m) (Zpos p)
        end in
      Ok (if sign then - magnitude else magnitude)
  | S754_infinity _ => Err OverflowError
  | S754_nan => Err ValueError
  end.

(** The rational number a finite float stands for, and rounding toward
    zero: what [int(x)] is measured against. *)
Definition float_value (x : float) : option QArith_base.Q :=
  match Prim2SF x with
  | S754_zero _ => Some (QArith_base.Qmake 0 1)
  | S754_finite sign m e =>
      let n := if sign then Zneg m else Zpos m in
      Some (match e with
            | Z0 => QArith_base.Qmake n 1
            | Zpos p => QArith_base.Qmake (n * 2 ^ Zpos p) 1
            | Zneg p => QArith_base.Qmake n (2 ^ p)
            end)
  | S754_infinity _ => None
  | S754_nan => None
  end.
Definition Qtruncate (q : QArith_base.Q) : Z :=
  if QArith_base.Qle_bool (QArith_base.Qmake 0 1) q
  then Qround.Qfloor q
  else Qround.Qceiling q.

(** [float(n)] for an array length. *)
Definition py_float (n : nat) : float :=
  PrimFloat.of_uint63 (Uint63.of_Z (Z.of_nat n)).

(** [int(images.shape[0] * (1 - validation_split))] *)
Definition split_index (n : nat) (validation_split : float) : result Z :=
  py_int (py_float n * (1 - validation_split))%float.

(** The cut of the design document: [floor (N * (1 - f))], the fraction
    a rational number. *)
Definition floor_split (N : Z) (f : QArith_base.Q) : Z :=
  Qround.Qfloor (QArith_base.Qmult (QArith_base.inject_Z N)
                   (QArith_base.Qminus (QArith_base.inject_Z 1) f)).

Fixpoint indices (size : nat) (ks : list Z) : result (list nat) :=
  match ks with
  | [] => Ok []
  | k :: rest =>
      match index_axis size k with
      | None => Err IndexError
      | Some j => rbind (indices size rest) (fun js => Ok (j :: js))
      end
  end.

Definition labels_to_one_hot (classes : Z) (labs : list Z) : result ndarray2 :=
  if classes <? 0 then Err ValueError
  else
    let new_labels := np_zeros2 (length labs, Z.to_nat classes) in
    (* new_labels[range(n), labels] = np.ones(labels.shape) *)
    rbind (indices (Z.to_nat classes) labs) (fun cols =>
      Ok (Nd2 (shape2 new_labels)
              (zip_with (fun row j => <[j := 1%float]> row) (rows2 new_labels) cols))).

(** [np.argmax] of a row: the first index of the greatest element, a NaN
    counting as the greatest. *)
Fixpoint argmax_from (best : float) (best_i i : nat) (l : list float) : nat :=
  match l with
  | [] => best_i
  | x :: rest =>
      if PrimFloat.is_nan best then best_i
      else if negb (x <=? best)%float then argmax_from x i (S i) rest
           else argmax_from best best_i (S i) rest
  end.
Definition argmax (row : list float) : Z :=
  match row with
  | [] => 0
  | x :: rest => Z.of_nat (argmax_from x 0 1 rest)
  end.

(** [np.argmax(labels, axis=1)]: a ValueError when the rows are empty. *)
Definition labels_from_one_hot (a : ndarray2) : result (list Z) :=
  let '(_, k) := shape2 a in
  if (k =? 0)%nat then Err ValueError else Ok (map argmax (rows2 a)).

(** ** What the properties below speak about *)

(** The state an outcome ends in, whatever the outcome. *)
Definition final {A} (o : outcome A) : state :=
  match o with
  | Ret _ s => s
  | Raise _ s => s
  | Unfinished s => s
  end.

(** The base corpus of the dataset: the arrays [self.images] and
    [self.labels] name. *)
Definition corpus_images (s : state) : list image :=
  match images (self s) with
  | Some i => default [] (image_arrays s !! i)
  | None => []
  end.
Definition corpus_labels (s : state) : list label :=
  match labels (self s) with
  | Some l => default [] (label_arrays s !! l)
  | None => []
  end.
Definition normalization_mode (s : state) : option string :=
  default None (normalization (self s)).

(** One image of [normalize_all_images_by_chanels]: the normalized image,
    written into its slot of the new array. *)
Definition by_chanels_image (im : image) : result image :=
  rbind (normalize_image_by_chanel im)
        (broadcast3 (shape3 (np_zeros3 (shape3 im)))).

(** The image [start_new_epoch] stores in the epoch buffer for an image of
    the corpus, when augmentation is off: the branches of its normalization
    step, image by image. *)
Definition epoch_image (norm : option string) (im : image) : result image :=
  if truthy norm
  then if is_str norm "divide_255" then Ok (map3 (fun x => (x / 255)%float) im)
       else if is_str norm "divide_256" then Ok (map3 (fun x => (x / 256)%float) im)
       else if is_str norm "by_chanels" then by_chanels_image im
            else Ok im
  else Ok im.

(** The results of a function over a list, up to its first error. *)
Fixpoint map_result {A B} (f : A -> result B) (l : list A) : result (list B) :=
  match l with
  | [] => Ok []
  | x :: rest =>
      rbind (f x) (fun y => rbind (map_result f rest) (fun ys => Ok (y :: ys)))
  end.

(** An epoch dataset: what a call of the constructor on an aligned corpus
    returned, and whatever completed calls of [next_batch] and
    [start_new_epoch] made of it since. *)
Inductive epoch_dataset : state -> Prop :=
| constructed s0 imgs labs X Y classes shuffle norm aug s :
    image_arrays s0 !! imgs = Some X ->
    label_arrays s0 !! labs = Some Y ->
    length X = length Y ->
    new_CifarDataSet imgs labs classes shuffle norm aug s0 = Ret tt s ->
    epoch_dataset s
| batch_served s fuel batch_size batch s' :
    epoch_dataset s ->
    next_batch fuel batch_size s = Ret batch s' ->
    epoch_dataset s'
| epoch_started s s' :
    epoch_dataset s ->
    start_new_epoch s = Ret tt s' ->
    epoch_dataset s'.

(** The state after [self._batch_counter += 1] and nothing else. *)
Definition counter_bumped (s : state) : state :=
  match _batch_counter (self s) with
  | Some c => final (setattr (set_batch_counter (c + 1)) s)
  | None => s
  end.

(** The slice of the epoch images [next_batch] takes at the cursor. *)
Definition images_at_cursor (s : state) (batch_size : Z) : list image :=
  match _batch_counter (self s), epoch_images (self s) with
  | Some c, Some ei =>
      py_slice (default [] (image_arrays s !! ei))
               (Some (c * batch_size)) (Some ((c + 1) * batch_size))
  | _, _ => []
  end.

(** The buffers of the current epoch: the arrays [self.epoch_images] and
    [self.epoch_labels] name. *)
Definition epoch_buffer_images (s : state) : list image :=
  match epoch_images (self s) with
  | Some r => default [] (image_arrays s !! r)
  | None => []
  end.
Definition epoch_buffer_labels (s : state) : list label :=
  match epoch_labels (self s) with
  | Some r => default [] (label_arrays s !! r)
  | None => []
  end.

(** [k] calls of [next_batch(batch_size)] in a row, none of them allowed a
    retry, as the loop over the steps of an epoch makes them; the batches,
    in order. *)
Fixpoint next_batches (k : nat) (batch_size : Z)
  : M (list (list image * list label)) :=
  match k with
  | O => ret []
  | S k' =>
      batch <- next_batch 1 batch_size ;;
      rest <- next_batches k' batch_size ;;
      ret (batch :: rest)
  end.

(** ** The invariant of an epoch dataset *)

(** The base corpus and the configuration of the dataset. *)
Definition based (every : bool) (i l : ref) (aug : bool) (norm : option string)
    (X : list image) (Y : list label) (s : state) : Prop :=
  shuffle_every_epoch (self s) = Some every /\
  images (self s) = Some i /\ labels (self s) = Some l /\
  augmentation (self s) = Some aug /\ normalization (self s) = Some norm /\
  image_arrays s !! i = Some X /\ label_arrays s !! l = Some Y /\
  length X = length Y.

(** The epoch buffers hold the same rows of the images and of the labels,
    the images normalized. *)
Definition epoch_of (norm : option string) (X : list image) (Y : list label)
    (EX : list image) (EY : list label) : Prop :=
  exists idx rows,
    idx ≡ₚ seq 0 (length X) /\
    take_rows Y idx = Ok EY /\
    take_rows X idx = Ok rows /\
    map_result (epoch_image norm) rows = Ok EX.

Definition materialized (c : Z) (EX : list image) (EY : list label) (s : state) : Prop :=
  exists ei el,
    _batch_counter (self s) = Some c /\
    epoch_images (self s) = Some ei /\ epoch_labels (self s) = Some el /\
    image_arrays s !! ei = Some EX /\ label_arrays s !! el = Some EY.

(** What lets [start_new_epoch] complete on a corpus. *)
Definition restartable (aug : bool) (norm : option string) (X : list image) : Prop :=
  (aug = true -> X = []) /\
  Forall (fun im => exists e, epoch_image norm im = Ok e) X.

(** Every array of the earlier state is in the later one, unchanged; and
    the same with the object unchanged too, the arrays added at the end of
    the store. *)
Definition arrays_kept (s s' : state) : Prop :=
  (forall r a, image_arrays s !! r = Some a -> image_arrays s' !! r = Some a) /\
  (forall r a, label_arrays s !! r = Some a -> label_arrays s' !! r = Some a).

Definition extends (s s' : state) : Prop :=
  self s' = self s /\
  (exists ia, image_arrays s' = image_arrays s ++ ia) /\
  (exists la, label_arrays s' = label_arrays s ++ la).

(** The invariant: a configured corpus on which an epoch can start, and
    the buffers and the cursor of the current epoch. *)
Definition inv (every : bool) (i l : ref) (aug : bool) (norm : option string)
    (X : list image) (Y : list label) (s : state) : Prop :=
  based every i l aug norm X Y s /\
  restartable aug norm X /\
  exists c EX EY,
    0 <= c /\ materialized c EX EY s /\ epoch_of norm X Y EX EY.

(** The corpus of a dataset whose constructor was given the arrays [X]
    and [Y]: the arrays as they are, or with 'once_prior_train' their
    rows at one permutation of the indices, the same for both. *)
Definition corpus_from (shuffle : option string)
    (X : list image) (Y : list label) (CX : list image) (CY : list label) : Prop :=
  if decide (shuffle = Some "once_prior_train")
  then exists idx, idx ≡ₚ seq 0 (length X) /\
                   take_rows X idx = Ok CX /\ take_rows Y idx = Ok CY
  else CX = X /\ CY = Y.

(** ** The random generator, left alone *)

(** An action that leaves the random generator where it found it,
    whatever it ends in. *)
Definition tape_kept {A} (m : M A) : Prop :=
  forall s, raw_draws (final (m s)) = raw_draws s /\
            draws_used (final (m s)) = draws_used s.

End DataSet.

Arguments state : clear implicits.
Arguments Ret {label A} a s.
Arguments Raise {label A} e s.
Arguments Unfinished {label A} s.

Notation "x <- m ;; k" := (bind m (fun x => k))
  (at level 100, m at next level, right associativity).
Notation "m ;; k" := (bind m (fun _ => k))
  (at level 100, right associativity).

(** ** What the properties of the helpers speak about *)

(** What [normalize_all_images_by_chanels] stores for an image: its
    shape, and its first three channels normalized. *)
Definition normalized_by_chanels (img new_image : image) : Prop :=
  shape3 new_image = shape3 img /\
  forall x y k,
    (x < (shape3 img).1.1)%nat -> (y < (shape3 img).1.2)%nat ->
    (k < (shape3 img).2)%nat ->
    get3 new_image x y k =
    if (k <? 3)%nat
    then ((get3 img x y k - np_mean (channel img k)) / np_std (channel img k))%float
    else 0%float.

(** A property of every pixel of an image. *)
Definition all_pixels (P : float -> Prop) (im : image) : Prop :=
  Forall (Forall (Forall P)) (rows3 im).

(** The pixels of the archives: a byte, as a float. *)
Definition is_byte (x : float) : Prop :=
  exists k : Z, 0 <= k <= 255 /\ x = PrimFloat.of_uint63 (Uint63.of_Z k).

(** [j] is the place of the first greatest element of [row]. *)
Definition first_maximum (row : list float) (j : Z) : Prop :=
  exists v,
    0 <= j /\ row !! Z.to_nat j = Some v /\
    Forall (fun x => (x <=? v)%float = true) row /\
    forall q x, (q < Z.to_nat j)%nat -> row !! q = Some x -> (v <=? x)%float = false.

(** ** Paths and names *)

(** [os.path.join] of two components, as [posixpath] has it. *)
Definition starts_with_sep (p : string) : bool :=
  match p with
  | String c _ => Ascii.eqb c "/"%char
  | EmptyString => false
  end.

Fixpoint ends_with_sep (p : string) : bool :=
  match p with
  | EmptyString => false
  | String c EmptyString => Ascii.eqb c "/"%char
  | String _ rest => ends_with_sep rest
  end.

Definition os_path_join (a b : string) : string :=
  if starts_with_sep b then b
  else if String.eqb a "" || ends_with_sep a then a +:+ b
  else a +:+ "/" +:+ b.

(** [range(a, b)] *)
Definition range (a b : Z) : list Z :=
  map (fun k => a + Z.of_nat k) (seq 0 (Z.to_nat (b - a))).

(** ** The batch files *)

(** A batch file of the archive, unpickled: a dict that holds the pixel
    rows, an array (N, 3072) of bytes, under [b'data'], and the class
    indices, a list of ints, under [b'labels'] (CIFAR-10) or
    [b'fine_labels'] (CIFAR-100).  [None] is a key the dict does not have. *)
Record batch_file := Pickled {
  b_data : option ndarray2;
  b_labels : option (list Z);
  b_fine_labels : option (list Z) }.

(** [a.reshape(-1, d1, d2, d3)]: the elements in C order, cut into blocks
    of [d1 * d2 * d3]; a ValueError when they do not fill the blocks. *)
Definition reshape (a : ndarray2) (d1 d2 d3 : nat) : result (list ndarray3) :=
  let flat := elements2 a in
  let block := (d1 * d2 * d3)%nat in
  if (block =? 0)%nat then Err ValueError
  else if (length flat mod block =? 0)%nat
       then Ok (tab (length flat / block) (fun n =>
                  build3 d1 d2 d3 (fun i j k =>
                    nth (n * block + (i * d2 + j) * d3 + k) flat 0%float)))
       else Err ValueError.

(** [a.swapaxes(1, 3)] and [a.swapaxes(1, 2)] of a 4-D array: in each of
    its 3-D arrays, the first and last axes, the first two axes. *)
Definition swapaxes_1_3 (a : list ndarray3) : list ndarray3 :=
  map (fun im => let '(d1, d2, d3) := shape3 im in
                 build3 d3 d2 d1 (fun i j k => get3 im k j i)) a.
Definition swapaxes_1_2 (a : list ndarray3) : list ndarray3 :=
  map (fun im => let '(d1, d2, d3) := shape3 im in
                 build3 d2 d1 d3 (fun i j k => get3 im j i k)) a.

(** [np.vstack] of 4-D arrays of images: one array of all the images; a
    ValueError when there is no array. *)
Definition np_vstack (arrays : list (list image)) : result (list image) :=
  match arrays with
  | [] => Err ValueError
  | _ => Ok (concat arrays)
  end.

(** [np.hstack] of lists of ints: one 1-D array; a ValueError when there
    is no list.  An empty list is an array of floats to numpy, and makes
    the result one: the flag is whether the result holds integers. *)
Definition np_hstack (lists : list (list Z)) : result (bool * list Z) :=
  match lists with
  | [] => Err ValueError
  | _ => Ok (forallb (fun l => negb (length l =? 0)%nat) lists, concat lists)
  end.

(** ** The provider, its datasets and the monad of its methods *)

(** A label of a dataset: a class index, or a one-hot row. *)
Inductive plabel :=
| class_index (k : Z)
| one_hot_row (row : list float).

Inductive pyerror :=
| Exn (e : exn)          (* raised by the arrays or by a dataset *)
| KeyError
| FileNotFoundError
| UnboundLocalError
| NotImplementedError.

(** The attributes of a provider; [None] in [train], [validation] and
    [test] is an attribute not assigned yet. *)
Record CifarDataProvider := Provider {
  _save_path : option string;      (* a path, or Python's None *)
  one_hot : bool;
  train : option ref;
  validation : option ref;
  test : option ref }.

(** The program state: the provider, the [CifarDataSet] objects made so
    far (a dataset is named by its place), the arrays, the random
    generator, and the files. *)
Record world := World {
  provider : CifarDataProvider;
  objects : list CifarDataSet;
  arrays_of_images : list (list image);
  arrays_of_labels : list (list plabel);
  generator : nat -> nat;
  generator_used : nat;
  files : gmap string batch_file }.

Inductive ran (A : Type) :=
| Returned (a : A) (w : world)
| Failed (e : pyerror) (w : world)
| Cut (w : world).  (* a recursion budget ran out *)
Arguments Returned {A} a w.
Arguments Failed {A} e w.
Arguments Cut {A} w.

Definition PM (A : Type) : Type := world -> ran A.

#[global] Instance PM_ret : MRet PM := fun A a w => Returned a w.
#[global] Instance PM_bind : MBind PM := fun A B k m w =>
  match m w with
  | Returned a w' => k a w'
  | Failed e w' => Failed e w'
  | Cut w' => Cut w'
  end.

Definition throw {A} (e : pyerror) : PM A := fun w => Failed e w.

Definition attempt {A} (r : result A) : PM A :=
  match r with
  | Ok a => mret a
  | Err e => throw (Exn e)
  end.

Definition either {A} (r : pyerror + A) : PM A :=
  match r with
  | inr a => mret a
  | inl e => throw e
  end.

(** [d[key]] *)
Definition getitem {A} (v : option A) : PM A :=
  match v with
  | Some a => mret a
  | None => throw KeyError
  end.

(** The state a method of the dataset [o] runs in, and the world it
    leaves. *)
Definition enter (o : CifarDataSet) (w : world) : state plabel :=
  State o (arrays_of_images w) (arrays_of_labels w) (generator w) (generator_used w).
Definition leave (s : state plabel) (w : world) : world :=
  World (provider w) (objects w) (image_arrays s) (label_arrays s)
        (raw_draws s) (draws_used s) (files w).

Definition with_self {A} (o : CifarDataSet) (m : @M plabel A) : PM (A * CifarDataSet) :=
  fun w =>
    match m (enter o w) with
    | Ret a s => Returned (a, self s) (leave s w)
    | Raise e s => Failed (Exn e) (leave s w)
    | Unfinished s => Cut (leave s w)
    end.

(** An action on the arrays alone. *)
Definition on_arrays {A} (m : @M plabel A) : PM A :=
  p ← with_self blank m; mret p.1.

Definition new_object (o : CifarDataSet) : PM ref :=
  fun w => Returned (length (objects w))
             (World (provider w) (objects w ++ [o]) (arrays_of_images w)
                    (arrays_of_labels w) (generator w) (generator_used w) (files w)).

(** [CifarDataSet(images, labels, n_classes, shuffle, normalization,
    augmentation)] *)
Definition CifarDataSet_ (imgs labs : ref) (classes : Z)
    (shuffle normalization_ : option string) (augmentation_ : bool) : PM ref :=
  p ← with_self blank
        (new_CifarDataSet imgs labs classes shuffle normalization_ augmentation_);
  new_object p.2.

Definition the_provider : PM CifarDataProvider := fun w => Returned (provider w) w.
Definition set_provider (assign : CifarDataProvider -> CifarDataProvider) : PM unit :=
  fun w => Returned tt
             (World (assign (provider w)) (objects w) (arrays_of_images w)
                    (arrays_of_labels w) (generator w) (generator_used w) (files w)).

Definition set_save_path (v : option string) (p : CifarDataProvider) :=
  Provider v (one_hot p) (train p) (validation p) (test p).
Definition set_train (v : ref) (p : CifarDataProvider) :=
  Provider (_save_path p) (one_hot p) (Some v) (validation p) (test p).
Definition set_validation (v : ref) (p : CifarDataProvider) :=
  Provider (_save_path p) (one_hot p) (train p) (Some v) (test p).
Definition set_test (v : ref) (p : CifarDataProvider) :=
  Provider (_save_path p) (one_hot p) (train p) (validation p) (Some v).

(** [self.name], an AttributeError when nothing assigned it. *)
Definition attribute {A} (name : CifarDataProvider -> option A) : PM A :=
  p ← the_provider;
  match name p with
  | Some v => mret v
  | None => throw (Exn AttributeError)
  end.

(** [open(fname, 'rb')] and [pickle.load]. *)
Definition load_pickle (fname : string) : PM batch_file :=
  fun w =>
    match files w !! fname with
    | Some d => Returned d w
    | None => Failed FileNotFoundError w
    end.

(** ** The classes of CifarDataProvider *)

(** What a subclass of [CifarDataProvider] defines. *)
Record provider_class := Subclass {
  _n_classes : Z;
  data_augmentation : bool;
  get_filenames : string -> pyerror + (list string * list string) }.

Definition CifarDataProvider_n_classes (cls : provider_class) : Z := _n_classes cls.

Definition save_path (cls : provider_class) : PM string :=
  p ← the_provider;
  match _save_path p with
  | None =>
      let path := "/tmp/cifar" +:+ pretty (CifarDataProvider_n_classes cls) in
      _ ← set_provider (set_save_path (Some path));
      mret path
  | Some path => mret path
  end.

Definition data_url (cls : provider_class) : string :=
  "http://www.cs.toronto.edu/~kriz/cifar-"
    +:+ pretty (CifarDataProvider_n_classes cls) +:+ "-python.tar.gz".

Definition data_shape : nat * nat * nat := (32, 32, 3)%nat.

(** [get_filenames] of the class itself: the subclasses replace it. *)
Definition CifarDataProvider_get_filenames (save_path : string)
  : pyerror + (list string * list string) :=
  inl NotImplementedError.

Inductive labels_key := key_labels | key_fine_labels.

Definition labels_at (key : labels_key) (d : batch_file) : option (list Z) :=
  match key with
  | key_labels => b_labels d
  | key_fine_labels => b_fine_labels d
  end.

(** The loop of [read_cifar], with the two lists it fills. *)
Fixpoint read_batches (key : option labels_key) (filenames : list string)
    (images_res : list (list image)) (labels_res : list (list Z))
  : PM (list (list image) * list (list Z)) :=
  match filenames with
  | [] => mret (images_res, labels_res)
  | fname :: rest =>
      images_and_labels ← load_pickle fname;
      images ← getitem (b_data images_and_labels);
      images ← attempt (reshape images 3 32 32);
      let images := swapaxes_1_2 (swapaxes_1_3 images) in
      let images_res := images_res ++ [images] in
      key' ← match key with
             | Some k => mret k
             | None => throw UnboundLocalError
             end;
      labs ← getitem (labels_at key' images_and_labels);
      read_batches key rest images_res (labels_res ++ [labs])
  end.

(** [self.labels_to_one_hot(labels)] on the array [np.hstack] made:
    an array of floats is no index. *)
Definition provider_labels_to_one_hot (cls : provider_class) (labels_res : bool * list Z)
  : result (list plabel) :=
  let '(integers, labs) := labels_res in
  if integers
  then rbind (labels_to_one_hot (CifarDataProvider_n_classes cls) labs)
         (fun a => Ok (map one_hot_row (rows2 a)))
  else if CifarDataProvider_n_classes cls <? 0 then Err ValueError
       else Err IndexError.

Definition read_cifar (cls : provider_class) (filenames : list string) : PM (ref * ref) :=
  let key :=
    if CifarDataProvider_n_classes cls =? 10 then Some key_labels
    else if CifarDataProvider_n_classes cls =? 100 then Some key_fine_labels
    else None in
  p ← read_batches key filenames [] [];
  images_res ← attempt (np_vstack p.1);
  labels_res ← attempt (np_hstack p.2);
  p ← the_provider;
  labels_res ← (if one_hot p
                then attempt (provider_labels_to_one_hot cls labels_res)
                else mret (map class_index labels_res.2));
  images_res ← on_arrays (new_image_array images_res);
  labels_res ← on_arrays (new_label_array labels_res);
  mret (images_res, labels_res).

(** The subclasses. *)
Definition Cifar10_get_filenames (save_path : string)
  : pyerror + (list string * list string) :=
  let sub_save_path := os_path_join save_path "cifar-10-batches-py" in
  let train_filenames :=
    map (fun i => os_path_join sub_save_path ("data_batch_" +:+ pretty i)) (range 1 6) in
  let test_filenames := [os_path_join sub_save_path "test_batch"] in
  inr (train_filenames, test_filenames).

Definition Cifar100_get_filenames (save_path : string)
  : pyerror + (list string * list string) :=
  let sub_save_path := os_path_join save_path "cifar-100-python" in
  let train_filenames := [os_path_join sub_save_path "train"] in
  let test_filenames := [os_path_join sub_save_path "test"] in
  inr (train_filenames, test_filenames).

Definition Cifar10DataProvider : provider_class :=
  Subclass 10 false Cifar10_get_filenames.
Definition Cifar100DataProvider : provider_class :=
  Subclass 100 false Cifar100_get_filenames.
Definition Cifar10AugmentedDataProvider : provider_class :=
  Subclass 10 true (get_filenames Cifar10DataProvider).
Definition Cifar100AugmentedDataProvider : provider_class :=
  Subclass 100 true (get_filenames Cifar100DataProvider).

(** The parameters of the training: the dict [train_params] with the
    values its docstring gives the keys.  [None] is a key that is missing,
    and for the keys read with [train_params.get(key, None)] one that
    holds Python's None as well; ['one_hot'] is a bool when it is there. *)
Module train_params.
Record dict := Dict {
  save_path : option string;
  one_hot : option bool;
  validation_set : option bool;
  validation_split : option float;
  shuffle : option string;
  normalization : option string }.
End train_params.

(** The truth value of a bool or None, and of a float or None. *)
Definition truthy_bool (v : option bool) : bool := default false v.
Definition truthy_float (v : option float) : bool :=
  match v with
  | Some f => negb (f =? 0)%float
  | None => false
  end.

(** Lines 165 to 183 of [__init__], after the training files are read:
    the train dataset, and the validation dataset when a split is asked
    for. *)
Definition add_train_and_validation (cls : provider_class)
    (validation_set : option bool) (validation_split : option float)
    (shuffle normalization_ : option string) (images labels : ref) : PM unit :=
  match validation_set, validation_split with
  | Some _, Some f =>
      X ← on_arrays (read_images images);
      split_idx ← attempt (split_index (length X) f);
      train_images ← on_arrays (new_image_array (py_slice X None (Some split_idx)));
      Y ← on_arrays (read_labels labels);
      train_labels ← on_arrays (new_label_array (py_slice Y None (Some split_idx)));
      o ← CifarDataSet_ train_images train_labels (CifarDataProvider_n_classes cls)
            shuffle normalization_ (data_augmentation cls);
      _ ← set_provider (set_train o);
      X ← on_arrays (read_images images);
      validation_images ← on_arrays (new_image_array (py_slice X (Some split_idx) None));
      Y ← on_arrays (read_labels labels);
      validation_labels ← on_arrays (new_label_array (py_slice Y (Some split_idx) None));
      o ← CifarDataSet_ validation_images validation_labels
            (CifarDataProvider_n_classes cls)
            shuffle normalization_ (data_augmentation cls);
      set_provider (set_validation o)
  | _, _ =>
      o ← CifarDataSet_ images labels (CifarDataProvider_n_classes cls)
            shuffle normalization_ (data_augmentation cls);
      set_provider (set_train o)
  end.

(** Lines 185 to 194: the test dataset, which is the validation dataset
    too when one is asked for without a split. *)
Definition add_test_set (cls : provider_class)
    (validation_set : option bool) (validation_split : option float)
    (shuffle normalization_ : option string) (test_fnames : list string) : PM unit :=
  p ← read_cifar cls test_fnames;
  o ← CifarDataSet_ p.1 p.2 (CifarDataProvider_n_classes cls)
        shuffle normalization_ false;
  _ ← set_provider (set_test o);
  if truthy_bool validation_set && negb (truthy_float validation_split)
  then o ← attribute test; set_provider (set_validation o)
  else mret tt.

Section Downloader.

(** [download_data_url] is not among the sources: any function of the
    address, the directory and the files, which leaves files or raises. *)
Variable download_data_url :
  string -> string -> gmap string batch_file -> pyerror + gmap string batch_file.

Definition download (url path : string) : PM unit :=
  fun w =>
    match download_data_url url path (files w) with
    | inr d => Returned tt (World (provider w) (objects w) (arrays_of_images w)
                                  (arrays_of_labels w) (generator w)
                                  (generator_used w) d)
    | inl e => Failed e w
    end.

Definition CifarDataProvider__init__ (cls : provider_class)
    (params : train_params.dict) : PM unit :=
  _ ← set_provider (fun _ =>
        Provider (train_params.save_path params)
                 (default true (train_params.one_hot params)) None None None);
  let validation_set := train_params.validation_set params in
  let validation_split := train_params.validation_split params in
  let shuffle := train_params.shuffle params in
  let normalization_ := train_params.normalization params in
  path ← save_path cls;
  _ ← download (data_url cls) path;
  path ← save_path cls;
  fnames ← either (get_filenames cls path);
  let train_fnames := fnames.1 in
  let test_fnames := fnames.2 in
  p ← read_cifar cls train_fnames;
  _ ← add_train_and_validation cls validation_set validation_split
        shuffle normalization_ p.1 p.2;
  add_test_set cls validation_set validation_split shuffle normalization_ test_fnames.

End Downloader.

(** ** What the properties of the provider speak about *)

(** What [read_cifar] finds in a batch file it can read. *)
Definition batch_read (key : labels_key) (w : world) (fname : string)
    (batch : list image * list Z) : Prop :=
  exists d a r,
    files w !! fname = Some d /\ b_data d = Some a /\
    reshape a 3 32 32 = Ok r /\ batch.1 = swapaxes_1_2 (swapaxes_1_3 r) /\
    labels_at key d = Some batch.2.

(** An action that, when it returns, has left the provider and its
    datasets alone. *)
Definition quiet {A} (m : PM A) : Prop :=
  forall w a w', m w = Returned a w' ->
                 provider w' = provider w /\ objects w' = objects w.

(** The world an outcome ends in. *)
Definition world_of {A} (r : ran A) : world :=
  match r with
  | Returned _ w => w
  | Failed _ w => w
  | Cut w => w
  end.

(** ** A small corpus for the examples

    Five images of one pixel and three channels, their labels, and a tape
    for the random generator. *)
Definition pixel_image (v : Z) : image :=
  Nd3 (1, 1, 3)%nat
      [[[PrimFloat.of_uint63 (Uint63.of_Z v); 0%float; 1%float]]].
Definition example_images : list image :=
  map pixel_image [10; 20; 30; 40; 50].
Definition example_labels : list Z := [0; 1; 2; 3; 4].
Definition example_draws (k : nat) : nat := (7 * k + 3)%nat.

(** The program state before the dataset is built: the corpus is in the
    store, at reference 0 of the images and reference 0 of the labels. *)
Definition example_world : state Z :=
  State blank [example_images] [example_labels] example_draws 0.

(** [CifarDataSet(images, labels, 10, 'every_epoch', 'divide_255', False)] *)
Definition example_dataset : state Z :=
  final (new_CifarDataSet 0%nat 0%nat 10 (Some "every_epoch") (Some "divide_255")
                          false example_world).

(** The same dataset after two calls of [next_batch(2)]: one example of
    the epoch is left. *)
Definition example_dataset_late : state Z :=
  final (next_batch 2 2 (final (next_batch 2 2 example_dataset))).

(** The scenario of the design document: twenty images, the labels 0 to 9
    twice over as one-hot rows, no shuffling, no augmentation, no
    normalization. *)
Definition scenario_images : list image :=
  map (fun k => pixel_image (Z.of_nat k)) (seq 0 20).
Definition scenario_labels : list (list float) :=
  match labels_to_one_hot 10 (map (fun k => Z.of_nat k mod 10) (seq 0 20)) with
  | Ok a => rows2 a
  | Err _ => []
  end.
Definition scenario_dataset : state (list float) :=
  final (new_CifarDataSet 0%nat 0%nat 10 None None false
           (State blank [scenario_images] [scenario_labels] example_draws 0)).

(** The state after one more call of [next_batch(batch_size)], one retry
    allowed, and the batch it returned. *)
Definition after_batch {label} (batch_size : Z) (s : state label) : state label :=
  final (next_batch 2 batch_size s).
Definition batch_of {label} (batch_size : Z) (s : state label)
  : option (list image * list label) :=
  match next_batch 2 batch_size s with
  | Ret batch _ => Some batch
  | Raise _ _ => None
  | Unfinished _ => None
  end.

(** Five images and three labels. *)
Definition misaligned_world : state Z :=
  State blank [example_images] [[0; 1; 2]] example_draws 0.

(** The corpus of five examples, in the world of a provider. *)
Definition corpus_world : world :=
  World (Provider None false None None None) [] [example_images]
        [map class_index example_labels] example_draws 0 ∅.

(** ** A small archive

    Two batch files of CIFAR-100 under [/data], one image each, and the
    parameters of a provider that reads them. *)
Definition example_row : list float :=
  map (fun k => PrimFloat.of_uint63 (Uint63.of_Z (Z.of_nat k mod 256))) (seq 0 3072).
Definition example_batch (fine_label : Z) : batch_file :=
  Pickled (Some (Nd2 (1, 3072)%nat [example_row])) None (Some [fine_label]).
Definition example_files : gmap string batch_file :=
  {[ "/data/cifar-100-python/train" := example_batch 5;
     "/data/cifar-100-python/test" := example_batch 7 ]}.
Definition example_params : train_params.dict :=
  train_params.Dict (Some "/data") (Some false) (Some true) None None None.
Definition empty_world : world :=
  World (Provider None false None None None) [] [] [] example_draws 0 example_files.
Definition no_download (url path : string) (d : gmap string batch_file)
  : pyerror + gmap string batch_file := inr d.

(** The image of [example_row]. *)
Definition example_decoded : list image :=
  match reshape (Nd2 (1, 3072)%nat [example_row]) 3 32 32 with
  | Ok r => swapaxes_1_2 (swapaxes_1_3 r)
  | Err _ => []
  end.

(** An image of 2 rows and 4 columns: the 8 values of channel [k] are the
    tenths from 0.1 to 0.8, times [k + 1]. *)
Definition tenths_image : image :=
  build3 2 4 3 (fun x y k =>
    (PrimFloat.of_uint63 (Uint63.of_Z (Z.of_nat ((4 * x + y + 1) * (k + 1)))) / 10)%float).

(** A batch of that image and of an image of one pixel. *)
Definition tenths_world : state Z :=
  State blank [[tenths_image; pixel_image 7]] [] example_draws 0.

(** 50000 examples of one pixel, in the world of a provider. *)
Definition large_world : world :=
  World (Provider None false None None None) []
        [replicate (Z.to_nat 50000) (pixel_image 0)]
        [replicate (Z.to_nat 50000) (class_index 0)] example_draws 0 ∅.

(** * Properties *)

(** ** Proof steps *)

(** Boolean comparisons of integers. *)
Ltac zbool :=
  first [ lia
        | apply Z.ltb_ge; lia | apply Z.ltb_lt; lia
        | apply Z.leb_le; lia | apply Z.leb_gt; lia
        | apply Z.eqb_eq; lia | apply Z.eqb_neq; lia ].

(** Unfolding the plumbing of the monad and of the object. *)
Ltac mstep :=
  unfold bind;
  cbn [ret raise lift setattr getattr DataSet_attribute final
       self image_arrays label_arrays raw_draws draws_used
       with_image_arrays with_label_arrays
       shuffle_every_epoch images labels n_classes augmentation normalization
       _batch_counter epoch_images epoch_labels
       set_shuffle_every_epoch set_images set_labels set_n_classes
       set_augmentation set_normalization set_batch_counter
       set_epoch_images set_epoch_labels blank fst snd].

Ltac mbeta := cbv beta zeta; cbn [fst snd].

Section Properties.
Context {label : Type}.
Implicit Types s : state label.
Implicit Types X : list image.
Implicit Types Y : list label.

(** ** Slices and index arrays *)

Lemma slice_bound_range (n i : Z) : 0 <= n -> 0 <= slice_bound n i <= n.
Proof. unfold slice_bound. destruct (i <? 0) eqn:E; lia. Qed.

Lemma py_slice_length {A} (l : list A) (start stop : option Z) :
  length (py_slice l start stop) = (slice_range (length l) start stop).2.
Proof.
  unfold py_slice, slice_range. cbn [snd].
  set (n := Z.of_nat (length l)).
  assert (Hlo : 0 <= from_option (slice_bound n) 0 start <= n).
  { destruct start; cbn; [apply slice_bound_range|]; lia. }
  assert (Hhi : 0 <= from_option (slice_bound n) n stop <= n).
  { destruct stop; cbn; [apply slice_bound_range|]; lia. }
  rewrite length_take, length_drop. lia.
Qed.

Lemma py_slice_le {A} (l : list A) (start stop : option Z) :
  (length (py_slice l start stop) <= length l)%nat.
Proof.
  unfold py_slice, slice_range. rewrite length_take, length_drop. lia.
Qed.

(** [a[:k] + a[k:]] is [a], for every integer [k]. *)
Lemma py_slice_split {A} (l : list A) (k : Z) :
  py_slice l None (Some k) ++ py_slice l (Some k) None = l.
Proof.
  unfold py_slice, slice_range. cbn [from_option].
  set (n := Z.of_nat (length l)).
  pose proof (slice_bound_range n k ltac:(lia)) as Hk.
  rewrite Z.sub_0_r. change (Z.to_nat 0) with 0%nat. rewrite drop_0.
  rewrite (take_ge (drop _ _)) by (rewrite length_drop; lia).
  apply take_drop.
Qed.

(** Inside the array, [a[:k]] and [a[k:]] are the first [k] rows and the
    rest. *)
Lemma py_slice_prefix {A} (l : list A) (k : Z) :
  0 <= k <= Z.of_nat (length l) ->
  py_slice l None (Some k) = take (Z.to_nat k) l /\
  py_slice l (Some k) None = drop (Z.to_nat k) l.
Proof.
  intros Hk. unfold py_slice, slice_range, slice_bound. cbn [from_option].
  assert ((k <? 0) = false) as -> by lia.
  rewrite Z.min_l by lia. rewrite Z.sub_0_r. change (Z.to_nat 0) with 0%nat.
  rewrite drop_0. split; [done|].
  apply take_ge. rewrite length_drop. lia.
Qed.

(** The window of [next_batch] for a cursor [c] and a batch size [b]. *)
Lemma slice_range_window (n : nat) (c b : Z) :
  0 <= c -> 0 <= b ->
  slice_range n (Some (c * b)) (Some ((c + 1) * b)) =
  (Z.to_nat (Z.min (c * b) (Z.of_nat n)),
   Z.to_nat (Z.min ((c + 1) * b) (Z.of_nat n) - Z.min (c * b) (Z.of_nat n))).
Proof.
  intros Hc Hb. unfold slice_range, slice_bound. cbn [from_option].
  assert ((c * b <? 0) = false) as -> by nia.
  assert (((c + 1) * b <? 0) = false) as -> by nia.
  reflexivity.
Qed.

Lemma take_rows_lookup {A} (a : list A) (idx : list nat) (rows : list A) :
  take_rows a idx = Ok rows ->
  length rows = length idx /\
  forall k j, idx !! k = Some j -> rows !! k = a !! j /\ (j < length a)%nat.
Proof.
  revert rows. induction idx as [|i idx IH]; intros rows H; cbn in H.
  - inversion H. split; [done|]. intros k j Hk. by rewrite lookup_nil in Hk.
  - destruct (a !! i) as [x|] eqn:Hi; [|done].
    destruct (take_rows a idx) as [xs|] eqn:Hxs; [|done].
    cbn in H. inversion H; subst. destruct (IH xs eq_refl) as [Hlen Hrows].
    split; [cbn; lia|]. intros [|k] j Hk; cbn in Hk |- *.
    + inversion Hk; subst. split; [done|]. by eapply lookup_lt_Some.
    + by apply Hrows.
Qed.

Lemma take_rows_ok {A} (a : list A) (idx : list nat) :
  Forall (fun i => (i < length a)%nat) idx ->
  exists rows, take_rows a idx = Ok rows.
Proof.
  induction 1 as [|i idx Hi _ [rows IH]]; cbn; [by eexists|].
  destruct (lookup_lt_is_Some_2 a i Hi) as [x ->]. rewrite IH. cbn. by eexists.
Qed.

Lemma take_rows_app {A} (a : list A) (i1 i2 : list nat) (r : list A) :
  take_rows a (i1 ++ i2) = Ok r ->
  exists r1 r2, take_rows a i1 = Ok r1 /\ take_rows a i2 = Ok r2 /\ r = r1 ++ r2.
Proof.
  revert r. induction i1 as [|i i1 IH]; intros r H; cbn in *.
  - by exists [], r.
  - destruct (a !! i) as [x|]; [|done].
    destruct (take_rows a (i1 ++ i2)) as [xs|] eqn:Hxs; [|done].
    cbn in H. inversion H; subst.
    destruct (IH xs eq_refl) as (r1 & r2 & -> & -> & ->).
    by exists (x :: r1), r2.
Qed.

(** A window of an index array selects the same window of the rows. *)
Lemma take_rows_window {A} (a : list A) (idx : list nat) (rows : list A) (lo len : nat) :
  take_rows a idx = Ok rows ->
  take_rows a (take len (drop lo idx)) = Ok (take len (drop lo rows)).
Proof.
  intros H.
  rewrite <- (take_drop lo idx) in H.
  destruct (take_rows_app _ _ _ _ H) as (r1 & r2 & H1 & H2 & ->).
  rewrite <- (take_drop len (drop lo idx)) in H2.
  destruct (take_rows_app _ _ _ _ H2) as (r3 & r4 & H3 & H4 & ->).
  rewrite H3. f_equal.
  destruct (take_rows_lookup _ _ _ H1) as [L1 _].
  destruct (take_rows_lookup _ _ _ H3) as [L3 _].
  rewrite length_take in L1. rewrite length_take, length_drop in L3.
  destruct (take_rows_lookup _ _ _ H4) as [L4 _].
  rewrite length_drop, length_drop in L4.
  destruct (decide (lo <= length idx)%nat) as [Hlo|Hlo].
  - rewrite drop_app_length' by lia.
    destruct (decide (len <= length idx - lo)%nat) as [Hlen|Hlen].
    + by rewrite take_app_length' by lia.
    + assert (r4 = []) as -> by (apply length_zero_iff_nil; lia).
      rewrite app_nil_r. symmetry. apply take_ge. lia.
  - assert (r3 = []) as -> by (apply length_zero_iff_nil; lia).
    assert (r4 = []) as -> by (apply length_zero_iff_nil; lia).
    cbn. rewrite app_nil_r. rewrite drop_ge by lia. by rewrite take_nil.
Qed.

(** ** The random generator *)

Lemma insert_at_perm {A} (k : nat) (x : A) (l : list A) :
  insert_at k x l ≡ₚ x :: l.
Proof.
  unfold insert_at. rewrite <- Permutation_middle. by rewrite take_drop.
Qed.

Lemma permutation_of_perm (n r : nat) : permutation_of n r ≡ₚ seq 0 n.
Proof.
  revert r. induction n as [|m IH]; intros r; [done|].
  cbn [permutation_of]. rewrite insert_at_perm, IH, seq_S. cbn [plus].
  apply Permutation_cons_append.
Qed.

(** Every permutation of the indices is the decoding of some draw. *)
Lemma permutation_of_complete (n : nat) (perm : list nat) :
  perm ≡ₚ seq 0 n -> exists r, permutation_of n r = perm.
Proof.
  revert perm. induction n as [|m IH]; intros perm Hp.
  - exists 0%nat. apply Permutation_nil_r in Hp. by subst.
  - rewrite seq_S in Hp. cbn [plus] in Hp.
    assert (m ∈ perm) as Hin.
    { rewrite Hp. apply elem_of_app. right. apply list_elem_of_singleton.
      reflexivity. }
    apply list_elem_of_split in Hin as (l1 & l2 & ->).
    assert (Hrest : l1 ++ l2 ≡ₚ seq 0 m).
    { apply (Permutation_cons_inv (a := m)).
      rewrite Permutation_middle, Hp. symmetry. apply Permutation_cons_append. }
    destruct (IH _ Hrest) as [r Hr].
    assert (Hk : (length l1 < S m)%nat).
    { apply Permutation_length in Hrest.
      rewrite length_app, length_seq in Hrest. lia. }
    exists (length l1 + r * S m)%nat. cbn [permutation_of].
    rewrite Nat.Div0.mod_add, Nat.mod_small by done.
    rewrite Nat.div_add, Nat.div_small by (done || lia). cbn [plus].
    rewrite Hr. unfold insert_at.
    by rewrite take_app_length, drop_app_length.
Qed.

Lemma permutation_of_bound (n r : nat) :
  Forall (fun i => (i < n)%nat) (permutation_of n r).
Proof.
  rewrite (permutation_of_perm n r). apply Forall_forall.
  intros i Hi. apply list_elem_of_In, in_seq in Hi. lia.
Qed.

Lemma permutation_of_length (n r : nat) : length (permutation_of n r) = n.
Proof. rewrite (permutation_of_perm n r). apply length_seq. Qed.

(** ** Running the methods *)

Lemma bind_Ret {A B} (m : M A) (k : A -> M B) s a s' :
  m s = Ret a s' -> bind m k s = k a s'.
Proof. unfold bind. by intros ->. Qed.

Lemma bind_Raise {A B} (m : M A) (k : A -> M B) s e s' :
  m s = Raise e s' -> bind m k s = Raise e s'.
Proof. unfold bind. by intros ->. Qed.

Lemma Ret_inj {A} (a b : A) s s' : Ret a s = Ret b s' -> a = b /\ s = s'.
Proof. intros H. by inversion H. Qed.

Lemma getattr_Some {A} (name : CifarDataSet -> option A) s v :
  name (self s) = Some v -> getattr name s = Ret v s.
Proof. unfold getattr. by intros ->. Qed.

Lemma read_images_Some s r a :
  image_arrays s !! r = Some a -> read_images r s = Ret a s.
Proof. unfold read_images. by intros ->. Qed.

Lemma read_labels_Some s r a :
  label_arrays s !! r = Some a -> read_labels r s = Ret a s.
Proof. unfold read_labels. by intros ->. Qed.

Lemma shuffle_images_labels_run s i l X Y :
  image_arrays s !! i = Some X ->
  label_arrays s !! l = Some Y ->
  (length X <= length Y)%nat ->
  exists RX RY,
    take_rows X (permutation_of (length X) (raw_draws s (draws_used s))) = Ok RX /\
    take_rows Y (permutation_of (length X) (raw_draws s (draws_used s))) = Ok RY /\
    shuffle_images_labels i l s =
    Ret (length (image_arrays s), length (label_arrays s))
        (State (self s) (image_arrays s ++ [RX]) (label_arrays s ++ [RY])
               (raw_draws s) (S (draws_used s))).
Proof.
  intros HX HY Hlen.
  set (perm := permutation_of (length X) (raw_draws s (draws_used s))).
  destruct (take_rows_ok X perm) as [RX HRX]; [apply permutation_of_bound|].
  destruct (take_rows_ok Y perm) as [RY HRY].
  { eapply Forall_impl; [apply permutation_of_bound|]. cbn. intros; lia. }
  exists RX, RY. split; [done|]. split; [done|].
  unfold shuffle_images_labels.
  rewrite (bind_Ret _ _ _ _ _ (read_images_Some _ _ _ HX)).
  unfold np_random_permutation, draw. mstep. fold perm. rewrite HRX. mstep.
  unfold new_image_array, read_labels. mstep. rewrite HY. mstep. rewrite HRY.
  mstep. unfold new_label_array. mstep. reflexivity.
Qed.

(** ** The augmentation helpers *)

Lemma index_axis_size (c : nat) : index_axis c (Z.of_nat c) = None.
Proof.
  unfold index_axis.
  assert (((0 <=? Z.of_nat c) && (Z.of_nat c <? Z.of_nat c)) = false) as ->.
  { apply andb_false_iff. right. zbool. }
  assert (((- Z.of_nat c <=? Z.of_nat c) && (Z.of_nat c <? 0)) = false) as ->.
  { apply andb_false_iff. right. zbool. }
  reflexivity.
Qed.

Lemma fits_refl (n : nat) : fits n n = true.
Proof. unfold fits. by rewrite Nat.eqb_refl. Qed.

Lemma shape3_build3 h w c f : shape3 (build3 h w c f) = (h, w, c).
Proof. reflexivity. Qed.

Lemma shape3_np_zeros3 sh : shape3 (np_zeros3 sh) = sh.
Proof. by destruct sh as [[h w] c]. Qed.

Lemma slice_range_pad (n pad : nat) :
  slice_range (n + pad * 2) (Some (Z.of_nat pad)) (Some (Z.of_nat (n + pad))) = (pad, n).
Proof.
  unfold slice_range, slice_bound. cbn [from_option].
  assert ((Z.of_nat pad <? 0) = false) as -> by zbool.
  assert ((Z.of_nat (n + pad) <? 0) = false) as -> by zbool.
  rewrite !Z.min_l by lia. f_equal; lia.
Qed.

(** The zero-padded copy always exists and has the padded shape. *)
Lemma setitem_region_pad (img : image) (pad : nat) h w c :
  shape3 img = (h, w, c) ->
  exists z,
    setitem_region (np_zeros3 (h + pad * 2, w + pad * 2, c)%nat)
      (Z.of_nat pad) (Z.of_nat (h + pad)) (Z.of_nat pad) (Z.of_nat (w + pad)) img
    = Ok z /\ shape3 z = ((h + pad * 2)%nat, (w + pad * 2)%nat, c).
Proof.
  intros Hs. unfold setitem_region. rewrite shape3_np_zeros3.
  rewrite !slice_range_pad. unfold broadcast3. rewrite Hs, !fits_refl.
  cbn [andb rbind]. eexists. split; [reflexivity|]. apply shape3_build3.
Qed.

Lemma randint_Ret (low high : Z) s :
  low < high ->
  randint low high s =
  Ret (low + Z.of_nat (raw_draws s (draws_used s)) mod (high - low))
      (State (self s) (image_arrays s) (label_arrays s)
             (raw_draws s) (S (draws_used s))).
Proof. intros H. unfold randint. assert ((low <? high) = true) as -> by zbool. done. Qed.

Lemma randint_empty (low high : Z) s :
  high <= low -> randint low high s = Raise ValueError s.
Proof. intros H. unfold randint. assert ((low <? high) = false) as -> by zbool. done. Qed.

(** The scalar channel index of the crop is the size of the channel axis,
    one past its last index: [augment_image] raises on every image. *)
Lemma augment_image_Raise (img : image) (pad : nat) s :
  exists s',
    augment_image img pad s =
    Raise (if (pad =? 0)%nat then ValueError else IndexError) s' /\
    self s' = self s /\ image_arrays s' = image_arrays s /\
    label_arrays s' = label_arrays s.
Proof.
  unfold augment_image. destruct (shape3 img) as [[h w] c] eqn:Hs.
  destruct (setitem_region_pad img pad h w c Hs) as (z & -> & Hz).
  destruct pad as [|p].
  - mstep. rewrite randint_empty by lia. cbn. eauto.
  - mstep. rewrite randint_Ret by lia. rewrite randint_Ret by lia.
    unfold getitem_crop. rewrite Hz, index_axis_size. mstep. cbn. eauto.
Qed.

Lemma state_eta s :
  State (self s) (image_arrays s) (label_arrays s) (raw_draws s) (draws_used s) = s.
Proof. by destruct s. Qed.

Lemma augment_all_images_nil s r pad :
  image_arrays s !! r = Some [] ->
  augment_all_images r pad s =
  Ret (length (image_arrays s)) (with_image_arrays (image_arrays s ++ [[]]) s).
Proof.
  intros Hr. unfold augment_all_images.
  rewrite (bind_Ret _ _ _ _ _ (read_images_Some _ _ _ Hr)).
  unfold new_image_array. mstep. reflexivity.
Qed.

Lemma getitem_image_Some s r a i im :
  image_arrays s !! r = Some a -> a !! i = Some im ->
  getitem_image r i s = Ret im s.
Proof.
  intros Hr Hi. unfold getitem_image.
  rewrite (bind_Ret _ _ _ _ _ (read_images_Some _ _ _ Hr)). by rewrite Hi.
Qed.

Lemma setitem_image_Ok s r a i old im :
  image_arrays s !! r = Some a -> a !! i = Some old ->
  setitem_image r i (Ok im) s =
  Ret tt (with_image_arrays (<[r := <[i := im]> a]> (image_arrays s)) s).
Proof.
  intros Hr Hi. unfold setitem_image.
  rewrite (bind_Ret _ _ _ _ _ (read_images_Some _ _ _ Hr)). by rewrite Hi.
Qed.

Lemma setitem_image_Err s r a i old e :
  image_arrays s !! r = Some a -> a !! i = Some old ->
  setitem_image r i (Err e) s = Raise e s.
Proof.
  intros Hr Hi. unfold setitem_image.
  rewrite (bind_Ret _ _ _ _ _ (read_images_Some _ _ _ Hr)). by rewrite Hi.
Qed.

(** On a batch with at least one image the loop stops at its first turn. *)
Lemma augment_all_images_Raise s r pad im rest :
  image_arrays s !! r = Some (im :: rest) ->
  exists s',
    augment_all_images r pad s = Raise IndexError s' /\
    self s' = self s /\ arrays_kept s s'.
Proof.
  intros Hr. unfold augment_all_images.
  rewrite (bind_Ret _ _ _ _ _ (read_images_Some _ _ _ Hr)).
  erewrite bind_Ret by reflexivity.
  cbn [length seq for_each].
  match goal with |- context [bind _ _ ?s1] =>
    destruct (augment_image_Raise im 4 s1) as (s' & Ha & Hself & Hia & Hla);
    assert (Hr1 : image_arrays s1 !! r = Some (im :: rest))
  end.
  { cbn. rewrite lookup_app_l; [done|]. by eapply lookup_lt_Some. }
  exists s'. split.
  - apply bind_Raise, bind_Raise.
    rewrite (bind_Ret _ _ _ _ _ (getitem_image_Some _ _ _ 0%nat im Hr1 eq_refl)).
    by apply bind_Raise.
  - split; [exact Hself|]. unfold arrays_kept. rewrite Hia, Hla. cbn.
    split; [|done].
    intros j a Hj. by apply lookup_app_l_Some.
Qed.

(** ** The normalization helpers *)

Lemma true_divide_run s r d a :
  image_arrays s !! r = Some a ->
  true_divide r d s =
  Ret (length (image_arrays s))
      (with_image_arrays
         (image_arrays s ++ [map (map3 (fun x => (x / d)%float)) a]) s).
Proof.
  intros Hr. unfold true_divide.
  rewrite (bind_Ret _ _ _ _ _ (read_images_Some _ _ _ Hr)). reflexivity.
Qed.

Lemma normalize_loop (src dst : ref) (rest : list image) :
  src <> dst ->
  forall s done filled,
    image_arrays s !! src = Some (done ++ rest) ->
    image_arrays s !! dst =
      Some (filled ++ map (fun im => np_zeros3 (shape3 im)) rest) ->
    length filled = length done ->
    match map_result by_chanels_image rest with
    | Ok R =>
        for_each (seq (length done) (length rest)) (fun i =>
          im <- getitem_image src i ;;
          v <- lift (normalize_image_by_chanel im) ;;
          slot <- getitem_image dst i ;;
          setitem_image dst i (broadcast3 (shape3 slot) v)) s
        = Ret tt (with_image_arrays (<[dst := filled ++ R]> (image_arrays s)) s)
    | Err e =>
        exists s',
          for_each (seq (length done) (length rest)) (fun i =>
            im <- getitem_image src i ;;
            v <- lift (normalize_image_by_chanel im) ;;
            slot <- getitem_image dst i ;;
            setitem_image dst i (broadcast3 (shape3 slot) v)) s
          = Raise e s' /\ self s' = self s /\ label_arrays s' = label_arrays s /\
          length (image_arrays s') = length (image_arrays s) /\
          forall r, r <> dst -> image_arrays s' !! r = image_arrays s !! r
    end.
Proof.
  intros Hne. induction rest as [|im rest IH]; intros s done filled Hsrc Hdst Hlen.
  - cbn. rewrite app_nil_r in *. rewrite list_insert_id by done.
    unfold with_image_arrays. by rewrite state_eta.
  - cbn [length seq for_each map_result map] in *.
    assert (Hk : (done ++ im :: rest) !! length done = Some im)
      by apply list_lookup_middle, eq_refl.
    assert (Hz : (filled ++ np_zeros3 (shape3 im) ::
                    map (fun im => np_zeros3 (shape3 im)) rest) !! length done
                 = Some (np_zeros3 (shape3 im)))
      by (apply list_lookup_middle; done).
    unfold by_chanels_image at 1.
    destruct (normalize_image_by_chanel im) as [v|e] eqn:Hv; cbn [rbind].
    2:{ exists s. split; [|done]. apply bind_Raise.
        rewrite (bind_Ret _ _ _ _ _ (getitem_image_Some _ _ _ _ _ Hsrc Hk)).
        by rewrite Hv. }
    destruct (broadcast3 (shape3 (np_zeros3 (shape3 im))) v) as [w|e] eqn:Hw;
      cbn [rbind].
    2:{ exists s. split; [|done]. apply bind_Raise.
        rewrite (bind_Ret _ _ _ _ _ (getitem_image_Some _ _ _ _ _ Hsrc Hk)).
        rewrite Hv. erewrite bind_Ret by reflexivity.
        rewrite (bind_Ret _ _ _ _ _ (getitem_image_Some _ _ _ _ _ Hdst Hz)).
        rewrite Hw. by eapply setitem_image_Err. }
    set (s1 := with_image_arrays
                 (<[dst := <[length done := w]>
                      (filled ++ np_zeros3 (shape3 im) ::
                         map (fun im => np_zeros3 (shape3 im)) rest)]>
                    (image_arrays s)) s).
    assert (Hbody :
      (im <- getitem_image src (length done) ;;
       v <- lift (normalize_image_by_chanel im) ;;
       slot <- getitem_image dst (length done) ;;
       setitem_image dst (length done) (broadcast3 (shape3 slot) v)) s
      = Ret tt s1).
    { rewrite (bind_Ret _ _ _ _ _ (getitem_image_Some _ _ _ _ _ Hsrc Hk)).
      rewrite Hv. erewrite bind_Ret by reflexivity.
      rewrite (bind_Ret _ _ _ _ _ (getitem_image_Some _ _ _ _ _ Hdst Hz)).
      rewrite Hw. by eapply setitem_image_Ok. }
    assert (Hsrc1 : image_arrays s1 !! src = Some ((done ++ [im]) ++ rest)).
    { subst s1. cbn. rewrite list_lookup_insert_ne by done.
      by rewrite <- app_assoc. }
    assert (Hdst1 : image_arrays s1 !! dst =
              Some ((filled ++ [w]) ++ map (fun im => np_zeros3 (shape3 im)) rest)).
    { subst s1. cbn. rewrite list_lookup_insert_eq by (by eapply lookup_lt_Some).
      f_equal. rewrite <- Hlen.
      rewrite insert_app_r_alt by lia. rewrite Nat.sub_diag. cbn.
      by rewrite <- app_assoc. }
    specialize (IH s1 (done ++ [im]) (filled ++ [w]) Hsrc1 Hdst1).
    rewrite !length_app in IH. cbn [length] in IH.
    specialize (IH ltac:(lia)).
    replace (length done + 1)%nat with (S (length done)) in IH by lia.
    rewrite (bind_Ret _ _ _ _ _ Hbody).
    destruct (map_result by_chanels_image rest) as [R|e].
    + cbn [rbind]. rewrite IH. subst s1. unfold with_image_arrays. cbn.
      rewrite list_insert_insert_eq. by rewrite <- app_assoc.
    + cbn [rbind]. destruct IH as (s' & -> & Hself & Hlab & Hlen' & Hother).
      exists s'. subst s1. cbn in *. rewrite length_insert in Hlen'.
      repeat split; try done.
      intros r Hr. rewrite Hother by done. by rewrite list_lookup_insert_ne.
Qed.

Lemma normalize_all_images_by_chanels_run s r A :
  image_arrays s !! r = Some A ->
  match map_result by_chanels_image A with
  | Ok R =>
      normalize_all_images_by_chanels r s =
      Ret (length (image_arrays s)) (with_image_arrays (image_arrays s ++ [R]) s)
  | Err e =>
      exists s',
        normalize_all_images_by_chanels r s = Raise e s' /\
        self s' = self s /\ label_arrays s' = label_arrays s /\
        length (image_arrays s') = S (length (image_arrays s)) /\
        forall j, (j < length (image_arrays s))%nat ->
                  image_arrays s' !! j = image_arrays s !! j
  end.
Proof.
  intros Hr. unfold normalize_all_images_by_chanels.
  assert (Hlt : (r < length (image_arrays s))%nat) by (by eapply lookup_lt_Some).
  set (zeros := map (fun im => np_zeros3 (shape3 im)) A).
  set (s1 := with_image_arrays (image_arrays s ++ [zeros]) s).
  pose proof (normalize_loop r (length (image_arrays s)) A ltac:(lia) s1 [] []) as L.
  cbn [app length] in L.
  assert (Hsrc : image_arrays s1 !! r = Some A).
  { subst s1. cbn. by rewrite lookup_app_l. }
  assert (Hdst : image_arrays s1 !! length (image_arrays s) = Some zeros).
  { subst s1. cbn. by rewrite list_lookup_middle. }
  specialize (L Hsrc Hdst eq_refl).
  rewrite (bind_Ret _ _ _ _ _ (read_images_Some _ _ _ Hr)).
  erewrite bind_Ret by reflexivity. fold zeros. fold s1.
  destruct (map_result by_chanels_image A) as [R|e].
  - rewrite (bind_Ret _ _ _ _ _ L). subst s1. unfold ret, with_image_arrays. cbn.
    do 2 f_equal.
    rewrite <- (Nat.add_0_r (length (image_arrays s))) at 1.
    by rewrite insert_app_r.
  - destruct L as (s' & L & Hself & Hlab & Hlen & Hother).
    exists s'. rewrite (bind_Raise _ _ _ _ _ L). subst s1. cbn in *.
    rewrite length_app in Hlen. cbn in Hlen.
    repeat split; try done; [lia|].
    intros j Hj. rewrite Hother by lia. by rewrite lookup_app_l.
Qed.

(** ** The invariant of an epoch dataset *)

Lemma extends_refl s : extends s s.
Proof. repeat split; exists []; by rewrite app_nil_r. Qed.

Lemma extends_trans s1 s2 s3 : extends s1 s2 -> extends s2 s3 -> extends s1 s3.
Proof.
  intros (H1 & [a1 Ha1] & [l1 Hl1]) (H2 & [a2 Ha2] & [l2 Hl2]).
  split; [congruence|]. split.
  - exists (a1 ++ a2). by rewrite Ha2, Ha1, app_assoc.
  - exists (l1 ++ l2). by rewrite Hl2, Hl1, app_assoc.
Qed.

Lemma extends_images s s' r a :
  extends s s' -> image_arrays s !! r = Some a -> image_arrays s' !! r = Some a.
Proof. intros (_ & [ia ->] & _) H. by apply lookup_app_l_Some. Qed.

Lemma extends_labels s s' r a :
  extends s s' -> label_arrays s !! r = Some a -> label_arrays s' !! r = Some a.
Proof. intros (_ & _ & [la ->]) H. by apply lookup_app_l_Some. Qed.

Lemma extends_arrays_kept s s' : extends s s' -> arrays_kept s s'.
Proof.
  intros Hext. split; intros r a Hr;
    [by eapply extends_images|by eapply extends_labels].
Qed.

Lemma arrays_kept_trans s1 s2 s3 :
  arrays_kept s1 s2 -> arrays_kept s2 s3 -> arrays_kept s1 s3.
Proof. intros [H1 H2] [H3 H4]. split; intros r a Hr; auto. Qed.

Lemma map_result_total {A B} (g : A -> B) (l : list A) :
  map_result (fun x => Ok (g x)) l = Ok (map g l).
Proof. induction l as [|x l IH]; cbn; [done|]. by rewrite IH. Qed.

Lemma map_result_ext {A B} (f g : A -> result B) (l : list A) :
  (forall x, f x = g x) -> map_result f l = map_result g l.
Proof. intros H. induction l as [|x l IH]; cbn; [done|]. by rewrite H, IH. Qed.

Lemma map_result_Ok {A B} (f : A -> result B) (l : list A) :
  Forall (fun x => exists y, f x = Ok y) l -> exists R, map_result f l = Ok R.
Proof.
  induction 1 as [|x l [y Hy] _ [R IH]]; cbn; [by eexists|].
  rewrite Hy, IH. cbn. by eexists.
Qed.

Lemma map_result_length {A B} (f : A -> result B) (l : list A) (R : list B) :
  map_result f l = Ok R -> length R = length l.
Proof.
  revert R. induction l as [|x l IH]; intros R H; cbn in H.
  - by inversion H.
  - destruct (f x); [|done]. destruct (map_result f l); [|done].
    cbn in H. inversion H. cbn. f_equal. by apply IH.
Qed.

Lemma map_result_window {A B} (f : A -> result B) (l : list A) (R : list B) lo len :
  map_result f l = Ok R ->
  map_result f (take len (drop lo l)) = Ok (take len (drop lo R)).
Proof.
  revert R lo len. induction l as [|x l IH]; intros R lo len H; cbn in H.
  - inversion H. by rewrite !drop_nil, !take_nil.
  - destruct (f x) as [y|] eqn:Hy; [|done].
    destruct (map_result f l) as [ys|] eqn:Hys; [|done].
    cbn in H. inversion H; subst. destruct lo as [|lo].
    + rewrite !drop_0. destruct len as [|len]; [done|]. cbn.
      rewrite Hy. cbn. specialize (IH ys 0%nat len eq_refl).
      rewrite !drop_0 in IH. by rewrite IH.
    + cbn. by apply IH.
Qed.

Lemma take_rows_seq {A} (a : list A) : take_rows a (seq 0 (length a)) = Ok a.
Proof.
  assert (forall pre rest : list A,
            take_rows (pre ++ rest) (seq (length pre) (length rest))
                            = Ok rest) as H.
  { intros pre rest. revert pre.
    induction rest as [|x rest IH]; intros pre; cbn; [done|].
    rewrite list_lookup_middle by reflexivity.
    specialize (IH (pre ++ [x])). rewrite <- app_assoc, length_app in IH.
    cbn in IH. rewrite Nat.add_1_r in IH. by rewrite IH. }
  apply (H [] a).
Qed.

(** The rows an index array takes are rows of the array; when the index
    array is a permutation of the indices, every row is taken. *)
Lemma take_rows_elem {A} (a : list A) (idx : list nat) (rows : list A) x :
  take_rows a idx = Ok rows -> x ∈ rows -> x ∈ a.
Proof.
  intros H Hx. destruct (take_rows_lookup _ _ _ H) as [Hlen Hrows].
  apply list_elem_of_lookup in Hx as [k Hk].
  destruct (lookup_lt_is_Some_2 idx k) as [j Hj].
  { rewrite <- Hlen. by eapply lookup_lt_Some. }
  destruct (Hrows k j Hj) as [E _]. rewrite E in Hk.
  by eapply list_elem_of_lookup_2.
Qed.

Lemma take_rows_all {A} (a : list A) (idx : list nat) (rows : list A) x :
  idx ≡ₚ seq 0 (length a) -> take_rows a idx = Ok rows -> x ∈ a -> x ∈ rows.
Proof.
  intros Hp H Hx. destruct (take_rows_lookup _ _ _ H) as [Hlen Hrows].
  apply list_elem_of_lookup in Hx as [j Hj].
  assert (j ∈ idx) as Hin.
  { rewrite Hp. apply list_elem_of_In, in_seq. apply lookup_lt_Some in Hj. lia. }
  apply list_elem_of_lookup in Hin as [k Hk].
  destruct (Hrows k j Hk) as [E _].
  eapply list_elem_of_lookup_2. by rewrite E.
Qed.

(** The three steps of [start_new_epoch]: the source of the epoch, the
    augmentation, the normalization. *)
Lemma epoch_source_run every i l aug norm X Y s :
  based every i l aug norm X Y s ->
  exists si sl rows EY idx s1,
    (if every : bool
     then i <- getattr images ;; l <- getattr labels ;;
          shuffle_images_labels i l
     else i <- getattr images ;; l <- getattr labels ;;
          ret (i, l)) s = Ret (si, sl) s1 /\
    extends s s1 /\
    image_arrays s1 !! si = Some rows /\ label_arrays s1 !! sl = Some EY /\
    idx ≡ₚ seq 0 (length X) /\
    take_rows X idx = Ok rows /\ take_rows Y idx = Ok EY.
Proof.
  intros (H1 & H2 & H3 & H4 & H5 & H6 & H7 & H8).
  destruct every.
  - destruct (shuffle_images_labels_run s i l X Y H6 H7 ltac:(lia))
      as (RX & RY & HRX & HRY & Hrun).
    eexists _, _, RX, RY, _, _.
    rewrite (bind_Ret _ _ _ _ _ (getattr_Some _ _ _ H2)).
    rewrite (bind_Ret _ _ _ _ _ (getattr_Some _ _ _ H3)).
    split; [exact Hrun|]. cbn.
    split; [repeat split; by eexists|].
    split; [by apply list_lookup_middle|].
    split; [by apply list_lookup_middle|].
    split; [apply permutation_of_perm|]. done.
  - exists i, l, X, Y, (seq 0 (length X)), s.
    rewrite (bind_Ret _ _ _ _ _ (getattr_Some _ _ _ H2)).
    rewrite (bind_Ret _ _ _ _ _ (getattr_Some _ _ _ H3)).
    split; [done|]. split; [apply extends_refl|].
    repeat split; try done; [apply take_rows_seq|].
    rewrite H8. apply take_rows_seq.
Qed.

Lemma epoch_augment_run (aug : bool) si rows s :
  image_arrays s !! si = Some rows ->
  (aug = true -> rows = []) ->
  exists sa s1,
    (if aug then augment_all_images si 4 else ret si) s = Ret sa s1 /\
    extends s s1 /\ image_arrays s1 !! sa = Some rows.
Proof.
  intros Hsi Haug. destruct aug.
  - rewrite (Haug eq_refl) in *.
    rewrite (augment_all_images_nil _ _ _ Hsi).
    eexists _, _. split; [done|]. cbn.
    split; [repeat split; [by eexists|exists []; by rewrite app_nil_r]|].
    by apply list_lookup_middle.
  - exists si, s. split; [done|]. split; [apply extends_refl|done].
Qed.

Lemma epoch_image_cases (norm : option string) :
  (forall im, epoch_image norm im = Ok im) /\ truthy norm = false \/
  (forall im, epoch_image norm im = Ok (map3 (fun x => (x / 255)%float) im)) /\
    truthy norm = true /\ is_str norm "divide_255" = true \/
  (forall im, epoch_image norm im = Ok (map3 (fun x => (x / 256)%float) im)) /\
    truthy norm = true /\ is_str norm "divide_255" = false /\
    is_str norm "divide_256" = true \/
  (forall im, epoch_image norm im = by_chanels_image im) /\
    truthy norm = true /\ is_str norm "divide_255" = false /\
    is_str norm "divide_256" = false /\ is_str norm "by_chanels" = true \/
  (forall im, epoch_image norm im = Ok im) /\
    truthy norm = true /\ is_str norm "divide_255" = false /\
    is_str norm "divide_256" = false /\ is_str norm "by_chanels" = false.
Proof.
  unfold epoch_image.
  destruct (truthy norm); [|by left].
  destruct (is_str norm "divide_255"); [by right; left|].
  destruct (is_str norm "divide_256"); [by right; right; left|].
  destruct (is_str norm "by_chanels"); [by right; right; right; left|].
  by right; right; right; right.
Qed.

Lemma epoch_normalize_run (norm : option string) sa rows s :
  image_arrays s !! sa = Some rows ->
  match map_result (epoch_image norm) rows with
  | Ok EX =>
      exists sn s1,
        (if truthy norm
         then if is_str norm "divide_255" then true_divide sa 255
              else if is_str norm "divide_256" then true_divide sa 256
              else if is_str norm "by_chanels"
                   then normalize_all_images_by_chanels sa
                   else ret sa
         else ret sa) s = Ret sn s1 /\
        extends s s1 /\ image_arrays s1 !! sn = Some EX
  | Err e =>
      exists s1,
        (if truthy norm
         then if is_str norm "divide_255" then true_divide sa 255
              else if is_str norm "divide_256" then true_divide sa 256
              else if is_str norm "by_chanels"
                   then normalize_all_images_by_chanels sa
                   else ret sa
         else ret sa) s = Raise e s1 /\
        self s1 = self s /\ arrays_kept s s1
  end.
Proof.
  intros Hsa.
  destruct (epoch_image_cases norm)
    as [(E & ->)|[(E & -> & ->)|[(E & -> & -> & ->)|
        [(E & -> & -> & -> & ->)|(E & -> & -> & -> & ->)]]]];
    rewrite (map_result_ext _ _ _ E).
  - rewrite (map_result_total (fun im => im)), map_id.
    exists sa, s. split; [done|]. split; [apply extends_refl|done].
  - rewrite map_result_total, (true_divide_run _ _ _ _ Hsa).
    eexists _, _. split; [done|]. cbn.
    split; [repeat split; [by eexists|exists []; by rewrite app_nil_r]|].
    by apply list_lookup_middle.
  - rewrite map_result_total, (true_divide_run _ _ _ _ Hsa).
    eexists _, _. split; [done|]. cbn.
    split; [repeat split; [by eexists|exists []; by rewrite app_nil_r]|].
    by apply list_lookup_middle.
  - pose proof (normalize_all_images_by_chanels_run _ _ _ Hsa) as Hrun.
    destruct (map_result by_chanels_image rows) as [R|e].
    + rewrite Hrun. eexists _, _. split; [done|]. cbn.
      split; [repeat split; [by eexists|exists []; by rewrite app_nil_r]|].
      by apply list_lookup_middle.
    + destruct Hrun as (s' & -> & Hself & Hlab & _ & Hother).
      exists s'. split; [done|]. split; [done|]. split.
      * intros j a Hj. rewrite Hother; [done|]. by eapply lookup_lt_Some.
      * by rewrite Hlab.
  - rewrite (map_result_total (fun im => im)), map_id.
    exists sa, s. split; [done|]. split; [apply extends_refl|done].
Qed.

Lemma restartable_rows aug norm X idx rows :
  restartable aug norm X ->
  idx ≡ₚ seq 0 (length X) -> take_rows X idx = Ok rows ->
  (aug = true -> rows = []) /\
  exists EX, map_result (epoch_image norm) rows = Ok EX.
Proof.
  intros [Haug Hall] Hp Hrows. split.
  - intros ->. rewrite (Haug eq_refl) in *. cbn in Hp.
    apply Permutation_nil_r in Hp. subst. cbn in Hrows. by inversion Hrows.
  - apply map_result_Ok, Forall_forall. intros x Hx.
    rewrite Forall_forall in Hall. apply Hall. by eapply take_rows_elem.
Qed.

(** On a restartable corpus [start_new_epoch] completes: the cursor is 0
    and the epoch buffers are new rows of the corpus; every array that
    existed is still there, unchanged. *)
Lemma start_new_epoch_Ret every i l aug norm X Y s :
  based every i l aug norm X Y s ->
  restartable aug norm X ->
  exists s' ei el EX EY,
    start_new_epoch s = Ret tt s' /\
    self s' = set_epoch_labels el (set_epoch_images ei (set_batch_counter 0 (self s))) /\
    (exists ia, image_arrays s' = image_arrays s ++ ia) /\
    (exists la, label_arrays s' = label_arrays s ++ la) /\
    image_arrays s' !! ei = Some EX /\ label_arrays s' !! el = Some EY /\
    epoch_of norm X Y EX EY.
Proof.
  intros Hb Hre. unfold start_new_epoch.
  erewrite bind_Ret by reflexivity.
  set (s0 := State _ _ _ _ _).
  assert (Hb0 : based every i l aug norm X Y s0) by exact Hb.
  pose proof Hb0 as (H1 & H2 & H3 & H4 & H5 & H6 & H7 & H8).
  rewrite (bind_Ret _ _ _ _ _ (getattr_Some _ _ _ H1)).
  destruct (epoch_source_run _ _ _ _ _ _ _ _ Hb0)
    as (si & sl & rows & EY & idx & s1 & HA & Hext1 & Hsi & Hsl & Hp & Hrows & HEY).
  rewrite (bind_Ret _ _ _ _ _ HA). mbeta.
  destruct (restartable_rows _ _ _ _ _ Hre Hp Hrows) as [Haug [EX HEX]].
  pose proof Hext1 as (Hself1 & _).
  rewrite (bind_Ret _ _ _ _ _ (getattr_Some augmentation s1 aug
                                 ltac:(by rewrite Hself1))).
  destruct (epoch_augment_run aug si rows s1 Hsi Haug)
    as (sa & s2 & HB & Hext2 & Hsa).
  rewrite (bind_Ret _ _ _ _ _ HB).
  pose proof Hext2 as (Hself2 & _).
  rewrite (bind_Ret _ _ _ _ _ (getattr_Some normalization s2 norm
                                 ltac:(by rewrite Hself2, Hself1))).
  pose proof (epoch_normalize_run norm sa rows s2 Hsa) as HC.
  rewrite HEX in HC. destruct HC as (sn & s3 & HC & Hext3 & Hsn).
  rewrite (bind_Ret _ _ _ _ _ HC).
  erewrite bind_Ret by reflexivity.
  pose proof (extends_trans _ _ _ (extends_trans _ _ _ Hext1 Hext2) Hext3)
    as (Hself3 & Hia & Hla).
  eexists _, sn, sl, EX, EY. split; [reflexivity|]. cbn.
  split; [by rewrite Hself3|]. split; [done|]. split; [done|].
  split; [done|].
  split; [eapply extends_labels; [|exact Hsl]; by eapply extends_trans|].
  by exists idx, rows.
Qed.

Lemma start_new_epoch_Raise every i l aug norm X Y s :
  based every i l aug norm X Y s ->
  ~ restartable aug norm X ->
  exists e s',
    start_new_epoch s = Raise e s' /\
    self s' = set_batch_counter 0 (self s) /\ arrays_kept s s'.
Proof.
  intros Hb Hre. unfold start_new_epoch.
  erewrite bind_Ret by reflexivity.
  set (s0 := State _ _ _ _ _).
  assert (Hb0 : based every i l aug norm X Y s0) by exact Hb.
  assert (Hk0 : arrays_kept s s0) by (by split).
  pose proof Hb0 as (H1 & H2 & H3 & H4 & H5 & H6 & H7 & H8).
  rewrite (bind_Ret _ _ _ _ _ (getattr_Some _ _ _ H1)).
  destruct (epoch_source_run _ _ _ _ _ _ _ _ Hb0)
    as (si & sl & rows & EY & idx & s1 & HA & Hext1 & Hsi & Hsl & Hp & Hrows & HEY).
  rewrite (bind_Ret _ _ _ _ _ HA). mbeta.
  pose proof Hext1 as (Hself1 & _).
  pose proof (extends_arrays_kept _ _ Hext1) as Hk1.
  rewrite (bind_Ret _ _ _ _ _ (getattr_Some augmentation s1 aug
                                 ltac:(by rewrite Hself1))).
  destruct aug; [destruct rows as [|im rest]|].
  - (* augmentation of an empty batch, so an empty corpus *)
    exfalso. apply Hre.
    assert (X = []) as ->.
    { destruct X as [|x X']; [done|].
      assert (x ∈ ([] : list image)) as Hx
        by (eapply take_rows_all; [exact Hp|exact Hrows|left]).
      by apply elem_of_nil in Hx. }
    split; [done|constructor].
  - destruct (augment_all_images_Raise s1 si 4 im rest Hsi)
      as (s' & Ha & Hself & Hk).
    rewrite (bind_Raise _ _ _ _ _ Ha). eexists _, _. split; [done|].
    split; [by rewrite Hself, Hself1|].
    exact (arrays_kept_trans _ _ _ Hk0 (arrays_kept_trans _ _ _ Hk1 Hk)).
  - erewrite bind_Ret by reflexivity.
    rewrite (bind_Ret _ _ _ _ _ (getattr_Some normalization s1 norm
                                   ltac:(by rewrite Hself1))).
    pose proof (epoch_normalize_run norm si rows s1 Hsi) as HC.
    destruct (map_result (epoch_image norm) rows) as [EX|e] eqn:HEX.
    + exfalso. apply Hre. split; [done|].
      apply Forall_forall. intros x Hx.
      assert (x ∈ rows) as Hxr by (by eapply take_rows_all).
      clear -HEX Hxr. revert EX HEX.
      induction rows as [|y rows IH]; intros EX HEX; [by apply elem_of_nil in Hxr|].
      cbn in HEX. destruct (epoch_image norm y) as [ey|] eqn:Hy; [|done].
      destruct (map_result (epoch_image norm) rows) as [R|]; [|done].
      apply elem_of_cons in Hxr as [->|Hxr]; [by eexists|]. by eapply IH.
    + destruct HC as (s' & HC & Hself & Hk).
      rewrite (bind_Raise _ _ _ _ _ HC). eexists _, _. split; [done|].
      split; [by rewrite Hself, Hself1|].
      exact (arrays_kept_trans _ _ _ Hk0 (arrays_kept_trans _ _ _ Hk1 Hk)).
Qed.

Lemma restartable_dec aug norm X : restartable aug norm X \/ ~ restartable aug norm X.
Proof.
  unfold restartable.
  assert (Forall (fun im => exists e, epoch_image norm im = Ok e) X \/
          ~ Forall (fun im => exists e, epoch_image norm im = Ok e) X) as [HF|HF].
  { induction X as [|x X [IH|IH]].
    - left. constructor.
    - destruct (epoch_image norm x) as [e|e] eqn:Hx.
      + left. constructor; [by eexists|done].
      + right. intros H. inversion H as [|? ? [? Hc] ?]; subst. congruence.
    - right. intros H. inversion H; subst. by apply IH. }
  - destruct aug.
    + destruct X as [|x X'].
      * left. by split.
      * right. intros [H _]. by specialize (H eq_refl).
    + left. by split.
  - right. by intros [_ ?].
Qed.

Lemma counter_bumped_eq s c :
  _batch_counter (self s) = Some c ->
  counter_bumped s =
  State (set_batch_counter (c + 1) (self s)) (image_arrays s) (label_arrays s)
        (raw_draws s) (draws_used s).
Proof. unfold counter_bumped. by intros ->. Qed.

Lemma based_bumped every i l aug norm X Y s :
  based every i l aug norm X Y s -> based every i l aug norm X Y (counter_bumped s).
Proof.
  intros Hb. unfold counter_bumped.
  destruct (_batch_counter (self s)); [exact Hb|done].
Qed.

Lemma materialized_bumped c EX EY s :
  materialized c EX EY s -> materialized (c + 1) EX EY (counter_bumped s).
Proof.
  intros (ei & el & Hc & Hei & Hel & HEX & HEY).
  rewrite (counter_bumped_eq _ _ Hc). by exists ei, el.
Qed.

(** One call of [next_batch]: a full slice is returned, anything else
    starts a new epoch and calls again. *)
Lemma next_batch_step s c EX EY fuel b :
  materialized c EX EY s ->
  (Z.of_nat (length (py_slice EX (Some (c * b)) (Some ((c + 1) * b)))) = b ->
   next_batch (S fuel) b s =
   Ret (py_slice EX (Some (c * b)) (Some ((c + 1) * b)),
        py_slice EY (Some (c * b)) (Some ((c + 1) * b)))
       (counter_bumped s)) /\
  (Z.of_nat (length (py_slice EX (Some (c * b)) (Some ((c + 1) * b)))) <> b ->
   next_batch (S fuel) b s =
   (start_new_epoch ;; next_batch fuel b) (counter_bumped s)).
Proof.
  intros (ei & el & Hc & Hei & Hel & HEX & HEY).
  rewrite (counter_bumped_eq _ _ Hc).
  cbn [next_batch].
  rewrite (bind_Ret _ _ _ _ _ (getattr_Some _ _ _ Hc)).
  erewrite bind_Ret by reflexivity.
  set (s1 := State _ _ _ _ _).
  rewrite (bind_Ret _ _ _ _ _ (getattr_Some epoch_images s1 ei Hei)).
  rewrite (bind_Ret _ _ _ _ _ (read_images_Some s1 _ _ HEX)).
  rewrite (bind_Ret _ _ _ _ _ (getattr_Some epoch_labels s1 el Hel)).
  rewrite (bind_Ret _ _ _ _ _ (read_labels_Some s1 _ _ HEY)).
  split; intros Hlen.
  - assert ((Z.of_nat (length (py_slice EX (Some (c * b)) (Some ((c + 1) * b))))
             =? b) = true) as -> by zbool.
    reflexivity.
  - assert ((Z.of_nat (length (py_slice EX (Some (c * b)) (Some ((c + 1) * b))))
             =? b) = false) as -> by zbool.
    reflexivity.
Qed.

Lemma inv_start_new_epoch every i l aug norm X Y s :
  based every i l aug norm X Y s ->
  restartable aug norm X ->
  exists s' EX EY,
    start_new_epoch s = Ret tt s' /\
    inv every i l aug norm X Y s' /\
    materialized 0 EX EY s' /\ epoch_of norm X Y EX EY /\
    (exists ia, image_arrays s' = image_arrays s ++ ia) /\
    (exists la, label_arrays s' = label_arrays s ++ la).
Proof.
  intros Hb Hre.
  destruct (start_new_epoch_Ret _ _ _ _ _ _ _ _ Hb Hre)
    as (s' & ei & el & EX & EY & Hrun & Hself & [ia Hia] & [la Hla] & HEX & HEY & Hof).
  pose proof Hb as (H1 & H2 & H3 & H4 & H5 & H6 & H7 & H8).
  assert (Hm : materialized 0 EX EY s').
  { exists ei, el. rewrite Hself. by repeat split. }
  assert (Hb' : based every i l aug norm X Y s').
  { unfold based. rewrite Hself, Hia, Hla. cbn.
    repeat split; try done; by apply lookup_app_l_Some. }
  exists s', EX, EY. split; [done|]. split.
  { split; [done|]. split; [done|]. by exists 0, EX, EY. }
  repeat split; try done; by eexists.
Qed.

(** X1.  Whatever [start_new_epoch] ends in, on a corpus it can materialize or
    not (an augmented batch, an image with fewer than three channels), the
    object names the same corpus and every array that existed is
    unchanged. *)
Lemma start_new_epoch_keeps_corpus every i l aug norm X Y s :
  based every i l aug norm X Y s ->
  based every i l aug norm X Y (final (start_new_epoch s)) /\
  arrays_kept s (final (start_new_epoch s)).
Proof.
  intros Hb. destruct (restartable_dec aug norm X) as [Hre|Hre].
  - destruct (inv_start_new_epoch _ _ _ _ _ _ _ _ Hb Hre)
      as (s' & EX & EY & -> & (Hb' & _) & _ & _ & [ia Hia] & [la Hla]).
    cbn. split; [done|]. unfold arrays_kept. rewrite Hia, Hla.
    split; intros r a Hr; by apply lookup_app_l_Some.
  - destruct (start_new_epoch_Raise _ _ _ _ _ _ _ _ Hb Hre)
      as (e & s' & -> & Hself & Hk).
    cbn. split; [|done].
    destruct Hb as (H1 & H2 & H3 & H4 & H5 & H6 & H7 & H8).
    destruct Hk as [Hki Hkl].
    unfold based. rewrite Hself. cbn. repeat split; auto.
Qed.

(** Every call of [next_batch] on a state of the invariant ends in a
    state of the invariant, with a batch or with its budget used up, and
    leaves every array in place. *)
Lemma next_batch_inv every i l aug norm X Y fuel b :
  forall s,
    inv every i l aug norm X Y s ->
    exists s',
      (next_batch fuel b s = Unfinished s' \/
       exists batch, next_batch fuel b s = Ret batch s') /\
      inv every i l aug norm X Y s' /\
      (exists ia, image_arrays s' = image_arrays s ++ ia) /\
      (exists la, label_arrays s' = label_arrays s ++ la).
Proof.
  induction fuel as [|fuel IH]; intros s Hinv.
  - exists s. split; [by left|]. split; [done|].
    split; exists []; by rewrite app_nil_r.
  - destruct Hinv as (Hb & Hre & c & EX & EY & Hc & Hm & Hof).
    destruct (next_batch_step s c EX EY fuel b Hm) as [Hfull Hshort].
    pose proof (based_bumped _ _ _ _ _ _ _ _ Hb) as Hb1.
    destruct Hm as (ei & el & Hcnt & Hm).
    assert (Hst : image_arrays (counter_bumped s) = image_arrays s /\
                  label_arrays (counter_bumped s) = label_arrays s)
      by (by rewrite (counter_bumped_eq _ _ Hcnt)).
    destruct Hst as [Hi1 Hl1].
    destruct (decide (Z.of_nat (length (py_slice EX (Some (c * b))
                                          (Some ((c + 1) * b)))) = b)) as [E|E].
    + exists (counter_bumped s). split; [right; eexists; by apply Hfull|].
      split.
      * split; [done|]. split; [done|]. exists (c + 1), EX, EY.
        split; [lia|]. split; [|done].
        apply materialized_bumped. by exists ei, el.
      * rewrite Hi1, Hl1. split; exists []; by rewrite app_nil_r.
    + rewrite (Hshort E).
      destruct (inv_start_new_epoch _ _ _ _ _ _ _ _ Hb1 Hre)
        as (s1 & EX1 & EY1 & Hrun & Hinv1 & _ & _ & [ia Hia] & [la Hla]).
      rewrite (bind_Ret _ _ _ _ _ Hrun).
      destruct (IH s1 Hinv1) as (s' & Hout & Hinv' & [ia' Hia'] & [la' Hla']).
      exists s'. split; [done|]. split; [done|].
      rewrite Hia', Hla', Hia, Hla, Hi1, Hl1, <- !app_assoc.
      split; by eexists.
Qed.

(** ** Construction *)

(** A shuffle mode that is a string but none of the two known ones: no
    branch of [__init__] assigns [shuffle_every_epoch], and the first read
    of it, in [start_new_epoch], raises. *)
Lemma init_unknown_shuffle imgs labs classes mode norm aug s0 :
  String.eqb mode "once_prior_train" = false ->
  String.eqb mode "every_epoch" = false ->
  new_CifarDataSet imgs labs classes (Some mode) norm aug s0 =
  Raise AttributeError
    (State (Attrs None (Some imgs) (Some labs) (Some classes) (Some aug)
                  (Some norm) (Some 0) None None)
           (image_arrays s0) (label_arrays s0) (raw_draws s0) (draws_used s0)).
Proof.
  intros H1 H2. unfold new_CifarDataSet, CifarDataSet__init__, start_new_epoch.
  rewrite H1, H2. reflexivity.
Qed.

(** The object [__init__] has built when it reaches [start_new_epoch]. *)
Lemma init_reaches_start imgs labs classes shuffle norm aug s0 X Y :
  image_arrays s0 !! imgs = Some X ->
  label_arrays s0 !! labs = Some Y ->
  length X = length Y ->
  (exists mode, shuffle = Some mode /\
     String.eqb mode "once_prior_train" = false /\
     String.eqb mode "every_epoch" = false) \/
  exists every i l X' Y' s1,
    based every i l aug norm X' Y' s1 /\
    new_CifarDataSet imgs labs classes shuffle norm aug s0 = start_new_epoch s1 /\
    length X' = length X /\
    (exists ia, image_arrays s1 = image_arrays s0 ++ ia) /\
    (exists la, label_arrays s1 = label_arrays s0 ++ la).
Proof.
  intros HX HY Hlen. unfold new_CifarDataSet, CifarDataSet__init__.
  erewrite bind_Ret by reflexivity.
  destruct shuffle as [mode|].
  - destruct (String.eqb mode "once_prior_train") eqn:E1;
      [|destruct (String.eqb mode "every_epoch") eqn:E2].
    + right.
      destruct (shuffle_images_labels_run
                  (State (set_shuffle_every_epoch false blank)
                         (image_arrays s0) (label_arrays s0)
                         (raw_draws s0) (draws_used s0))
                  imgs labs X Y HX HY ltac:(lia))
        as (RX & RY & HRX & HRY & Hrun).
      erewrite (bind_Ret (bind (setattr _) _)); cycle 1.
      { erewrite bind_Ret by reflexivity. exact Hrun. }
      destruct (take_rows_lookup _ _ _ HRX) as [LX _].
      destruct (take_rows_lookup _ _ _ HRY) as [LY _].
      rewrite permutation_of_length in LX, LY.
      eexists false, _, _, RX, RY, _. split; [|split; [reflexivity|]].
      * cbn. repeat split; try done; [by apply list_lookup_middle..|congruence].
      * cbn. split; [done|]. split; by eexists.
    + right. eexists true, imgs, labs, X, Y, _.
      split; [|split; [reflexivity|]].
      * cbn. by repeat split.
      * cbn. split; [done|]. split; exists []; by rewrite app_nil_r.
    + left. by exists mode.
  - right. eexists false, imgs, labs, X, Y, _.
    split; [|split; [reflexivity|]].
    + cbn. by repeat split.
    + cbn. split; [done|]. split; exists []; by rewrite app_nil_r.
Qed.

Lemma constructed_inv imgs labs classes shuffle norm aug s0 X Y s :
  image_arrays s0 !! imgs = Some X ->
  label_arrays s0 !! labs = Some Y ->
  length X = length Y ->
  new_CifarDataSet imgs labs classes shuffle norm aug s0 = Ret tt s ->
  exists every i l X' Y', inv every i l aug norm X' Y' s.
Proof.
  intros HX HY Hlen Hrun.
  destruct (init_reaches_start imgs labs classes shuffle norm aug s0 X Y HX HY Hlen)
    as [(mode & -> & E1 & E2)|(every & i & l & X' & Y' & s1 & Hb & Heq & _)].
  - by rewrite (init_unknown_shuffle _ _ _ _ _ _ _ E1 E2) in Hrun.
  - rewrite Heq in Hrun. exists every, i, l, X', Y'.
    destruct (restartable_dec aug norm X') as [Hre|Hre].
    + destruct (inv_start_new_epoch _ _ _ _ _ _ _ _ Hb Hre)
        as (s' & EX & EY & Hrun' & Hinv & _).
      rewrite Hrun' in Hrun. by inversion Hrun; subst.
    + destruct (start_new_epoch_Raise _ _ _ _ _ _ _ _ Hb Hre) as (e & s' & Hr & _).
      by rewrite Hr in Hrun.
Qed.

Lemma epoch_dataset_inv s :
  epoch_dataset s -> exists every i l aug norm X Y, inv every i l aug norm X Y s.
Proof.
  induction 1 as [s0 imgs labs X Y classes shuffle norm aug s HX HY Hlen Hrun
                 |s fuel b batch s' _ IH Hrun
                 |s s' _ IH Hrun].
  - destruct (constructed_inv _ _ _ _ _ _ _ _ _ _ HX HY Hlen Hrun)
      as (every & i & l & X' & Y' & Hinv).
    by exists every, i, l, aug, norm, X', Y'.
  - destruct IH as (every & i & l & aug & norm & X & Y & Hinv).
    exists every, i, l, aug, norm, X, Y.
    destruct (next_batch_inv _ _ _ _ _ _ _ fuel b s Hinv)
      as (s'' & [Hout|[batch' Hout]] & Hinv' & _); rewrite Hout in Hrun; [done|].
    by inversion Hrun; subst.
  - destruct IH as (every & i & l & aug & norm & X & Y & Hinv).
    exists every, i, l, aug, norm, X, Y.
    destruct Hinv as (Hb & Hre & _).
    destruct (inv_start_new_epoch _ _ _ _ _ _ _ _ Hb Hre)
      as (s'' & EX & EY & Hrun' & Hinv & _).
    rewrite Hrun' in Hrun. by inversion Hrun; subst.
Qed.

(** ** Batches *)

Lemma epoch_of_length norm X Y EX EY :
  length X = length Y -> epoch_of norm X Y EX EY ->
  length EX = length X /\ length EY = length X.
Proof.
  intros Hlen (idx & rows & Hp & HEY & Hrows & HEX).
  destruct (take_rows_lookup _ _ _ HEY) as [L1 _].
  destruct (take_rows_lookup _ _ _ Hrows) as [L2 _].
  pose proof (map_result_length _ _ _ HEX) as L3.
  pose proof (Permutation_length Hp) as L4. rewrite length_seq in L4.
  lia.
Qed.

(** The same window of the two epoch buffers is a batch of aligned pairs:
    rows [js] of the labels, and the epoch images of rows [js] of the
    images, no row taken twice. *)
Lemma window_aligned norm X Y EX EY start stop :
  length X = length Y -> epoch_of norm X Y EX EY ->
  exists js rows,
    NoDup js /\
    take_rows Y js = Ok (py_slice EY start stop) /\
    take_rows X js = Ok rows /\
    map_result (epoch_image norm) rows = Ok (py_slice EX start stop).
Proof.
  intros Hlen Hof. destruct (epoch_of_length _ _ _ _ _ Hlen Hof) as [LX LY].
  destruct Hof as (idx & rows & Hp & HEY & Hrows & HEX).
  unfold py_slice. rewrite LX, LY.
  destruct (slice_range (length X) start stop) as [lo len].
  exists (take len (drop lo idx)), (take len (drop lo rows)).
  split.
  { apply (sublist_NoDup _ (drop lo idx)); [|apply sublist_take].
    apply (sublist_NoDup _ idx); [|apply sublist_drop].
    rewrite Hp. apply NoDup_seq. }
  split; [by apply take_rows_window|].
  split; [by apply take_rows_window|]. by apply map_result_window.
Qed.

Lemma images_at_cursor_eq s c EX EY b :
  materialized c EX EY s ->
  images_at_cursor s b = py_slice EX (Some (c * b)) (Some ((c + 1) * b)).
Proof.
  intros (ei & el & Hc & Hei & Hel & HEX & HEY).
  unfold images_at_cursor. by rewrite Hc, Hei, HEX.
Qed.

Lemma window_length {A} (l : list A) (c b : Z) :
  0 <= c -> 0 <= b ->
  Z.of_nat (length (py_slice l (Some (c * b)) (Some ((c + 1) * b)))) =
  Z.min ((c + 1) * b) (Z.of_nat (length l)) - Z.min (c * b) (Z.of_nat (length l)).
Proof.
  intros Hc Hb. rewrite py_slice_length, slice_range_window by done.
  cbn [snd]. nia.
Qed.

(** A batch size between 1 and the size of the corpus: one retry at most. *)
Lemma next_batch_fits every i l aug norm X Y s b :
  inv every i l aug norm X Y s ->
  1 <= b <= Z.of_nat (length Y) ->
  exists imgs labs s',
    next_batch 2 b s = Ret (imgs, labs) s' /\
    Z.of_nat (length imgs) = b /\ Z.of_nat (length labs) = b /\
    (exists js rows,
        NoDup js /\ take_rows Y js = Ok labs /\ take_rows X js = Ok rows /\
        map_result (epoch_image norm) rows = Ok imgs) /\
    (Z.of_nat (length (images_at_cursor s b)) <> b ->
     exists s1,
       start_new_epoch (counter_bumped s) = Ret tt s1 /\
       next_batch 1 b s1 = Ret (imgs, labs) s' /\
       _batch_counter (self s') = Some 1) /\
    (Z.of_nat (length (images_at_cursor s b)) = b ->
     imgs = images_at_cursor s b /\ s' = counter_bumped s).
Proof.
  intros (Hb & Hre & c & EX & EY & Hc & Hm & Hof) Hsize.
  pose proof Hb as (_ & _ & _ & _ & _ & _ & _ & Hlen).
  destruct (epoch_of_length _ _ _ _ _ Hlen Hof) as [LX LY].
  rewrite (images_at_cursor_eq _ _ _ _ b Hm).
  destruct (next_batch_step s c EX EY 1 b Hm) as [Hfull Hshort].
  destruct (decide (Z.of_nat (length (py_slice EX (Some (c * b))
                                        (Some ((c + 1) * b)))) = b)) as [E|E].
  - eexists _, _, _. split; [by apply Hfull|]. split; [done|].
    split.
    { rewrite <- E at 3. rewrite !window_length by lia. by rewrite LX, LY. }
    split; [by apply window_aligned|]. split; [done|]. by intros _.
  - pose proof (based_bumped _ _ _ _ _ _ _ _ Hb) as Hb1.
    destruct (inv_start_new_epoch _ _ _ _ _ _ _ _ Hb1 Hre)
      as (s1 & EX1 & EY1 & Hrun & Hinv1 & Hm1 & Hof1 & _).
    destruct (epoch_of_length _ _ _ _ _ Hlen Hof1) as [LX1 LY1].
    destruct (next_batch_step s1 0 EX1 EY1 0 b Hm1) as [Hfull1 _].
    assert (E1 : Z.of_nat (length (py_slice EX1 (Some (0 * b))
                                     (Some ((0 + 1) * b)))) = b).
    { rewrite window_length by lia. rewrite LX1, Hlen. lia. }
    specialize (Hfull1 E1).
    eexists _, _, _. split.
    { rewrite (Hshort E). rewrite (bind_Ret _ _ _ _ _ Hrun). exact Hfull1. }
    split; [done|]. split.
    { rewrite window_length by lia. rewrite LY1, Hlen. lia. }
    split; [by apply window_aligned|]. split; [|done].
    intros _. exists s1. split; [done|]. split; [done|].
    destruct Hm1 as (ei & el & Hc1 & _).
    by rewrite (counter_bumped_eq _ _ Hc1).
Qed.

(** A batch size of zero: the empty slices, at once. *)
Lemma next_batch_zero s c EX EY fuel :
  materialized c EX EY s ->
  next_batch (S fuel) 0 s = Ret ([], []) (counter_bumped s).
Proof.
  intros Hm. destruct (next_batch_step s c EX EY fuel 0 Hm) as [Hfull _].
  assert (forall A (l : list A),
            py_slice l (Some (c * 0)) (Some ((c + 1) * 0)) = []) as Hnil.
  { intros A l. rewrite !Z.mul_0_r. unfold py_slice, slice_range, slice_bound.
    cbn. by rewrite Z.sub_diag. }
  rewrite !Hnil in Hfull. by apply Hfull.
Qed.

(** A batch size above the size of the corpus: no budget is enough. *)
Lemma next_batch_oversized every i l aug norm X Y b fuel :
  Z.of_nat (length Y) < b ->
  forall s, inv every i l aug norm X Y s ->
            exists s', next_batch fuel b s = Unfinished s'.
Proof.
  intros Hsize. induction fuel as [|fuel IH]; intros s Hinv; [by exists s|].
  destruct Hinv as (Hb & Hre & c & EX & EY & Hc & Hm & Hof).
  pose proof Hb as (_ & _ & _ & _ & _ & _ & _ & Hlen).
  destruct (epoch_of_length _ _ _ _ _ Hlen Hof) as [LX LY].
  destruct (next_batch_step s c EX EY fuel b Hm) as [_ Hshort].
  rewrite Hshort.
  - pose proof (based_bumped _ _ _ _ _ _ _ _ Hb) as Hb1.
    destruct (inv_start_new_epoch _ _ _ _ _ _ _ _ Hb1 Hre)
      as (s1 & EX1 & EY1 & Hrun & Hinv1 & _).
    rewrite (bind_Ret _ _ _ _ _ Hrun). by apply IH.
  - pose proof (py_slice_le EX (Some (c * b)) (Some ((c + 1) * b))). lia.
Qed.

(** A negative batch size: a slice has no negative length. *)
Lemma next_batch_negative every i l aug norm X Y b fuel :
  b < 0 ->
  forall s, inv every i l aug norm X Y s ->
            exists s', next_batch fuel b s = Unfinished s'.
Proof.
  intros Hsize. induction fuel as [|fuel IH]; intros s Hinv; [by exists s|].
  destruct Hinv as (Hb & Hre & c & EX & EY & Hc & Hm & Hof).
  destruct (next_batch_step s c EX EY fuel b Hm) as [_ Hshort].
  rewrite Hshort by lia.
  pose proof (based_bumped _ _ _ _ _ _ _ _ Hb) as Hb1.
  destruct (inv_start_new_epoch _ _ _ _ _ _ _ _ Hb1 Hre)
    as (s1 & EX1 & EY1 & Hrun & Hinv1 & _).
  rewrite (bind_Ret _ _ _ _ _ Hrun). by apply IH.
Qed.

Lemma num_examples_run every i l aug norm X Y s :
  based every i l aug norm X Y s ->
  num_examples s = Ret (Z.of_nat (length Y)) s /\
  corpus_images s = X /\ corpus_labels s = Y /\ normalization_mode s = norm.
Proof.
  intros (H1 & H2 & H3 & H4 & H5 & H6 & H7 & H8).
  unfold num_examples, corpus_images, corpus_labels, normalization_mode.
  rewrite (bind_Ret _ _ _ _ _ (getattr_Some _ _ _ H3)).
  rewrite (bind_Ret _ _ _ _ _ (read_labels_Some _ _ _ H7)).
  by rewrite H2, H3, H5, H6, H7.
Qed.

(** ** The properties of the epoch dataset *)

(** C1. On every epoch dataset, [next_batch] with a batch size between 1
    and [num_examples] returns exactly [batch_size] images and
    [batch_size] labels, never a short batch, and the pairs are aligned:
    the labels are rows [js] of the corpus labels and the images are the
    epoch images of the same rows [js] of the corpus images, no row twice.
    When the slice at the cursor is full it is the batch and only the
    cursor moves; when it is short it is dropped, [start_new_epoch] runs
    and the one retry returns the batch, leaving the cursor at 1. *)
Theorem next_batch_returns_full_batch s (n batch_size : Z) :
  epoch_dataset s ->
  num_examples s = Ret n s ->
  1 <= batch_size <= n ->
  exists imgs labs s',
    next_batch 2 batch_size s = Ret (imgs, labs) s' /\
    Z.of_nat (length imgs) = batch_size /\
    Z.of_nat (length labs) = batch_size /\
    (exists js rows,
        NoDup js /\
        take_rows (corpus_labels s) js = Ok labs /\
        take_rows (corpus_images s) js = Ok rows /\
        map_result (epoch_image (normalization_mode s)) rows = Ok imgs) /\
    (Z.of_nat (length (images_at_cursor s batch_size)) <> batch_size ->
     exists s1,
       start_new_epoch (counter_bumped s) = Ret tt s1 /\
       next_batch 1 batch_size s1 = Ret (imgs, labs) s' /\
       _batch_counter (self s') = Some 1) /\
    (Z.of_nat (length (images_at_cursor s batch_size)) = batch_size ->
     imgs = images_at_cursor s batch_size /\ s' = counter_bumped s).
Proof.
  intros Hds Hn Hsize.
  destruct (epoch_dataset_inv s Hds) as (every & i & l & aug & norm & X & Y & Hinv).
  pose proof Hinv as (Hb & _).
  destruct (num_examples_run _ _ _ _ _ _ _ _ Hb) as (Hn' & -> & -> & ->).
  rewrite Hn' in Hn. inversion Hn; subst n.
  exact (next_batch_fits _ _ _ _ _ _ _ s batch_size Hinv Hsize).
Qed.

(** C5. On every epoch dataset, a batch size above [num_examples] makes
    [next_batch] start epoch after epoch: whatever the depth of recursion
    allowed, no batch is returned and no exception is raised.  A batch
    size from 0 to [num_examples] is served with one retry at most.  (A
    negative batch size is never served either.) *)
Theorem next_batch_oversized_never_returns s (n batch_size : Z) :
  epoch_dataset s ->
  num_examples s = Ret n s ->
  (n < batch_size ->
   forall fuel, exists s', next_batch fuel batch_size s = Unfinished s') /\
  (0 <= batch_size <= n ->
   exists batch s', next_batch 2 batch_size s = Ret batch s') /\
  (batch_size < 0 ->
   forall fuel, exists s', next_batch fuel batch_size s = Unfinished s').
Proof.
  intros Hds Hn.
  destruct (epoch_dataset_inv s Hds) as (every & i & l & aug & norm & X & Y & Hinv).
  pose proof Hinv as (Hb & _ & c & EX & EY & _ & Hm & _).
  destruct (num_examples_run _ _ _ _ _ _ _ _ Hb) as (Hn' & _).
  rewrite Hn' in Hn. inversion Hn; subst n. split; [|split].
  - intros Hsize fuel. by eapply next_batch_oversized.
  - intros Hsize. destruct (decide (batch_size = 0)) as [->|Hnz].
    + eexists _, _. by eapply next_batch_zero.
    + destruct (next_batch_fits _ _ _ _ _ _ _ s batch_size Hinv ltac:(lia))
        as (imgs & labs & s' & Hrun & _).
      by eexists _, _.
  - intros Hsize fuel. by eapply next_batch_negative.
Qed.

(** C10. On every epoch dataset [next_batch(0)] returns at once an empty
    image slice and an empty label slice; the state it leaves differs from
    the one it found by the cursor only: no epoch restart, no new array,
    no random draw. *)
Theorem next_batch_zero_returns_empty s (fuel : nat) :
  epoch_dataset s ->
  next_batch (S fuel) 0 s = Ret ([], []) (counter_bumped s) /\
  epoch_images (self (counter_bumped s)) = epoch_images (self s) /\
  epoch_labels (self (counter_bumped s)) = epoch_labels (self s) /\
  image_arrays (counter_bumped s) = image_arrays s /\
  label_arrays (counter_bumped s) = label_arrays s /\
  draws_used (counter_bumped s) = draws_used s.
Proof.
  intros Hds.
  destruct (epoch_dataset_inv s Hds) as (every & i & l & aug & norm & X & Y & Hinv).
  destruct Hinv as (_ & _ & c & EX & EY & _ & Hm & _).
  split; [by eapply next_batch_zero|].
  destruct Hm as (ei & el & Hc & _). by rewrite (counter_bumped_eq _ _ Hc).
Qed.

(** C8. On every epoch dataset, whatever [start_new_epoch] or
    [next_batch] ends in (a result, or a recursion depth used up), the
    attributes [images] and [labels] name the same arrays as before, these
    arrays hold what they held, [num_examples] has the value it had, and
    every array that existed before the call is unchanged: the epoch
    buffers are new arrays. *)
Theorem base_corpus_never_modified s (fuel : nat) (batch_size : Z) s' :
  epoch_dataset s ->
  s' = final (start_new_epoch s) \/ s' = final (next_batch fuel batch_size s) ->
  images (self s') = images (self s) /\
  labels (self s') = labels (self s) /\
  corpus_images s' = corpus_images s /\
  corpus_labels s' = corpus_labels s /\
  (exists n, num_examples s = Ret n s /\ num_examples s' = Ret n s') /\
  (forall r a, image_arrays s !! r = Some a -> image_arrays s' !! r = Some a) /\
  (forall r a, label_arrays s !! r = Some a -> label_arrays s' !! r = Some a).
Proof.
  intros Hds Hs'.
  destruct (epoch_dataset_inv s Hds) as (every & i & l & aug & norm & X & Y & Hinv).
  assert (inv every i l aug norm X Y s' /\
          (exists ia, image_arrays s' = image_arrays s ++ ia) /\
          (exists la, label_arrays s' = label_arrays s ++ la))
    as (Hinv' & [ia Hia] & [la Hla]).
  { destruct Hs' as [->| ->].
    - destruct Hinv as (Hb & Hre & _).
      destruct (inv_start_new_epoch _ _ _ _ _ _ _ _ Hb Hre)
        as (s1 & EX & EY & -> & Hinv1 & _ & _ & Hia & Hla).
      by cbn.
    - destruct (next_batch_inv _ _ _ _ _ _ _ fuel batch_size s Hinv)
        as (s1 & [-> |[batch ->]] & Hinv1 & Hia & Hla); by cbn. }
  destruct Hinv as (Hb & _). destruct Hinv' as (Hb' & _).
  destruct (num_examples_run _ _ _ _ _ _ _ _ Hb) as (Hn & -> & -> & _).
  destruct (num_examples_run _ _ _ _ _ _ _ _ Hb') as (Hn' & -> & -> & _).
  destruct Hb as (_ & -> & -> & _). destruct Hb' as (_ & -> & -> & _).
  repeat split; try done.
  - by eexists.
  - intros r a Hr. rewrite Hia. by apply lookup_app_l_Some.
  - intros r a Hr. rewrite Hla. by apply lookup_app_l_Some.
Qed.

(** C7. [shuffle_images_labels] on an aligned corpus draws one permutation
    [perm] of the indices and returns two new arrays of the length of the
    corpus: row [k] of the shuffled images is row [perm[k]] of the images
    and row [k] of the shuffled labels is row [perm[k]] of the labels. *)
Theorem shuffle_images_labels_keeps_alignment s (i l : ref) X Y :
  image_arrays s !! i = Some X ->
  label_arrays s !! l = Some Y ->
  length X = length Y ->
  exists i' l' s' X' Y' perm,
    shuffle_images_labels i l s = Ret (i', l') s' /\
    image_arrays s' !! i' = Some X' /\
    label_arrays s' !! l' = Some Y' /\
    perm ≡ₚ seq 0 (length X) /\
    length X' = length X /\ length Y' = length X' /\
    forall k j, perm !! k = Some j ->
                (j < length X)%nat /\ X' !! k = X !! j /\ Y' !! k = Y !! j.
Proof.
  intros HX HY Hlen.
  destruct (shuffle_images_labels_run s i l X Y HX HY ltac:(lia))
    as (RX & RY & HRX & HRY & Hrun).
  destruct (take_rows_lookup _ _ _ HRX) as [LX HrowsX].
  destruct (take_rows_lookup _ _ _ HRY) as [LY HrowsY].
  rewrite permutation_of_length in LX, LY.
  eexists _, _, _, RX, RY, _. split; [exact Hrun|]. cbn.
  split; [by apply list_lookup_middle|].
  split; [by apply list_lookup_middle|].
  split; [apply permutation_of_perm|].
  split; [done|]. split; [congruence|].
  intros k j Hk. destruct (HrowsX k j Hk) as [EX Hj].
  destruct (HrowsY k j Hk) as [EY _]. done.
Qed.

Lemma epoch_image_unknown (mode : string) (im : image) :
  mode <> "divide_255" -> mode <> "divide_256" -> mode <> "by_chanels" ->
  epoch_image (Some mode) im = Ok im.
Proof.
  intros H1 H2 H3. apply String.eqb_neq in H1, H2, H3.
  unfold epoch_image, truthy, is_str. rewrite H1, H2, H3.
  by destruct (negb (String.eqb mode "")).
Qed.

Lemma epoch_buffers_eq c EX EY s :
  materialized c EX EY s ->
  epoch_buffer_images s = EX /\ epoch_buffer_labels s = EY.
Proof.
  intros (ei & el & _ & Hei & Hel & HEX & HEY).
  unfold epoch_buffer_images, epoch_buffer_labels.
  by rewrite Hei, Hel, HEX, HEY.
Qed.

(** C3, as the code has it.  A shuffle mode that is a string other than
    the two known ones makes the constructor raise (an AttributeError, at
    the first read of [shuffle_every_epoch]) with no epoch buffer assigned
    and no array allocated.  A normalization mode that is a string other
    than the three known ones does not: with a known shuffle mode and
    without augmentation the constructor returns, and the epoch buffers
    hold rows of the corpus as they are, not normalized. *)
Theorem unknown_modes_at_construction
    (imgs labs : ref) (classes : Z) (shuffle : option string) (mode : string)
    (norm : option string) (aug : bool) s0 X Y :
  (mode <> "once_prior_train" -> mode <> "every_epoch" ->
   exists s',
     new_CifarDataSet imgs labs classes (Some mode) norm aug s0 =
       Raise AttributeError s' /\
     epoch_images (self s') = None /\ epoch_labels (self s') = None /\
     image_arrays s' = image_arrays s0 /\ label_arrays s' = label_arrays s0) /\
  (mode <> "divide_255" -> mode <> "divide_256" -> mode <> "by_chanels" ->
   shuffle = None \/ shuffle = Some "once_prior_train" \/
     shuffle = Some "every_epoch" ->
   image_arrays s0 !! imgs = Some X ->
   label_arrays s0 !! labs = Some Y ->
   length X = length Y ->
   exists s' idx,
     new_CifarDataSet imgs labs classes shuffle (Some mode) false s0 = Ret tt s' /\
     idx ≡ₚ seq 0 (length (corpus_images s')) /\
     take_rows (corpus_images s') idx = Ok (epoch_buffer_images s') /\
     take_rows (corpus_labels s') idx = Ok (epoch_buffer_labels s')).
Proof.
  split.
  - intros H1 H2. apply String.eqb_neq in H1, H2.
    rewrite (init_unknown_shuffle _ _ _ _ _ _ _ H1 H2). by eexists.
  - intros H1 H2 H3 Hshuffle HX HY Hlen.
    destruct (init_reaches_start imgs labs classes shuffle (Some mode) false
                s0 X Y HX HY Hlen)
      as [(m & -> & E1 & E2)|(every & i & l & X' & Y' & s1 & Hb & -> & _)].
    { destruct Hshuffle as [?|[[= ->]|[= ->]]]; done. }
    assert (Hre : restartable false (Some mode) X').
    { split; [done|]. apply Forall_forall. intros im _.
      exists im. by apply epoch_image_unknown. }
    destruct (inv_start_new_epoch _ _ _ _ _ _ _ _ Hb Hre)
      as (s' & EX & EY & Hrun & (Hb' & _) & Hm & Hof & _).
    destruct (num_examples_run _ _ _ _ _ _ _ _ Hb') as (_ & Hi & Hl & _).
    destruct (epoch_buffers_eq _ _ _ _ Hm) as [HEX HEY].
    destruct Hof as (idx & rows & Hp & HrY & HrX & Hmap).
    rewrite (map_result_ext _ (fun im => Ok im)) in Hmap
      by (intros im; by apply epoch_image_unknown).
    rewrite (map_result_total (fun im => im)), map_id in Hmap.
    inversion Hmap; subst rows.
    exists s', idx. rewrite Hi, Hl, HEX, HEY. by repeat split.
Qed.

(** The window of the cursor [c] is rows [c * b] to [(c + 1) * b], when
    the buffer has them. *)
Lemma py_slice_window {A} (l : list A) (c b : nat) :
  ((c + 1) * b <= length l)%nat ->
  py_slice l (Some (Z.of_nat c * Z.of_nat b)) (Some ((Z.of_nat c + 1) * Z.of_nat b))
  = take b (drop (c * b) l).
Proof.
  intros Hfit. unfold py_slice. rewrite slice_range_window by lia.
  rewrite !Z.min_l by nia. f_equal; [nia|]. f_equal. nia.
Qed.

Lemma next_batches_run (b : nat) EX EY :
  (1 <= b)%nat -> length EX = length EY ->
  forall (k c : nat) s,
    materialized (Z.of_nat c) EX EY s ->
    ((c + k) * b <= length EX)%nat ->
    exists batches s',
      next_batches k (Z.of_nat b) s = Ret batches s' /\
      materialized (Z.of_nat (c + k)) EX EY s' /\
      concat (map fst batches) = take (k * b) (drop (c * b) EX) /\
      concat (map snd batches) = take (k * b) (drop (c * b) EY) /\
      length batches = k /\
      Forall (fun batch => length batch.1 = b /\ length batch.2 = b) batches.
Proof.
  intros Hb Hlen. induction k as [|k IH]; intros c s Hm Hfit.
  - exists [], s. rewrite Nat.add_0_r. by repeat split.
  - destruct (next_batch_step s (Z.of_nat c) EX EY 0 (Z.of_nat b) Hm)
      as [Hfull _].
    rewrite !py_slice_window in Hfull by nia.
    assert (Hw : forall A (l : list A),
               length l = length EX -> length (take b (drop (c * b) l)) = b).
    { intros A l Hl. rewrite length_take, length_drop. nia. }
    specialize (Hfull ltac:(rewrite Hw by done; lia)).
    pose proof (materialized_bumped _ _ _ _ Hm) as Hm1.
    replace (Z.of_nat c + 1) with (Z.of_nat (c + 1)) in Hm1 by lia.
    destruct (IH (c + 1)%nat (counter_bumped s) Hm1 ltac:(nia))
      as (rest & s' & Hrun & Hm' & Hci & Hcl & Hk & Hall).
    exists ((take b (drop (c * b) EX), take b (drop (c * b) EY)) :: rest), s'.
    split.
    { cbn [next_batches]. rewrite (bind_Ret _ _ _ _ _ Hfull).
      by rewrite (bind_Ret _ _ _ _ _ Hrun). }
    split; [by replace (c + S k)%nat with (c + 1 + k)%nat by lia|].
    assert (Hcat : forall A (l : list A),
               take b (drop (c * b) l) ++ take (k * b) (drop ((c + 1) * b) l)
               = take (S k * b) (drop (c * b) l)).
    { intros A l. replace ((c + 1) * b)%nat with (c * b + b)%nat by lia.
      by rewrite <- drop_drop, take_take_drop. }
    cbn [map concat fst snd]. rewrite Hci, Hcl, !Hcat.
    split; [done|]. split; [done|]. split; [cbn; lia|].
    constructor; [|done]. cbn. by rewrite !Hw.
Qed.

(** X2.  A batch size that divides [num_examples]: from the start of an
    epoch, [num_examples / batch_size] calls of [next_batch], none of them
    with a retry, return batches of [batch_size] pairs that are, one after
    the other, the whole epoch buffer, images and labels. *)
Theorem epoch_is_partitioned s (q : nat) (n batch_size : Z) :
  epoch_dataset s ->
  _batch_counter (self s) = Some 0 ->
  num_examples s = Ret n s ->
  1 <= batch_size ->
  n = Z.of_nat q * batch_size ->
  exists batches s',
    next_batches q batch_size s = Ret batches s' /\
    concat (map fst batches) = epoch_buffer_images s /\
    concat (map snd batches) = epoch_buffer_labels s /\
    length batches = q /\
    Forall (fun batch => Z.of_nat (length batch.1) = batch_size /\
                         Z.of_nat (length batch.2) = batch_size) batches /\
    _batch_counter (self s') = Some (Z.of_nat q).
Proof.
  intros Hds Hc Hn Hb Hq.
  destruct (epoch_dataset_inv s Hds) as (every & i & l & aug & norm & X & Y & Hinv).
  destruct Hinv as (Hbased & _ & c & EX & EY & _ & Hm & Hof).
  pose proof Hbased as (_ & _ & _ & _ & _ & _ & _ & Hlen).
  destruct (epoch_of_length _ _ _ _ _ Hlen Hof) as [LX LY].
  destruct (num_examples_run _ _ _ _ _ _ _ _ Hbased) as (Hn' & _).
  rewrite Hn' in Hn. apply Ret_inj in Hn as [<- _].
  assert (c = 0) as ->.
  { destruct Hm as (? & ? & Hc' & _). congruence. }
  destruct (next_batches_run (Z.to_nat batch_size) EX EY ltac:(lia)
              ltac:(congruence) q 0%nat s Hm ltac:(nia))
    as (batches & s' & Hrun & Hm' & Hci & Hcl & Hk & Hall).
  rewrite Z2Nat.id in Hrun by lia.
  exists batches, s'. split; [done|].
  assert (Hwhole : forall A (a : list A),
             length a = length X ->
             take (q * Z.to_nat batch_size) (drop (0 * Z.to_nat batch_size) a) = a).
  { intros A a Ha. cbn [Nat.mul]. rewrite drop_0. apply take_ge. nia. }
  rewrite Hwhole in Hci, Hcl by done.
  destruct Hm as (ei & el & _ & Hei & Hel & HEX & HEY).
  unfold epoch_buffer_images, epoch_buffer_labels.
  rewrite Hei, Hel, HEX, HEY. cbn [default from_option].
  split; [done|]. split; [done|]. split; [done|]. split.
  - eapply Forall_impl; [exact Hall|]. cbn. intros batch [H1 H2]. lia.
  - destruct Hm' as (? & ? & Hc' & _). by rewrite Hc'.
Qed.

(** ** The augmentation engine *)

(** C2, where the code departs from it.  The augmentation engine returns
    no batch of images: [augment_all_images], which ignores its padding
    and pads by 4, raises an IndexError on every batch of at least one
    image, since [augment_image] indexes the channel axis of the crop with
    the size of that axis; and [augment_image] with a padding of 0 raises
    a ValueError, the range of the crop offsets being empty. *)
Theorem augmentation_engine_raises s (r : ref) (pad : nat) (im : image)
    (rest : list image) :
  image_arrays s !! r = Some (im :: rest) ->
  (exists s', augment_all_images r pad s = Raise IndexError s') /\
  (forall (img : image) (p : nat) s1,
     exists s',
       augment_image img p s1 =
         Raise (if (p =? 0)%nat then ValueError else IndexError) s' /\
       self s' = self s1 /\
       image_arrays s' = image_arrays s1 /\ label_arrays s' = label_arrays s1).
Proof.
  intros Hr. split.
  - destruct (augment_all_images_Raise s r pad im rest Hr) as (s' & Hrun & _).
    by exists s'.
  - intros img p s1. apply augment_image_Raise.
Qed.

(** C4, where the code departs from it.  The flip is drawn by
    [randint 0 1], the integers from 0 below 1: whatever the generator
    yields, the draw is 0 and the branch that mirrors the crop is not
    taken.  And no draw of the offsets makes [augment_image] return a
    crop, mirrored or not: it raises before it draws the flip. *)
Theorem flip_draw_is_always_zero s :
  randint 0 1 s =
    Ret 0 (State (self s) (image_arrays s) (label_arrays s)
                 (raw_draws s) (S (draws_used s))) /\
  forall (img : image) (pad : nat),
    exists e s', augment_image img pad s = Raise e s'.
Proof.
  split.
  - rewrite randint_Ret by lia. f_equal. rewrite Z.sub_0_r, Z.mod_1_r. lia.
  - intros img pad. destruct (augment_image_Raise img pad s) as (s' & Hrun & _).
    by eexists _, _.
Qed.

(** ** The place of the split *)

Lemma py_int_truncates (x : float) (k : Z) :
  py_int x = Ok k ->
  exists q, float_value x = Some q /\ k = Qtruncate q.
Proof.
  unfold py_int, float_value, Qtruncate.
  destruct (Prim2SF x) as [sign|sign| |sign m e]; intros H; try done.
  - inversion H. by eexists.
  - inversion H as [Hk]. clear H Hk. eexists. split; [reflexivity|].
    unfold QArith_base.Qle_bool, Qround.Qceiling, Qround.Qfloor, QArith_base.Qopp.
    assert (Hpow : forall p, 0 < 2 ^ Z.pos p)
      by (intros; apply Z.pow_pos_nonneg; lia).
    destruct sign, e as [|p|p];
      cbn -[Z.pow Z.mul Z.div Z.shiftl Z.shiftr Pos.pow Z.leb];
      rewrite ?Z.mul_0_l, ?Z.mul_1_r, ?Z.div_1_r, ?Z.shiftl_mul_pow2,
              ?Z.shiftr_div_pow2, ?Pos2Z.inj_pow by lia;
      match goal with
      | |- context [if ?b then _ else _] => destruct b eqn:E
      end;
      try apply Z.leb_le in E; try apply Z.leb_gt in E;
      try (specialize (Hpow p)); try nia; try lia.
    reflexivity.
Qed.

(** ** One-hot labels *)

Lemma tab_const {A} (n : nat) (v : A) : tab n (fun _ => v) = replicate n v.
Proof.
  unfold tab. generalize 0%nat. induction n as [|n IH]; intros a; cbn; [done|].
  by rewrite IH.
Qed.

Lemma indices_in_range (k : nat) (labs : list Z) :
  Forall (fun c => 0 <= c < Z.of_nat k) labs ->
  indices k labs = Ok (map Z.to_nat labs).
Proof.
  induction 1 as [|c labs Hc _ IH]; cbn; [done|].
  unfold index_axis.
  assert (((0 <=? c) && (c <? Z.of_nat k)) = true) as ->.
  { apply andb_true_iff. split; zbool. }
  by rewrite IH.
Qed.

Lemma zip_with_rows {A B C} (f : A -> B -> C) (z : A) (cols : list B) :
  zip_with f (replicate (length cols) z) cols = map (f z) cols.
Proof. induction cols as [|c cols IH]; cbn; [done|]. by rewrite IH. Qed.

Lemma is_nan_0 : PrimFloat.is_nan 0%float = false.
Proof. reflexivity. Qed.
Lemma is_nan_1 : PrimFloat.is_nan 1%float = false.
Proof. reflexivity. Qed.
Lemma leb_0_0 : (0 <=? 0)%float = true.
Proof. reflexivity. Qed.
Lemma leb_0_1 : (0 <=? 1)%float = true.
Proof. reflexivity. Qed.
Lemma leb_1_0 : (1 <=? 0)%float = false.
Proof. reflexivity. Qed.

(** After a 1, zeros do not move the maximum. *)
Lemma argmax_from_zeros_1 (best_i i m : nat) :
  argmax_from 1%float best_i i (replicate m 0%float) = best_i.
Proof.
  revert i. induction m as [|m IH]; intros i; cbn [replicate argmax_from]; [done|].
  rewrite is_nan_1, leb_0_1. cbn [negb]. apply IH.
Qed.

(** Among zeros, the first 1 is the maximum. *)
Lemma argmax_from_hit (best_i i a m : nat) :
  argmax_from 0%float best_i i (replicate a 0%float ++ 1%float :: replicate m 0%float)
  = (i + a)%nat.
Proof.
  revert i. induction a as [|a IH]; intros i; cbn [replicate app argmax_from].
  - rewrite is_nan_0, leb_1_0. cbn [negb]. rewrite argmax_from_zeros_1. lia.
  - rewrite is_nan_0, leb_0_0. cbn [negb]. rewrite IH. lia.
Qed.

Lemma argmax_one_hot (j k : nat) :
  (j < k)%nat -> argmax (<[j := 1%float]> (replicate k 0%float)) = Z.of_nat j.
Proof.
  intros Hj. rewrite insert_replicate_lt by done.
  destruct j as [|j]; cbn [replicate app argmax].
  - by rewrite argmax_from_zeros_1.
  - rewrite argmax_from_hit. lia.
Qed.

(** C9. For a positive number of classes (10 or 100 in every provider)
    and class indices within [0, n_classes), [labels_to_one_hot] returns
    an array that [labels_from_one_hot] decodes to the indices it was
    given. *)
Theorem one_hot_round_trip (classes : Z) (labs : list Z) :
  0 < classes ->
  Forall (fun c => 0 <= c < classes) labs ->
  exists a,
    labels_to_one_hot classes labs = Ok a /\
    shape2 a = (length labs, Z.to_nat classes) /\
    labels_from_one_hot a = Ok labs.
Proof.
  intros Hpos Hall. unfold labels_to_one_hot.
  assert ((classes <? 0) = false) as -> by zbool.
  rewrite indices_in_range; cycle 1.
  { eapply Forall_impl; [exact Hall|]. cbn. intros; lia. }
  cbn [rbind]. eexists. split; [reflexivity|]. split; [reflexivity|].
  unfold labels_from_one_hot. cbn [shape2 rows2 np_zeros2 build2].
  assert ((Z.to_nat classes =? 0)%nat = false) as -> by (apply Nat.eqb_neq; lia).
  f_equal. rewrite (tab_const (Z.to_nat classes)), tab_const.
  rewrite <- (length_map Z.to_nat labs), zip_with_rows, map_map.
  induction Hall as [|c labs Hc _ IH]; cbn [map]; [done|].
  rewrite argmax_one_hot by lia. rewrite IH. f_equal. lia.
Qed.

End Properties.

(** * The properties at work on the small corpus *)

Lemma example_dataset_constructed :
  new_CifarDataSet 0%nat 0%nat 10 (Some "every_epoch") (Some "divide_255") false
                   example_world
  = Ret tt example_dataset.
Proof. vm_compute. reflexivity. Qed.

Lemma example_is_epoch_dataset : epoch_dataset example_dataset.
Proof.
  apply (constructed example_world 0%nat 0%nat example_images example_labels
           10 (Some "every_epoch") (Some "divide_255") false example_dataset);
    [reflexivity | reflexivity | reflexivity | exact example_dataset_constructed].
Defined.

Lemma example_late_is_epoch_dataset : epoch_dataset example_dataset_late.
Proof.
  eapply (batch_served (final (next_batch 2 2 example_dataset)) 2 2).
  - eapply (batch_served example_dataset 2 2).
    + exact example_is_epoch_dataset.
    + vm_compute. reflexivity.
  - vm_compute. reflexivity.
Defined.

(** The third call of [next_batch(2)] on five examples finds one example
    left: a new epoch starts and the retry returns two aligned pairs. *)
Lemma next_batch_returns_full_batch_witness :
  epoch_dataset example_dataset_late /\
  num_examples example_dataset_late = Ret 5 example_dataset_late /\
  1 <= 2 <= 5 /\
  exists imgs labs s',
    next_batch 2 2 example_dataset_late = Ret (imgs, labs) s' /\
    Z.of_nat (length imgs) = 2 /\ Z.of_nat (length labs) = 2 /\
    _batch_counter (self s') = Some 1.
Proof.
  assert (Hn : num_examples example_dataset_late = Ret 5 example_dataset_late)
    by (vm_compute; reflexivity).
  assert (Hsize : 1 <= 2 <= 5) by lia.
  split; [exact example_late_is_epoch_dataset|]. split; [exact Hn|].
  split; [exact Hsize|].
  destruct (next_batch_returns_full_batch example_dataset_late 5 2
              example_late_is_epoch_dataset Hn Hsize)
    as (imgs & labs & s' & Hrun & Hi & Hl & _ & Hshort & _).
  exists imgs, labs, s'. split; [exact Hrun|]. split; [exact Hi|].
  split; [exact Hl|].
  destruct Hshort as (s1 & _ & _ & Hc); [vm_compute; discriminate|exact Hc].
Defined.

Lemma next_batch_oversized_never_returns_witness :
  epoch_dataset example_dataset /\
  num_examples example_dataset = Ret 5 example_dataset /\
  5 < 6 /\
  exists s', next_batch 1000 6 example_dataset = Unfinished s'.
Proof.
  assert (Hn : num_examples example_dataset = Ret 5 example_dataset)
    by (vm_compute; reflexivity).
  split; [exact example_is_epoch_dataset|]. split; [exact Hn|].
  split; [lia|].
  destruct (next_batch_oversized_never_returns example_dataset 5 6
              example_is_epoch_dataset Hn) as (Hover & _ & _).
  apply Hover. lia.
Defined.

Lemma next_batch_zero_returns_empty_witness :
  epoch_dataset example_dataset /\
  next_batch 1 0 example_dataset = Ret ([], []) (counter_bumped example_dataset).
Proof.
  split; [exact example_is_epoch_dataset|].
  destruct (next_batch_zero_returns_empty example_dataset 0
              example_is_epoch_dataset) as [Hrun _].
  exact Hrun.
Defined.

(** The call that starts a new epoch, with its new shuffled and divided
    arrays, leaves the corpus as it was. *)
Lemma base_corpus_never_modified_witness :
  epoch_dataset example_dataset_late /\
  corpus_images (final (next_batch 2 2 example_dataset_late)) = example_images /\
  corpus_labels (final (next_batch 2 2 example_dataset_late)) = example_labels /\
  num_examples (final (next_batch 2 2 example_dataset_late))
  = Ret 5 (final (next_batch 2 2 example_dataset_late)).
Proof.
  split; [exact example_late_is_epoch_dataset|].
  destruct (base_corpus_never_modified example_dataset_late 2 2
              (final (next_batch 2 2 example_dataset_late))
              example_late_is_epoch_dataset (or_intror eq_refl))
    as (_ & _ & Hi & Hl & (n & Hn & Hn') & _).
  split; [rewrite Hi; vm_compute; reflexivity|].
  split; [rewrite Hl; vm_compute; reflexivity|].
  assert (n = 5) as <-; [|exact Hn'].
  assert (E : num_examples example_dataset_late = Ret 5 example_dataset_late)
    by (vm_compute; reflexivity).
  rewrite E in Hn. symmetry. exact (proj1 (Ret_inj _ _ _ _ Hn)).
Defined.

Lemma shuffle_images_labels_keeps_alignment_witness :
  image_arrays example_world !! 0%nat = Some example_images /\
  label_arrays example_world !! 0%nat = Some example_labels /\
  length example_images = length example_labels /\
  exists i' l' s' X' Y' perm,
    shuffle_images_labels 0%nat 0%nat example_world = Ret (i', l') s' /\
    image_arrays s' !! i' = Some X' /\
    label_arrays s' !! l' = Some Y' /\
    perm ≡ₚ seq 0 5 /\
    forall k j, perm !! k = Some j ->
                X' !! k = example_images !! j /\ Y' !! k = example_labels !! j.
Proof.
  split; [reflexivity|]. split; [reflexivity|]. split; [reflexivity|].
  destruct (shuffle_images_labels_keeps_alignment example_world 0%nat 0%nat
              example_images example_labels eq_refl eq_refl eq_refl)
    as (i' & l' & s' & X' & Y' & perm & Hrun & HX & HY & Hp & _ & _ & Hrows).
  exists i', l', s', X', Y', perm. split; [exact Hrun|]. split; [exact HX|].
  split; [exact HY|]. split; [exact Hp|].
  intros k j Hk. destruct (Hrows k j Hk) as (_ & H1 & H2). by split.
Defined.

Lemma unknown_modes_at_construction_witness :
  (exists s',
     new_CifarDataSet 0%nat 0%nat 10 (Some "sometimes") None false example_world
       = Raise AttributeError s' /\
     epoch_images (self s') = None) /\
  (exists s',
     new_CifarDataSet 0%nat 0%nat 10 (Some "every_epoch") (Some "sometimes")
                      false example_world
       = Ret tt s' /\
     exists idx,
       idx ≡ₚ seq 0 (length (corpus_images s')) /\
       take_rows (corpus_images s') idx = Ok (epoch_buffer_images s')).
Proof.
  destruct (unknown_modes_at_construction 0%nat 0%nat 10 (Some "every_epoch")
              "sometimes" None false example_world
              example_images example_labels) as [Hshuffle Hnorm].
  split.
  - destruct Hshuffle as (s' & Hrun & He & _); [discriminate..|].
    by exists s'.
  - destruct Hnorm as (s' & idx & Hrun & Hp & Hrows & _);
      [discriminate | discriminate | discriminate
      | right; right; reflexivity | reflexivity | reflexivity | reflexivity |].
    exists s'. split; [exact Hrun|]. by exists idx.
Defined.

(** C3, as stated, fails on the code: a dataset built with a
    normalization mode no branch knows is built, its epoch buffer is the
    corpus itself, and it serves a batch. *)
Lemma unknown_normalization_is_accepted :
  new_CifarDataSet 0%nat 0%nat 10 None (Some "sometimes") false example_world
  = Ret tt
      (State (Attrs (Some false) (Some 0%nat) (Some 0%nat) (Some 10) (Some false)
                    (Some (Some "sometimes")) (Some 0) (Some 0%nat) (Some 0%nat))
             [example_images] [example_labels] example_draws 0) /\
  next_batch 1 2
      (State (Attrs (Some false) (Some 0%nat) (Some 0%nat) (Some 10) (Some false)
                    (Some (Some "sometimes")) (Some 0) (Some 0%nat) (Some 0%nat))
             [example_images] [example_labels] example_draws 0)
  = Ret ([pixel_image 10; pixel_image 20], [0; 1])
      (State (Attrs (Some false) (Some 0%nat) (Some 0%nat) (Some 10) (Some false)
                    (Some (Some "sometimes")) (Some 1) (Some 0%nat) (Some 0%nat))
             [example_images] [example_labels] example_draws 0).
Proof. split; vm_compute; reflexivity. Qed.

(** A batch of one image, and a padding the engine ignores. *)
Lemma augmentation_engine_raises_witness :
  exists s',
    augment_all_images 0%nat 2
      (State blank [[pixel_image 7]] [[0]] example_draws 0)
    = Raise IndexError s'.
Proof.
  destruct (augmentation_engine_raises
              (State blank [[pixel_image 7]] [[0]] example_draws 0)
              0%nat 2 (pixel_image 7) [] eq_refl) as [Hbatch _].
  exact Hbatch.
Defined.

Lemma one_hot_round_trip_witness :
  0 < 10 /\
  Forall (fun c => 0 <= c < 10) [3; 0; 9] /\
  exists a,
    labels_to_one_hot 10 [3; 0; 9] = Ok a /\
    labels_from_one_hot a = Ok [3; 0; 9].
Proof.
  assert (Hall : Forall (fun c => 0 <= c < 10) [3; 0; 9])
    by (repeat constructor; lia).
  split; [lia|]. split; [exact Hall|].
  destruct (one_hot_round_trip 10 [3; 0; 9] ltac:(lia) Hall)
    as (a & Hto & _ & Hfrom).
  by exists a.
Defined.

(** ** The scenarios of the design document *)

(** Twenty examples served by five: the four windows of the epoch in
    order, then a new epoch and its first window again, the cursor at 1. *)
Theorem epoch_rollover_scenario :
  let s1 := after_batch 5 scenario_dataset in
  let s2 := after_batch 5 s1 in
  let s3 := after_batch 5 s2 in
  let s4 := after_batch 5 s3 in
  let s5 := after_batch 5 s4 in
  batch_of 5 scenario_dataset
    = Some (take 5 scenario_images, take 5 scenario_labels) /\
  batch_of 5 s1
    = Some (take 5 (drop 5 scenario_images), take 5 (drop 5 scenario_labels)) /\
  batch_of 5 s2
    = Some (take 5 (drop 10 scenario_images), take 5 (drop 10 scenario_labels)) /\
  batch_of 5 s3
    = Some (take 5 (drop 15 scenario_images), take 5 (drop 15 scenario_labels)) /\
  _batch_counter (self s4) = Some 4 /\
  batch_of 5 s4
    = Some (take 5 scenario_images, take 5 scenario_labels) /\
  _batch_counter (self s5) = Some 1.
Proof. vm_compute. repeat split; reflexivity. Qed.

(** Division by 255 in binary64 sends the pixel 255 to 1.0 and the pixel 0
    to 0.0: the epoch buffer of a dataset of one image built with
    'divide_255'. *)
Theorem divide_255_scenario :
  let s :=
    final (new_CifarDataSet 0%nat 0%nat 10 None (Some "divide_255") false
             (State blank
                    [[Nd3 (1, 1, 3)%nat [[[255%float; 0%float; 51%float]]]]]
                    [[7]] example_draws 0)) in
  batch_of 1 s
  = Some ([Nd3 (1, 1, 3)%nat [[[1%float; 0%float; 0x1.999999999999ap-3%float]]]],
          [7]) /\
  corpus_images s = [Nd3 (1, 1, 3)%nat [[[255%float; 0%float; 51%float]]]].
Proof. vm_compute. split; reflexivity. Qed.

(** The failing input of the augmentation engine, run: the two offsets
    are drawn, then the crop raises. *)
Example augment_image_example :
  augment_image (pixel_image 7) 4 example_world
  = Raise IndexError
      (State blank [example_images] [example_labels] example_draws 2).
Proof. vm_compute. reflexivity. Qed.

(** The cut is computed in binary64: a half of ten examples is five, a
    tenth of 50000 leaves 45000, and for the fraction 0.9 of ten examples
    [1 - 0.9] is 0.09999999999999998, the product with 10 is below 1 and
    the cut is at 0. *)
Example split_index_example :
  split_index 10 0.5%float = Ok 5 /\
  split_index (Z.to_nat 50000) 0x1.999999999999ap-4%float = Ok 45000 /\
  split_index 10 0x1.ccccccccccccdp-1%float = Ok 0.
Proof. vm_compute. repeat split; reflexivity. Qed.

(** A dataset with augmentation on and one image, as [__init__] leaves it
    when it calls [start_new_epoch]: the call raises, and the corpus is
    what it was. *)
Lemma start_new_epoch_keeps_corpus_witness :
  exists s',
    start_new_epoch
      (State (Attrs (Some false) (Some 0%nat) (Some 0%nat) (Some 10) (Some true)
                    (Some None) None None None)
             [[pixel_image 7]] [[0]] example_draws 0)
    = Raise IndexError s' /\
    corpus_images s' = [pixel_image 7] /\ corpus_labels s' = [0].
Proof.
  destruct (start_new_epoch_keeps_corpus false 0%nat 0%nat true None
              [pixel_image 7] [0]
              (State (Attrs (Some false) (Some 0%nat) (Some 0%nat) (Some 10)
                            (Some true) (Some None) None None None)
                     [[pixel_image 7]] [[0]] example_draws 0))
    as [Hb _]; [by repeat split|].
  destruct (num_examples_run _ _ _ _ _ _ _ _ Hb) as (_ & Hi & Hl & _).
  eexists. split; [vm_compute; reflexivity|]. split; [exact Hi|exact Hl].
Defined.

Lemma scenario_is_epoch_dataset : epoch_dataset scenario_dataset.
Proof.
  apply (constructed
           (State blank [scenario_images] [scenario_labels] example_draws 0)
           0%nat 0%nat scenario_images scenario_labels 10 None None false
           scenario_dataset);
    [reflexivity | reflexivity | vm_compute; reflexivity
    | vm_compute; reflexivity].
Qed.

(** The twenty examples of the scenario, served by five in four calls. *)
Lemma epoch_is_partitioned_witness :
  epoch_dataset scenario_dataset /\
  exists batches s',
    next_batches 4 5 scenario_dataset = Ret batches s' /\
    concat (map fst batches) = scenario_images /\
    concat (map snd batches) = scenario_labels /\
    length batches = 4%nat.
Proof.
  split; [exact scenario_is_epoch_dataset|].
  destruct (epoch_is_partitioned scenario_dataset 4 20 5
              scenario_is_epoch_dataset eq_refl
              ltac:(vm_compute; reflexivity) ltac:(lia) ltac:(lia))
    as (batches & s' & Hrun & Hi & Hl & Hk & _).
  exists batches, s'. split; [exact Hrun|].
  split; [rewrite Hi; vm_compute; reflexivity|].
  split; [rewrite Hl; vm_compute; reflexivity|exact Hk].
Defined.

(** * Further properties of the dataset and of the helpers *)

Section Epochs.
Context {label : Type}.
Implicit Types s : state label.
Implicit Types X : list image.
Implicit Types Y : list label.

(** ** More on the epochs of a dataset *)

Lemma start_new_epoch_plain i l (norm : option string) X Y s :
  based false i l false norm X Y s ->
  (forall mode, norm = Some mode ->
     mode <> "divide_255" /\ mode <> "divide_256" /\ mode <> "by_chanels") ->
  start_new_epoch s =
  Ret tt (State (set_epoch_labels l (set_epoch_images i (set_batch_counter 0 (self s))))
                (image_arrays s) (label_arrays s) (raw_draws s) (draws_used s)).
Proof.
  intros (H1 & H2 & H3 & H4 & H5 & _) Hnorm. unfold start_new_epoch.
  erewrite bind_Ret by reflexivity.
  set (s0 := State _ _ _ _ _).
  rewrite (bind_Ret _ _ _ _ _ (getattr_Some shuffle_every_epoch s0 false H1)).
  erewrite (bind_Ret (bind (getattr images) _)); cycle 1.
  { rewrite (bind_Ret _ _ _ _ _ (getattr_Some images s0 i H2)).
    rewrite (bind_Ret _ _ _ _ _ (getattr_Some labels s0 l H3)). reflexivity. }
  mbeta.
  rewrite (bind_Ret _ _ _ _ _ (getattr_Some augmentation s0 false H4)).
  erewrite bind_Ret by reflexivity.
  rewrite (bind_Ret _ _ _ _ _ (getattr_Some normalization s0 norm H5)).
  assert (Hid : (if truthy norm
                 then if is_str norm "divide_255" then true_divide i 255
                      else if is_str norm "divide_256" then true_divide i 256
                      else if is_str norm "by_chanels"
                           then normalize_all_images_by_chanels i
                           else ret i
                 else ret i) = @ret label _ i).
  { destruct norm as [mode|]; [|done].
    destruct (Hnorm mode eq_refl) as (N1 & N2 & N3).
    apply String.eqb_neq in N1, N2, N3. unfold truthy, is_str.
    rewrite N1, N2, N3. by destruct (negb (String.eqb mode "")). }
  rewrite Hid. reflexivity.
Qed.

(** *** The random generator *)

Lemma tape_kept_ret {A} (a : A) : tape_kept (@ret label A a).
Proof. by intros s. Qed.

Lemma tape_kept_raise {A} (e : exn) : tape_kept (@raise label A e).
Proof. by intros s. Qed.

Lemma tape_kept_lift {A} (r : result A) : tape_kept (@lift label A r).
Proof. destruct r; [apply tape_kept_ret|apply tape_kept_raise]. Qed.

Lemma tape_kept_bind {A B} (m : @M label A) (k : A -> M B) :
  tape_kept m -> (forall a, tape_kept (k a)) -> tape_kept (bind m k).
Proof.
  intros Hm Hk s. specialize (Hm s). unfold bind.
  destruct (m s) as [a s'|e s'|s']; cbn in *; [|done..].
  destruct Hm as [H3 H4]. destruct (Hk a s') as [H1 H2]. split; congruence.
Qed.

Lemma tape_kept_getattr {A} (name : CifarDataSet -> option A) :
  tape_kept (@getattr label A name).
Proof. intros s. unfold getattr. by destruct (name (self s)). Qed.

Lemma tape_kept_setattr (assign : CifarDataSet -> CifarDataSet) :
  tape_kept (@setattr label assign).
Proof. by intros s. Qed.

Lemma tape_kept_read_images (r : ref) : tape_kept (@read_images label r).
Proof. intros s. unfold read_images. by destruct (image_arrays s !! r). Qed.

Lemma tape_kept_read_labels (r : ref) : tape_kept (@read_labels label r).
Proof. intros s. unfold read_labels. by destruct (label_arrays s !! r). Qed.

Lemma tape_kept_new_image_array (a : list image) :
  tape_kept (@new_image_array label a).
Proof. by intros s. Qed.

Lemma tape_kept_new_label_array (a : list label) : tape_kept (new_label_array a).
Proof. by intros s. Qed.

Lemma tape_kept_for_each {A} (l : list A) (body : A -> @M label unit) :
  (forall x, tape_kept (body x)) -> tape_kept (for_each l body).
Proof.
  intros Hbody. induction l as [|x l IH]; cbn [for_each].
  - apply tape_kept_ret.
  - apply tape_kept_bind; [apply Hbody|]. by intros _.
Qed.

Create HintDb tape discriminated.
#[local] Hint Resolve tape_kept_ret tape_kept_raise tape_kept_lift tape_kept_getattr
  tape_kept_setattr tape_kept_read_images tape_kept_read_labels
  tape_kept_new_image_array tape_kept_new_label_array : tape.

Ltac solve_tape := repeat first
  [ solve [auto with tape]
  | apply tape_kept_bind; [|intros ?]
  | apply tape_kept_for_each; intros ?
  | match goal with |- tape_kept (match ?x with _ => _ end) => destruct x end ].

Lemma tape_kept_getitem_image (r : ref) (i : nat) :
  tape_kept (@getitem_image label r i).
Proof. unfold getitem_image. solve_tape. Qed.

Lemma tape_kept_setitem_image (r : ref) (i : nat) (v : result image) :
  tape_kept (@setitem_image label r i v).
Proof. unfold setitem_image. solve_tape. by intros s. Qed.

#[local] Hint Resolve tape_kept_getitem_image tape_kept_setitem_image : tape.

Lemma tape_kept_true_divide (r : ref) (d : float) :
  tape_kept (@true_divide label r d).
Proof. unfold true_divide. solve_tape. Qed.

Lemma tape_kept_normalize_all_images_by_chanels (r : ref) :
  tape_kept (@normalize_all_images_by_chanels label r).
Proof. unfold normalize_all_images_by_chanels. solve_tape. Qed.

(** [start_new_epoch] draws once when it shuffles, and not otherwise. *)
Lemma start_new_epoch_tape every i l aug norm X Y s :
  based every i l aug norm X Y s ->
  restartable aug norm X ->
  raw_draws (final (start_new_epoch s)) = raw_draws s /\
  draws_used (final (start_new_epoch s)) =
    if every then S (draws_used s) else draws_used s.
Proof.
  intros Hb [Haug _]. unfold start_new_epoch.
  erewrite bind_Ret by reflexivity.
  set (s0 := State _ _ _ _ _).
  assert (Hb0 : based every i l aug norm X Y s0) by exact Hb.
  pose proof Hb0 as (H1 & H2 & H3 & H4 & H5 & H6 & H7 & H8).
  rewrite (bind_Ret _ _ _ _ _ (getattr_Some _ _ _ H1)).
  assert (exists si sl rows s1,
    (if every : bool
     then i <- getattr images ;; l <- getattr labels ;;
          shuffle_images_labels i l
     else i <- getattr images ;; l <- getattr labels ;;
          ret (i, l)) s0 = Ret (si, sl) s1 /\
    self s1 = self s0 /\ image_arrays s1 !! si = Some rows /\
    (X = [] -> rows = []) /\
    raw_draws s1 = raw_draws s /\
    draws_used s1 = if every then S (draws_used s) else draws_used s)
    as (si & sl & rows & s1 & Hsrc & Hself & Hsi & Hnil & T1 & T2).
  { destruct every;
      rewrite (bind_Ret _ _ _ _ _ (getattr_Some _ _ _ H2));
      rewrite (bind_Ret _ _ _ _ _ (getattr_Some _ _ _ H3)).
    - destruct (shuffle_images_labels_run s0 i l X Y H6 H7 ltac:(lia))
        as (RX & RY & HRX & HRY & Hrun).
      eexists _, _, RX, _. split; [exact Hrun|]. cbn.
      split; [done|]. split; [by apply list_lookup_middle|].
      split; [|done]. intros ->. cbn in HRX. by inversion HRX.
    - by exists i, l, X, s0. }
  rewrite (bind_Ret _ _ _ _ _ Hsrc). mbeta.
  rewrite (bind_Ret _ _ _ _ _ (getattr_Some augmentation s1 aug
                                 ltac:(by rewrite Hself))).
  assert (exists sa s2,
    (if aug then augment_all_images si 4 else ret si) s1 = Ret sa s2 /\
    raw_draws s2 = raw_draws s1 /\ draws_used s2 = draws_used s1)
    as (sa & s2 & Hrun & T3 & T4).
  { destruct aug; [|by eexists _, _].
    rewrite (Hnil (Haug eq_refl)) in Hsi.
    rewrite (augment_all_images_nil _ _ _ Hsi). by eexists _, _. }
  rewrite (bind_Ret _ _ _ _ _ Hrun).
  match goal with
  | |- context [final (?m s2)] => assert (Ht : tape_kept m) by solve_tape
  end.
  destruct (Ht s2) as [T5 T6]. split; congruence.
Qed.

(** The windows [next_batch] serves without a new epoch cost no draw; a
    dataset that does not shuffle every epoch never draws. *)
Lemma next_batch_tape i l aug norm X Y fuel b :
  forall s,
    inv false i l aug norm X Y s ->
    raw_draws (final (next_batch fuel b s)) = raw_draws s /\
    draws_used (final (next_batch fuel b s)) = draws_used s.
Proof.
  induction fuel as [|fuel IH]; intros s Hinv; [done|].
  destruct Hinv as (Hb & Hre & c & EX & EY & Hc & Hm & Hof).
  destruct (next_batch_step s c EX EY fuel b Hm) as [Hfull Hshort].
  pose proof (based_bumped _ _ _ _ _ _ _ _ Hb) as Hb1.
  assert (Hst : raw_draws (counter_bumped s) = raw_draws s /\
                draws_used (counter_bumped s) = draws_used s).
  { destruct Hm as (ei & el & Hcnt & _). by rewrite (counter_bumped_eq _ _ Hcnt). }
  destruct Hst as [T1 T2].
  destruct (decide (Z.of_nat (length (py_slice EX (Some (c * b))
                                        (Some ((c + 1) * b)))) = b)) as [E|E].
  - by rewrite (Hfull E).
  - rewrite (Hshort E).
    destruct (start_new_epoch_tape _ _ _ _ _ _ _ _ Hb1 Hre) as [T3 T4].
    destruct (inv_start_new_epoch _ _ _ _ _ _ _ _ Hb1 Hre)
      as (s1 & EX1 & EY1 & Hrun & Hinv1 & _).
    rewrite Hrun in T3, T4. cbn [final] in T3, T4.
    rewrite (bind_Ret _ _ _ _ _ Hrun).
    destruct (IH s1 Hinv1) as [T5 T6]. split; congruence.
Qed.

(** X3.  What [start_new_epoch] and [next_batch] ask of the random generator:
    on every epoch dataset a new epoch takes one draw when the dataset
    shuffles every epoch and none when it does not, and a dataset that
    does not shuffle every epoch takes no draw in [next_batch] either,
    whatever the call ends in. *)
Theorem random_generator_use s (every : bool) (fuel : nat) (batch_size : Z) :
  epoch_dataset s ->
  shuffle_every_epoch (self s) = Some every ->
  raw_draws (final (start_new_epoch s)) = raw_draws s /\
  draws_used (final (start_new_epoch s)) =
    (if every then S (draws_used s) else draws_used s) /\
  (every = false ->
   raw_draws (final (next_batch fuel batch_size s)) = raw_draws s /\
   draws_used (final (next_batch fuel batch_size s)) = draws_used s).
Proof.
  intros Hds Hevery.
  destruct (epoch_dataset_inv s Hds) as (every' & i & l & aug & norm & X & Y & Hinv).
  pose proof Hinv as (Hb & Hre & _).
  assert (every' = every) as -> by (destruct Hb as (Hb & _); congruence).
  destruct (start_new_epoch_tape _ _ _ _ _ _ _ _ Hb Hre) as [T1 T2].
  split; [done|]. split; [done|].
  intros ->. by eapply next_batch_tape.
Qed.

(** X4.  Without shuffling at every epoch, augmentation and a normalization
    the code knows, a new epoch copies nothing: the epoch buffers are the
    arrays of the corpus themselves, no array is made, no number is drawn,
    and the cursor is back at 0. *)
Theorem plain_epoch_reuses_the_corpus s :
  epoch_dataset s ->
  shuffle_every_epoch (self s) = Some false ->
  augmentation (self s) = Some false ->
  (forall mode, normalization_mode s = Some mode ->
     mode <> "divide_255" /\ mode <> "divide_256" /\ mode <> "by_chanels") ->
  exists i l,
    images (self s) = Some i /\ labels (self s) = Some l /\
    start_new_epoch s =
    Ret tt (State (set_epoch_labels l
                     (set_epoch_images i (set_batch_counter 0 (self s))))
                  (image_arrays s) (label_arrays s) (raw_draws s) (draws_used s)).
Proof.
  intros Hds Hevery Haug Hnorm.
  destruct (epoch_dataset_inv s Hds) as (every & i & l & aug & norm & X & Y & Hinv).
  destruct Hinv as (Hb & _).
  destruct (num_examples_run _ _ _ _ _ _ _ _ Hb) as (_ & _ & _ & Hmode).
  pose proof Hb as (H1 & H2 & H3 & H4 & _).
  assert (every = false) as -> by congruence.
  assert (aug = false) as -> by congruence.
  exists i, l. split; [done|]. split; [done|].
  eapply start_new_epoch_plain; [exact Hb|].
  intros mode Hm. apply Hnorm. by rewrite Hmode.
Qed.

(** X5.  The buffers of an epoch hold every example of the corpus once: the
    epoch labels are the rows of the corpus labels at a permutation of the
    indices, and the epoch images are the rows of the corpus images at the
    same permutation, each normalized as the mode of the dataset has it. *)
Theorem epoch_holds_every_example_once s :
  epoch_dataset s ->
  exists idx rows,
    idx ≡ₚ seq 0 (length (corpus_labels s)) /\
    take_rows (corpus_labels s) idx = Ok (epoch_buffer_labels s) /\
    take_rows (corpus_images s) idx = Ok rows /\
    map_result (epoch_image (normalization_mode s)) rows
      = Ok (epoch_buffer_images s) /\
    length (epoch_buffer_images s) = length (corpus_labels s) /\
    length (epoch_buffer_labels s) = length (corpus_labels s).
Proof.
  intros Hds.
  destruct (epoch_dataset_inv s Hds) as (every & i & l & aug & norm & X & Y & Hinv).
  destruct Hinv as (Hb & _ & c & EX & EY & _ & Hm & Hof).
  destruct (num_examples_run _ _ _ _ _ _ _ _ Hb) as (_ & -> & -> & ->).
  destruct (epoch_buffers_eq _ _ _ _ Hm) as [-> ->].
  pose proof Hb as (_ & _ & _ & _ & _ & _ & _ & Hlen).
  destruct (epoch_of_length _ _ _ _ _ Hlen Hof) as [LX LY].
  destruct Hof as (idx & rows & Hp & HEY & Hrows & HEX).
  exists idx, rows. rewrite <- Hlen. repeat split; try done.
Qed.

(** *** Augmentation and the constructor *)

Lemma start_new_epoch_augmented every i l norm X Y s :
  based every i l true norm X Y s ->
  X <> [] ->
  exists s',
    start_new_epoch s = Raise IndexError s' /\
    self s' = set_batch_counter 0 (self s) /\ arrays_kept s s'.
Proof.
  intros Hb Hne. unfold start_new_epoch.
  erewrite bind_Ret by reflexivity.
  set (s0 := State _ _ _ _ _).
  assert (Hb0 : based every i l true norm X Y s0) by exact Hb.
  assert (Hk0 : arrays_kept s s0) by (by split).
  pose proof Hb0 as (H1 & H2 & H3 & H4 & H5 & H6 & H7 & H8).
  rewrite (bind_Ret _ _ _ _ _ (getattr_Some _ _ _ H1)).
  destruct (epoch_source_run _ _ _ _ _ _ _ _ Hb0)
    as (si & sl & rows & EY & idx & s1 & HA & Hext1 & Hsi & Hsl & Hp & Hrows & HEY).
  rewrite (bind_Ret _ _ _ _ _ HA). mbeta.
  pose proof Hext1 as (Hself1 & _).
  pose proof (extends_arrays_kept _ _ Hext1) as Hk1.
  rewrite (bind_Ret _ _ _ _ _ (getattr_Some augmentation s1 true
                                 ltac:(by rewrite Hself1))).
  destruct rows as [|im rest].
  { destruct X as [|x X']; [done|].
    assert (x ∈ ([] : list image)) as Hx
      by (eapply take_rows_all; [exact Hp|exact Hrows|left]).
    by apply elem_of_nil in Hx. }
  destruct (augment_all_images_Raise s1 si 4 im rest Hsi) as (s' & Ha & Hself & Hk).
  rewrite (bind_Raise _ _ _ _ _ Ha). exists s'. split; [done|].
  split; [by rewrite Hself, Hself1|].
  exact (arrays_kept_trans _ _ _ Hk0 (arrays_kept_trans _ _ _ Hk1 Hk)).
Qed.

Lemma new_CifarDataSet_augmented
    (imgs labs : ref) (classes : Z) (shuffle norm : option string) s0 X Y :
  image_arrays s0 !! imgs = Some X ->
  label_arrays s0 !! labs = Some Y ->
  length X = length Y ->
  shuffle = None \/ shuffle = Some "once_prior_train" \/
    shuffle = Some "every_epoch" ->
  (X <> [] ->
   exists s',
     new_CifarDataSet imgs labs classes shuffle norm true s0 = Raise IndexError s' /\
     arrays_kept s0 s') /\
  (X = [] ->
   exists s',
     new_CifarDataSet imgs labs classes shuffle norm true s0 = Ret tt s' /\
     arrays_kept s0 s').
Proof.
  intros HX HY Hlen Hshuffle.
  destruct (init_reaches_start imgs labs classes shuffle norm true s0 X Y HX HY Hlen)
    as [(m & -> & E1 & E2)
       |(every & i & l & X' & Y' & s1 & Hb & -> & HlenX & [ia Hia] & [la Hla])].
  { destruct Hshuffle as [?|[[= ->]|[= ->]]]; done. }
  assert (Hk01 : arrays_kept s0 s1).
  { split; intros r a Hr; rewrite ?Hia, ?Hla; by apply lookup_app_l_Some. }
  split.
  - intros Hne.
    assert (X' <> []) as Hne'.
    { intros ->. destruct X; [done|]. cbn in HlenX. lia. }
    destruct (start_new_epoch_augmented _ _ _ _ _ _ _ Hb Hne')
      as (s' & Hrun & _ & Hk).
    exists s'. split; [done|]. by eapply arrays_kept_trans.
  - intros ->.
    assert (X' = []) as -> by (by apply length_zero_iff_nil).
    assert (Hre : restartable true norm []) by (split; [done|constructor]).
    destruct (inv_start_new_epoch _ _ _ _ _ _ _ _ Hb Hre)
      as (s' & _ & _ & Hrun & _ & _ & _ & [ia' Hia'] & [la' Hla']).
    exists s'. split; [done|]. eapply arrays_kept_trans; [exact Hk01|].
    split; intros r a Hr; rewrite ?Hia', ?Hla'; by apply lookup_app_l_Some.
Qed.

(** X6.  A dataset with augmentation on is built on an empty corpus only: on
    a corpus of at least one example the constructor raises the IndexError
    of [augment_image], whatever the normalization, and leaves the arrays
    it was given as they were. *)
Theorem augmented_dataset_is_never_built
    (imgs labs : ref) (classes : Z) (shuffle norm : option string) s0 X Y :
  image_arrays s0 !! imgs = Some X ->
  label_arrays s0 !! labs = Some Y ->
  length X = length Y ->
  shuffle = None \/ shuffle = Some "once_prior_train" \/
    shuffle = Some "every_epoch" ->
  (X <> [] ->
   exists s',
     new_CifarDataSet imgs labs classes shuffle norm true s0 = Raise IndexError s' /\
     image_arrays s' !! imgs = Some X /\ label_arrays s' !! labs = Some Y) /\
  (X = [] ->
   exists s', new_CifarDataSet imgs labs classes shuffle norm true s0 = Ret tt s').
Proof.
  intros HX HY Hlen Hshuffle.
  destruct (new_CifarDataSet_augmented imgs labs classes shuffle norm s0 X Y
              HX HY Hlen Hshuffle) as [Hraise Hret].
  split.
  - intros Hne. destruct (Hraise Hne) as (s' & Hrun & Hki & Hkl).
    exists s'. auto.
  - intros Hnil. destruct (Hret Hnil) as (s' & Hrun & _). by exists s'.
Qed.

(** Without a shuffle before the training the dataset keeps the arrays
    it was given as its corpus. *)
Lemma new_CifarDataSet_keeps_order
    (imgs labs : ref) (classes : Z) (shuffle norm : option string) (aug : bool)
    s0 X Y :
  image_arrays s0 !! imgs = Some X ->
  label_arrays s0 !! labs = Some Y ->
  length X = length Y ->
  shuffle = None \/ shuffle = Some "every_epoch" ->
  restartable aug norm X ->
  exists s,
    new_CifarDataSet imgs labs classes shuffle norm aug s0 = Ret tt s /\
    images (self s) = Some imgs /\ labels (self s) = Some labs /\
    arrays_kept s0 s.
Proof.
  intros HX HY Hlen Hshuffle Hre.
  set (every := match shuffle with Some _ => true | None => false end).
  set (s1 := State (Attrs (Some every) (Some imgs) (Some labs) (Some classes)
                          (Some aug) (Some norm) None None None)
                   (image_arrays s0) (label_arrays s0)
                   (raw_draws s0) (draws_used s0)).
  assert (Hstart : new_CifarDataSet imgs labs classes shuffle norm aug s0
                   = start_new_epoch s1).
  { by destruct Hshuffle as [-> | ->]. }
  assert (Hb : based every imgs labs aug norm X Y s1) by (by repeat split).
  destruct (inv_start_new_epoch _ _ _ _ _ _ _ _ Hb Hre)
    as (s & _ & _ & Hrun & ((_ & Hi & Hl & _) & _) & _ & _ & [ia Hia] & [la Hla]).
  exists s. rewrite Hstart. split; [done|]. split; [done|]. split; [done|].
  split; intros r a Hr; rewrite ?Hia, ?Hla; by apply lookup_app_l_Some.
Qed.

(** *** The end of an epoch *)

Lemma bind_Ret_inv {A B} (m : M A) (k : A -> M B) s b s' :
  bind m k s = Ret b s' -> exists a s1, m s = Ret a s1 /\ k a s1 = Ret b s'.
Proof.
  unfold bind. destruct (m s) as [a s1|e s1|s1]; [|done..].
  intros H. by exists a, s1.
Qed.

Lemma next_batches_epoch_dataset (k : nat) (b : Z) :
  forall s batches s',
    epoch_dataset s -> next_batches k b s = Ret batches s' -> epoch_dataset s'.
Proof.
  induction k as [|k IH]; intros s batches s' Hds Hrun; cbn [next_batches] in Hrun.
  - by inversion Hrun; subst.
  - apply bind_Ret_inv in Hrun as (batch & s1 & H1 & Hrun).
    apply bind_Ret_inv in Hrun as (rest & s2 & H2 & Hrun).
    inversion Hrun; subst.
    eapply IH; [|exact H2]. by eapply batch_served.
Qed.

Lemma short_window {A} (l : list A) (q : nat) (b : Z) :
  1 <= b ->
  Z.of_nat q = Z.of_nat (length l) / b ->
  py_slice l (Some (Z.of_nat q * b)) (Some ((Z.of_nat q + 1) * b))
  = drop (q * Z.to_nat b) l.
Proof.
  intros Hb Hq.
  pose proof (Z.div_mod (Z.of_nat (length l)) b ltac:(lia)) as Hdm.
  pose proof (Z.mod_pos_bound (Z.of_nat (length l)) b ltac:(lia)) as Hmod.
  unfold py_slice. rewrite slice_range_window by lia.
  rewrite (Z.min_l (Z.of_nat q * b)) by nia.
  rewrite (Z.min_r ((Z.of_nat q + 1) * b)) by nia.
  replace (Z.to_nat (Z.of_nat q * b)) with (q * Z.to_nat b)%nat by nia.
  apply take_ge. rewrite length_drop. nia.
Qed.

(** X7.  A batch size that does not divide [num_examples]: from the start of
    an epoch the calls of [next_batch] that need no new epoch serve the
    buffer in order up to a last window of [num_examples mod batch_size]
    examples, which no call returns: the call that finds it starts a new
    epoch. *)
Theorem epoch_tail_is_dropped s (n batch_size : Z) :
  epoch_dataset s ->
  _batch_counter (self s) = Some 0 ->
  num_examples s = Ret n s ->
  1 <= batch_size ->
  n mod batch_size <> 0 ->
  exists batches s',
    next_batches (Z.to_nat (n / batch_size)) batch_size s = Ret batches s' /\
    concat (map fst batches) ++ images_at_cursor s' batch_size
      = epoch_buffer_images s /\
    Z.of_nat (length (images_at_cursor s' batch_size)) = n mod batch_size /\
    exists s'', next_batch 1 batch_size s' = Unfinished s''.
Proof.
  intros Hds Hc Hn Hb Hrem.
  destruct (epoch_dataset_inv s Hds) as (every & i & l & aug & norm & X & Y & Hinv).
  destruct Hinv as (Hbased & Hre & c & EX & EY & _ & Hm & Hof).
  pose proof Hbased as (_ & _ & _ & _ & _ & _ & _ & Hlen).
  destruct (epoch_of_length _ _ _ _ _ Hlen Hof) as [LX LY].
  destruct (num_examples_run _ _ _ _ _ _ _ _ Hbased) as (Hn' & _).
  rewrite Hn' in Hn. apply Ret_inj in Hn as [<- _].
  assert (c = 0) as ->.
  { destruct Hm as (? & ? & Hc' & _). congruence. }
  set (n := Z.of_nat (length Y)) in *.
  pose proof (Z.div_mod n batch_size ltac:(lia)) as Hdm.
  pose proof (Z.mod_pos_bound n batch_size ltac:(lia)) as Hmod.
  assert (Hq0 : 0 <= n / batch_size) by (apply Z.div_pos; lia).
  set (q := Z.to_nat (n / batch_size)).
  assert (Hq : Z.of_nat q = n / batch_size) by lia.
  destruct (next_batches_run (Z.to_nat batch_size) EX EY ltac:(lia)
              ltac:(congruence) q 0%nat s Hm ltac:(nia))
    as (batches & s' & Hrun & Hm' & Hci & Hcl & Hk & Hall).
  rewrite Z2Nat.id in Hrun by lia. cbn [plus] in Hm'.
  exists batches, s'. split; [done|].
  rewrite (images_at_cursor_eq _ _ _ _ batch_size Hm').
  destruct (epoch_buffers_eq _ _ _ _ Hm) as [-> _].
  rewrite short_window by (lia || (rewrite LX, Hlen; exact Hq)).
  cbn [Nat.mul] in Hci. rewrite drop_0 in Hci. rewrite Hci.
  split; [apply take_drop|]. split.
  { rewrite length_drop. nia. }
  destruct (next_batch_step s' (Z.of_nat q) EX EY 0 batch_size Hm') as [_ Hshort].
  rewrite short_window in Hshort by (lia || (rewrite LX, Hlen; exact Hq)).
  rewrite Hshort by (rewrite length_drop; nia).
  destruct (epoch_dataset_inv s' (next_batches_epoch_dataset _ _ _ _ _ Hds Hrun))
    as (every' & i' & l' & aug' & norm' & X' & Y' & Hb' & Hre' & _).
  pose proof (based_bumped _ _ _ _ _ _ _ _ Hb') as Hb1.
  destruct (inv_start_new_epoch _ _ _ _ _ _ _ _ Hb1 Hre') as (s1 & _ & _ & Hrun1 & _).
  rewrite (bind_Ret _ _ _ _ _ Hrun1). by exists s1.
Qed.

(** *** Shuffling a corpus that is not aligned *)

Lemma take_rows_out_of_range {A} (a : list A) (idx : list nat) (j : nat) :
  j ∈ idx -> (length a <= j)%nat -> take_rows a idx = Err IndexError.
Proof.
  intros Hin Hj. induction idx as [|k idx IH]; [by apply elem_of_nil in Hin|].
  cbn [take_rows]. apply elem_of_cons in Hin as [<-|Hin].
  - by rewrite lookup_ge_None_2.
  - destruct (a !! k); [|done]. by rewrite IH.
Qed.

Lemma take_rows_fmap {A} (a : list A) (idx : list nat) (rows : list A) :
  take_rows a idx = Ok rows -> Some <$> rows = (fun j => a !! j) <$> idx.
Proof.
  revert rows. induction idx as [|k idx IH]; intros rows H; cbn in H.
  - by inversion H.
  - destruct (a !! k) as [x|] eqn:Hk; [|done].
    destruct (take_rows a idx) as [xs|]; [|done].
    cbn in H. inversion H; subst. cbn. by rewrite Hk, (IH xs).
Qed.

Lemma lookup_seq_take {A} (a : list A) (n : nat) :
  (n <= length a)%nat -> (fun j => a !! j) <$> seq 0 n = Some <$> take n a.
Proof.
  intros Hn. apply list_eq. intros k. rewrite !list_lookup_fmap.
  destruct (decide (k < n)%nat) as [Hk|Hk].
  - rewrite lookup_seq_lt by done. cbn. rewrite lookup_take_lt by done.
    destruct (lookup_lt_is_Some_2 a k ltac:(lia)) as [x ->]. done.
  - rewrite lookup_seq_ge by lia. rewrite lookup_take_ge by lia. done.
Qed.

(** The rows at a permutation of the first [n] indices are the first [n]
    rows, in another order. *)
Lemma take_rows_perm {A} (a : list A) (idx : list nat) (rows : list A) (n : nat) :
  idx ≡ₚ seq 0 n -> (n <= length a)%nat ->
  take_rows a idx = Ok rows -> rows ≡ₚ take n a.
Proof.
  intros Hp Hn Hrows. apply take_rows_fmap in Hrows.
  assert (Some <$> take n a ≡ₚ Some <$> rows) as Hperm.
  { rewrite Hrows, <- lookup_seq_take by done. by rewrite Hp. }
  apply Permutation_map_inv in Hperm as (l3 & Heq & Hperm).
  apply (inj (fmap Some)) in Heq. subst. done.
Qed.

(** X8.  [shuffle_images_labels] indexes both arrays with a permutation of the
    indices of the images.  With fewer labels than images the index of the
    last image is out of the labels and the call raises; with more labels
    than images it returns, the labels cut to the first ones, as many as
    there are images, and shuffled. *)
Theorem shuffle_images_labels_misaligned s (i l : ref) X Y :
  image_arrays s !! i = Some X ->
  label_arrays s !! l = Some Y ->
  ((length Y < length X)%nat ->
   exists s', shuffle_images_labels i l s = Raise IndexError s') /\
  ((length X < length Y)%nat ->
   exists i' l' s' Y',
     shuffle_images_labels i l s = Ret (i', l') s' /\
     label_arrays s' !! l' = Some Y' /\
     Y' ≡ₚ take (length X) Y /\ (length Y' < length Y)%nat).
Proof.
  intros HX HY. split; intros Hlen.
  - set (perm := permutation_of (length X) (raw_draws s (draws_used s))).
    destruct (take_rows_ok X perm) as [RX HRX]; [apply permutation_of_bound|].
    assert (HRY : take_rows Y perm = Err IndexError).
    { apply (take_rows_out_of_range Y perm (length X - 1)); [|lia].
      unfold perm. rewrite permutation_of_perm.
      apply list_elem_of_In, in_seq. lia. }
    eexists. unfold shuffle_images_labels.
    rewrite (bind_Ret _ _ _ _ _ (read_images_Some _ _ _ HX)).
    unfold np_random_permutation, draw. mstep. fold perm. rewrite HRX. mstep.
    unfold new_image_array, read_labels. mstep. rewrite HY. mstep. rewrite HRY.
    reflexivity.
  - destruct (shuffle_images_labels_run s i l X Y HX HY ltac:(lia))
      as (RX & RY & HRX & HRY & Hrun).
    eexists _, _, _, RY. split; [exact Hrun|]. cbn.
    split; [by apply list_lookup_middle|].
    assert (Hperm : RY ≡ₚ take (length X) Y).
    { eapply take_rows_perm; [apply permutation_of_perm|lia|exact HRY]. }
    split; [done|]. rewrite Hperm, length_take. lia.
Qed.

(** *** A shuffle before the training *)

Lemma new_CifarDataSet_shuffled
    (imgs labs : ref) (classes : Z) (norm : option string) s0 X Y :
  image_arrays s0 !! imgs = Some X ->
  label_arrays s0 !! labs = Some Y ->
  length X = length Y ->
  Forall (fun im => exists e, epoch_image norm im = Ok e) X ->
  exists s RX RY,
    new_CifarDataSet imgs labs classes (Some "once_prior_train") norm false s0
      = Ret tt s /\
    take_rows X (permutation_of (length X) (raw_draws s0 (draws_used s0))) = Ok RX /\
    take_rows Y (permutation_of (length X) (raw_draws s0 (draws_used s0))) = Ok RY /\
    based false (length (image_arrays s0)) (length (label_arrays s0)) false norm
          RX RY s /\
    draws_used s = S (draws_used s0) /\
    arrays_kept s0 s.
Proof.
  intros HX HY Hlen Hnorm.
  set (s0' := State (set_shuffle_every_epoch false blank)
                    (image_arrays s0) (label_arrays s0)
                    (raw_draws s0) (draws_used s0)).
  destruct (shuffle_images_labels_run s0' imgs labs X Y HX HY ltac:(lia))
    as (RX & RY & HRX & HRY & Hrun).
  set (i := length (image_arrays s0)). set (l := length (label_arrays s0)).
  set (s1 := State (Attrs (Some false) (Some i) (Some l) (Some classes)
                          (Some false) (Some norm) None None None)
                   (image_arrays s0 ++ [RX]) (label_arrays s0 ++ [RY])
                   (raw_draws s0) (S (draws_used s0))).
  assert (Hstart : new_CifarDataSet imgs labs classes (Some "once_prior_train")
                     norm false s0 = start_new_epoch s1).
  { unfold new_CifarDataSet, CifarDataSet__init__.
    erewrite bind_Ret by reflexivity.
    change (String.eqb "once_prior_train" "once_prior_train") with true. cbv iota.
    erewrite (bind_Ret (bind (setattr _) _)); cycle 1.
    { erewrite bind_Ret by reflexivity. exact Hrun. }
    reflexivity. }
  destruct (take_rows_lookup _ _ _ HRX) as [LX _].
  destruct (take_rows_lookup _ _ _ HRY) as [LY _].
  rewrite permutation_of_length in LX, LY.
  assert (Hb : based false i l false norm RX RY s1).
  { cbn. repeat split; try done; [by apply list_lookup_middle..|congruence]. }
  assert (Hre : restartable false norm RX).
  { split; [done|]. apply Forall_forall. intros im Him.
    rewrite Forall_forall in Hnorm. apply Hnorm. by eapply take_rows_elem. }
  destruct (inv_start_new_epoch _ _ _ _ _ _ _ _ Hb Hre)
    as (s & _ & _ & Hepoch & (Hb' & _) & _ & _ & [ia Hia] & [la Hla]).
  destruct (start_new_epoch_tape _ _ _ _ _ _ _ _ Hb Hre) as [_ Hdraws].
  rewrite Hepoch in Hdraws. cbn in Hdraws.
  exists s, RX, RY. rewrite Hstart.
  split; [done|]. split; [done|]. split; [done|]. split; [done|]. split; [done|].
  split; intros r a Hr; rewrite ?Hia, ?Hla; cbn; by do 2 apply lookup_app_l_Some.
Qed.

(** The corpus of a dataset without augmentation, for the three ways of
    shuffling. *)
Lemma new_CifarDataSet_corpus
    (imgs labs : ref) (classes : Z) (shuffle norm : option string) s0 X Y :
  image_arrays s0 !! imgs = Some X ->
  label_arrays s0 !! labs = Some Y ->
  length X = length Y ->
  shuffle = None \/ shuffle = Some "once_prior_train" \/
    shuffle = Some "every_epoch" ->
  Forall (fun im => exists e, epoch_image norm im = Ok e) X ->
  exists s i l CX CY,
    new_CifarDataSet imgs labs classes shuffle norm false s0 = Ret tt s /\
    images (self s) = Some i /\ labels (self s) = Some l /\
    image_arrays s !! i = Some CX /\ label_arrays s !! l = Some CY /\
    corpus_from shuffle X Y CX CY /\
    arrays_kept s0 s.
Proof.
  intros HX HY Hlen Hshuffle Hnorm.
  destruct (decide (shuffle = Some "once_prior_train")) as [->|Hplain].
  - destruct (new_CifarDataSet_shuffled imgs labs classes norm s0 X Y HX HY Hlen Hnorm)
      as (s & RX & RY & Hrun & HRX & HRY & Hb & _ & Hkept).
    destruct Hb as (_ & Hi & Hl & _ & _ & HiX & HlY & _).
    exists s, (length (image_arrays s0)), (length (label_arrays s0)), RX, RY.
    repeat (split; [done|]). split; [|done].
    unfold corpus_from. rewrite decide_True by done.
    eexists. split; [apply permutation_of_perm|]. by split.
  - destruct (new_CifarDataSet_keeps_order imgs labs classes shuffle norm false
                s0 X Y HX HY Hlen ltac:(by destruct Hshuffle as [|[|]]; auto)
                ltac:(by split))
      as (s & Hrun & Hi & Hl & Hkept).
    exists s, imgs, labs, X, Y. repeat (split; [done|]).
    split; [by apply Hkept|]. split; [by apply Hkept|]. split; [|done].
    unfold corpus_from. by rewrite decide_False by done.
Qed.

(** X9.  With 'once_prior_train' the constructor shuffles once, into new
    arrays that become the corpus of the dataset: one draw, the images and
    the labels taken at the same permutation of the indices, the arrays it
    was given left as they were; and the dataset does no shuffle at the
    epochs. *)
Theorem once_prior_train_shuffles_once
    (imgs labs : ref) (classes : Z) (norm : option string) s0 X Y :
  image_arrays s0 !! imgs = Some X ->
  label_arrays s0 !! labs = Some Y ->
  length X = length Y ->
  Forall (fun im => exists e, epoch_image norm im = Ok e) X ->
  exists s,
    new_CifarDataSet imgs labs classes (Some "once_prior_train") norm false s0
      = Ret tt s /\
    take_rows X (permutation_of (length X) (raw_draws s0 (draws_used s0)))
      = Ok (corpus_images s) /\
    take_rows Y (permutation_of (length X) (raw_draws s0 (draws_used s0)))
      = Ok (corpus_labels s) /\
    corpus_images s ≡ₚ X /\ corpus_labels s ≡ₚ Y /\
    draws_used s = S (draws_used s0) /\
    shuffle_every_epoch (self s) = Some false /\
    image_arrays s !! imgs = Some X /\ label_arrays s !! labs = Some Y /\
    images (self s) = Some (length (image_arrays s0)) /\
    labels (self s) = Some (length (label_arrays s0)).
Proof.
  intros HX HY Hlen Hnorm.
  destruct (new_CifarDataSet_shuffled imgs labs classes norm s0 X Y HX HY Hlen Hnorm)
    as (s & RX & RY & Hrun & HRX & HRY & Hb & Hdraws & Hki & Hkl).
  destruct (num_examples_run _ _ _ _ _ _ _ _ Hb) as (_ & Hci & Hcl & _).
  pose proof Hb as (H1 & H2 & H3 & _).
  exists s. rewrite Hci, Hcl.
  split; [done|]. split; [done|]. split; [done|].
  split.
  { rewrite <- (take_ge X (length X)) by lia.
    eapply take_rows_perm; [apply permutation_of_perm|lia|exact HRX]. }
  split.
  { rewrite <- (take_ge Y (length X)) by lia.
    eapply take_rows_perm; [apply permutation_of_perm|lia|exact HRY]. }
  split; [done|]. split; [done|].
  split; [by apply Hki|]. split; [by apply Hkl|]. done.
Qed.

End Epochs.

(** ** Normalization by channel *)

Section Channels.
Context {label : Type}.
Implicit Types s : state label.

(** The depth given to [pairwise_sum] is a bound only: any depth from
    the length of the array on gives the same sum. *)
Lemma pairwise_sum_depth (d d' : nat) (a : list float) :
  (length a <= d)%nat -> (length a <= d')%nat ->
  pairwise_sum d a = pairwise_sum d' a.
Proof.
  revert d' a. induction d as [|d IH]; intros d' a Hd Hd'.
  - destruct a; [|cbn in Hd; lia]. by destruct d'.
  - destruct d' as [|d'].
    { destruct a; [|cbn in Hd'; lia]. reflexivity. }
    cbn [pairwise_sum].
    destruct (length a <? 8)%nat eqn:E8; [done|].
    destruct (length a <=? 128)%nat eqn:E128; [done|].
    apply Nat.leb_gt in E128.
    set (n2 := (length a / 2 - (length a / 2) mod 8)%nat).
    assert (0 < n2 < length a)%nat as Hn2.
    { pose proof (Nat.mod_upper_bound (length a / 2) 8 ltac:(lia)).
      pose proof (Nat.div_lt (length a) 2 ltac:(lia) ltac:(lia)).
      assert (64 <= length a / 2)%nat by (apply Nat.div_le_lower_bound; lia).
      unfold n2. lia. }
    f_equal; apply IH; rewrite ?length_take, ?length_drop; lia.
Qed.

Lemma nth_tab {A} (n : nat) (f : nat -> A) (i : nat) (d : A) :
  (i < n)%nat -> nth i (tab n f) d = f i.
Proof.
  intros Hi. unfold tab. rewrite nth_lookup, list_lookup_fmap.
  by rewrite lookup_seq_lt.
Qed.

Lemma get2_build2 h w f x y :
  (x < h)%nat -> (y < w)%nat -> get2 (build2 h w f) x y = f x y.
Proof. intros Hx Hy. unfold get2, build2. cbn. by rewrite !nth_tab. Qed.

Lemma get3_build3 h w c f x y k :
  (x < h)%nat -> (y < w)%nat -> (k < c)%nat ->
  get3 (build3 h w c f) x y k = f x y k.
Proof. intros Hx Hy Hk. unfold get3, build3. cbn. by rewrite !nth_tab. Qed.

Lemma map_tab {A B} (g : A -> B) (n : nat) (f : nat -> A) :
  map g (tab n f) = tab n (fun i => g (f i)).
Proof. unfold tab. by rewrite map_map. Qed.

Lemma tab_ext {A} (n : nat) (f g : nat -> A) :
  (forall i, (i < n)%nat -> f i = g i) -> tab n f = tab n g.
Proof.
  intros H. unfold tab. apply map_ext_in. intros i Hi.
  apply in_seq in Hi. apply H. lia.
Qed.

Lemma map2_build2 g h w f :
  map2 g (build2 h w f) = build2 h w (fun x y => g (f x y)).
Proof.
  unfold map2, build2. cbn. f_equal. rewrite map_tab.
  apply tab_ext. intros x _. apply map_tab.
Qed.

Lemma index_axis_in_range (size : nat) (k : Z) :
  0 <= k < Z.of_nat size -> index_axis size k = Some (Z.to_nat k).
Proof.
  intros Hk. unfold index_axis.
  assert (((0 <=? k) && (k <? Z.of_nat size)) = true) as ->; [|done].
  apply andb_true_iff. split; zbool.
Qed.

Lemma index_axis_past (size : nat) (k : Z) :
  Z.of_nat size <= k -> index_axis size k = None.
Proof.
  intros Hk. unfold index_axis.
  assert (((0 <=? k) && (k <? Z.of_nat size)) = false) as ->.
  { apply andb_false_iff. right. zbool. }
  assert (((- Z.of_nat size <=? k) && (k <? 0)) = false) as ->; [|done].
  apply andb_false_iff. right. zbool.
Qed.

Lemma shape3_set_channel a k v : shape3 (set_channel a k v) = shape3 a.
Proof. unfold set_channel. by destruct (shape3 a) as [[h w] c]. Qed.

Lemma get3_set_channel a k v h w c x y j :
  shape3 a = (h, w, c) -> (x < h)%nat -> (y < w)%nat -> (j < c)%nat ->
  get3 (set_channel a k v) x y j
  = if (j =? k)%nat then get2 v x y else get3 a x y j.
Proof.
  intros Hs Hx Hy Hj. unfold set_channel. rewrite Hs. by rewrite get3_build3.
Qed.

(** The value [normalize_image_by_chanel] writes to the channel [k] of
    its result. *)
Lemma get2_normalized img h w c k x y :
  shape3 img = (h, w, c) -> (x < h)%nat -> (y < w)%nat ->
  get2 (map2 (fun v => ((v - np_mean (channel img k)) / np_std (channel img k))%float)
             (channel img k)) x y
  = ((get3 img x y k - np_mean (channel img k)) / np_std (channel img k))%float.
Proof.
  intros Hs Hx Hy. unfold channel at 3. rewrite Hs, map2_build2.
  by rewrite get2_build2.
Qed.

Lemma normalize_image_by_chanel_run (img : image) (h w c : nat) :
  shape3 img = (h, w, c) ->
  ((c < 3)%nat -> normalize_image_by_chanel img = Err IndexError) /\
  ((3 <= c)%nat ->
   exists new_image,
     normalize_image_by_chanel img = Ok new_image /\
     shape3 new_image = (h, w, c) /\
     forall x y k, (x < h)%nat -> (y < w)%nat -> (k < c)%nat ->
       get3 new_image x y k =
       if (k <? 3)%nat
       then ((get3 img x y k - np_mean (channel img k))
             / np_std (channel img k))%float
       else 0%float).
Proof.
  intros Hs. unfold normalize_image_by_chanel. cbn [foldl rbind].
  unfold normalize_chanel. rewrite Hs. split; intros Hc.
  - destruct c as [|[|[|c]]]; [| | |lia].
    + by rewrite (index_axis_past 0 0).
    + rewrite (index_axis_in_range 1 0) by lia. cbn [rbind].
      by rewrite (index_axis_past 1 1).
    + rewrite (index_axis_in_range 2 0), (index_axis_in_range 2 1) by lia.
      cbn [rbind]. by rewrite (index_axis_past 2 2).
  - rewrite (index_axis_in_range c 0), (index_axis_in_range c 1),
      (index_axis_in_range c 2) by lia.
    cbn [rbind]. eexists. split; [reflexivity|].
    split; [by rewrite !shape3_set_channel, shape3_np_zeros3|].
    intros x y k Hx Hy Hk.
    rewrite (get3_set_channel _ _ _ h w c)
      by (rewrite ?shape3_set_channel, ?shape3_np_zeros3; done).
    rewrite (get3_set_channel _ _ _ h w c)
      by (rewrite ?shape3_set_channel, ?shape3_np_zeros3; done).
    rewrite (get3_set_channel _ _ _ h w c)
      by (rewrite ?shape3_set_channel, ?shape3_np_zeros3; done).
    change (Z.to_nat 0) with 0%nat. change (Z.to_nat 1) with 1%nat.
    change (Z.to_nat 2) with 2%nat.
    destruct k as [|[|[|k]]]; cbn [Nat.eqb Nat.ltb Nat.leb].
    + by rewrite (get2_normalized img h w c).
    + by rewrite (get2_normalized img h w c).
    + by rewrite (get2_normalized img h w c).
    + unfold np_zeros3. by rewrite get3_build3.
Qed.

(** X10.  [normalize_image_by_chanel] goes through the channels 0, 1 and 2,
    whatever the image has: an image of fewer than three channels makes it
    raise an IndexError, and in an image of more than three the channels
    from the fourth on are left at the zeros of the new array.  The first
    three channels hold, pixel by pixel, the value less the mean of its
    channel, divided by the standard deviation of its channel; the shape is
    that of the image. *)
Theorem normalize_image_by_chanel_channels (img : image) (h w c : nat) :
  shape3 img = (h, w, c) ->
  ((c < 3)%nat -> normalize_image_by_chanel img = Err IndexError) /\
  ((3 <= c)%nat ->
   exists new_image,
     normalize_image_by_chanel img = Ok new_image /\
     shape3 new_image = (h, w, c) /\
     forall x y k, (x < h)%nat -> (y < w)%nat -> (k < c)%nat ->
       get3 new_image x y k =
       if (k <? 3)%nat
       then ((get3 img x y k - np_mean (channel img k))
             / np_std (channel img k))%float
       else 0%float).
Proof. apply normalize_image_by_chanel_run. Qed.

Lemma pick_id (n i : nat) : (i < n)%nat -> pick n i = i.
Proof. intros Hi. unfold pick. destruct (n =? 1)%nat eqn:E; [|done].
  apply Nat.eqb_eq in E. lia. Qed.

Lemma by_chanels_image_run (img : image) :
  ((shape3 img).2 < 3)%nat /\ by_chanels_image img = Err IndexError \/
  (3 <= (shape3 img).2)%nat /\
  exists new_image, by_chanels_image img = Ok new_image /\
                    normalized_by_chanels img new_image.
Proof.
  destruct (shape3 img) as [[h w] c] eqn:Hs. cbn [fst snd].
  destruct (normalize_image_by_chanel_run img h w c Hs) as [Herr Hok].
  unfold by_chanels_image.
  destruct (decide (c < 3)%nat) as [Hc|Hc].
  - left. split; [done|]. by rewrite (Herr Hc).
  - right. split; [lia|].
    destruct (Hok ltac:(lia)) as (v & -> & Hv & Hpix). cbn [rbind].
    rewrite shape3_np_zeros3, Hs. unfold broadcast3. rewrite Hv, !fits_refl.
    cbn [andb]. eexists. split; [reflexivity|].
    split; [by rewrite Hs|]. rewrite Hs. cbn [fst snd].
    intros x y k Hx Hy Hk. rewrite get3_build3 by done.
    rewrite !pick_id by done. by apply Hpix.
Qed.

Lemma map_result_by_chanels (A : list image) :
  (Forall (fun im => (3 <= (shape3 im).2)%nat) A ->
   exists R, map_result by_chanels_image A = Ok R /\
             Forall2 normalized_by_chanels A R) /\
  (Exists (fun im => ((shape3 im).2 < 3)%nat) A ->
   map_result by_chanels_image A = Err IndexError).
Proof.
  induction A as [|im A [IHok IHerr]]; cbn [map_result].
  - split; [intros _; by exists []|]. intros H. by apply Exists_nil in H.
  - destruct (by_chanels_image_run im) as [[Hc ->]|(Hc & new & -> & Hnew)];
      cbn [rbind].
    + split; [|done]. intros H. apply Forall_cons in H as [H _]. lia.
    + split.
      * intros H. apply Forall_cons in H as [_ H].
        destruct (IHok H) as (R & -> & HR). cbn [rbind].
        exists (new :: R). split; [done|]. by constructor.
      * intros H. apply Exists_cons in H as [H|H]; [lia|].
        by rewrite (IHerr H).
Qed.

(** X11.  [normalize_all_images_by_chanels] on a batch whose images all have
    three channels or more returns a new array, the batch it was given
    still at its place: image by image the shape is kept and the first
    three channels are normalized.  An image of fewer than three channels
    anywhere in the batch makes it raise an IndexError, the batch as it
    was. *)
Theorem normalize_all_images_by_chanels_batch s (r : ref) (A : list image) :
  image_arrays s !! r = Some A ->
  (Forall (fun im => (3 <= (shape3 im).2)%nat) A ->
   exists R,
     normalize_all_images_by_chanels r s =
       Ret (length (image_arrays s))
           (State (self s) (image_arrays s ++ [R]) (label_arrays s)
                  (raw_draws s) (draws_used s)) /\
     Forall2 normalized_by_chanels A R) /\
  (Exists (fun im => ((shape3 im).2 < 3)%nat) A ->
   exists s',
     normalize_all_images_by_chanels r s = Raise IndexError s' /\
     image_arrays s' !! r = Some A /\
     self s' = self s /\ label_arrays s' = label_arrays s).
Proof.
  intros Hr. pose proof (normalize_all_images_by_chanels_run s r A Hr) as Hrun.
  destruct (map_result_by_chanels A) as [Hok Herr]. split.
  - intros Hall. destruct (Hok Hall) as (R & HR & Hnorm). rewrite HR in Hrun.
    by exists R.
  - intros Hex. rewrite (Herr Hex) in Hrun.
    destruct Hrun as (s' & Hraise & Hself & Hlab & _ & Hother).
    exists s'. split; [done|]. split; [|done].
    rewrite Hother; [done|]. by eapply lookup_lt_Some.
Qed.

End Channels.

(** ** One-hot labels, beyond the class indices from 0 *)

Section OneHot.

Lemma indices_wrap (k : nat) (labs : list Z) :
  Forall (fun c => - Z.of_nat k <= c < Z.of_nat k) labs ->
  indices k labs = Ok (map (fun c => Z.to_nat (c mod Z.of_nat k)) labs).
Proof.
  induction 1 as [|c labs Hc _ IH]; cbn [indices map]; [done|].
  rewrite IH. cbn [rbind]. unfold index_axis.
  destruct (decide (0 <= c)) as [Hpos|Hneg].
  - assert (((0 <=? c) && (c <? Z.of_nat k)) = true) as ->.
    { apply andb_true_iff. split; zbool. }
    by rewrite Z.mod_small by lia.
  - assert (((0 <=? c) && (c <? Z.of_nat k)) = false) as ->.
    { apply andb_false_iff. left. zbool. }
    assert (((- Z.of_nat k <=? c) && (c <? 0)) = true) as ->.
    { apply andb_true_iff. split; zbool. }
    do 3 f_equal. apply Z.mod_unique with (q := -1); lia.
Qed.

Lemma indices_out_of_range (k : nat) (labs : list Z) :
  Exists (fun c => c < - Z.of_nat k \/ Z.of_nat k <= c) labs ->
  indices k labs = Err IndexError.
Proof.
  induction 1 as [c labs Hc|c labs _ IH]; cbn [indices].
  - unfold index_axis.
    assert (((0 <=? c) && (c <? Z.of_nat k)) = false) as ->.
    { apply andb_false_iff. destruct Hc; [left|right]; zbool. }
    assert (((- Z.of_nat k <=? c) && (c <? 0)) = false) as ->; [|done].
    apply andb_false_iff. destruct Hc; [left|right]; zbool.
  - rewrite IH. by destruct (index_axis k c).
Qed.

Lemma nth_insert_replicate (k j col : nat) :
  (j < k)%nat ->
  nth j (<[col := 1%float]> (replicate k 0%float)) 0%float
  = if decide (j = col) then 1%float else 0%float.
Proof.
  intros Hj. rewrite nth_lookup. case_decide as E.
  - subst. by rewrite list_lookup_insert_eq by (by rewrite length_replicate).
  - rewrite list_lookup_insert_ne by done. by rewrite lookup_replicate_2.
Qed.

Lemma labels_to_one_hot_rows (classes : Z) (labs : list Z) :
  0 < classes ->
  Forall (fun c => - classes <= c < classes) labs ->
  exists a,
    labels_to_one_hot classes labs = Ok a /\
    shape2 a = (length labs, Z.to_nat classes) /\
    length (rows2 a) = length labs /\
    (forall i c j, labs !! i = Some c -> (j < Z.to_nat classes)%nat ->
       get2 a i j = if decide (Z.of_nat j = c mod classes) then 1%float else 0%float) /\
    labels_from_one_hot a = Ok (map (fun c => c mod classes) labs).
Proof.
  intros Hpos Hall. unfold labels_to_one_hot.
  assert ((classes <? 0) = false) as -> by zbool.
  rewrite indices_wrap; cycle 1.
  { eapply Forall_impl; [exact Hall|]. cbn. intros; lia. }
  cbn [rbind]. eexists. split; [reflexivity|]. split; [reflexivity|].
  cbn [shape2 rows2 np_zeros2 build2].
  rewrite (tab_const (Z.to_nat classes)), tab_const.
  rewrite <- (length_map (fun c => Z.to_nat (c mod Z.of_nat (Z.to_nat classes))) labs).
  rewrite zip_with_rows, map_map. rewrite Z2Nat.id by lia.
  split; [by rewrite !length_map|]. split.
  - intros i c j Hi Hj. unfold get2. cbn [rows2].
    rewrite (nth_lookup _ i), list_lookup_fmap, Hi. cbn.
    rewrite nth_insert_replicate by done.
    pose proof (Z.mod_pos_bound c classes Hpos).
    repeat case_decide; try done; lia.
  - unfold labels_from_one_hot. cbn [shape2 rows2].
    assert ((Z.to_nat classes =? 0)%nat = false) as -> by (apply Nat.eqb_neq; lia).
    f_equal. rewrite map_map. apply map_ext. intros c.
    pose proof (Z.mod_pos_bound c classes Hpos).
    rewrite argmax_one_hot by lia. lia.
Qed.

(** X12.  A label from [-n_classes] up to [-1] counts from the last class, as
    every negative index does: [labels_to_one_hot] puts the 1 of the row
    in the column [label mod n_classes] and zeros in the others, and
    [labels_from_one_hot] gives back [label mod n_classes], which is the
    label itself only when it is not negative. *)
Theorem one_hot_negative_labels_wrap (classes : Z) (labs : list Z) :
  0 < classes ->
  Forall (fun c => - classes <= c < classes) labs ->
  exists a,
    labels_to_one_hot classes labs = Ok a /\
    shape2 a = (length labs, Z.to_nat classes) /\
    (forall i c j, labs !! i = Some c -> (j < Z.to_nat classes)%nat ->
       get2 a i j = if decide (Z.of_nat j = c mod classes) then 1%float else 0%float) /\
    labels_from_one_hot a = Ok (map (fun c => c mod classes) labs).
Proof.
  intros Hpos Hall.
  destruct (labels_to_one_hot_rows classes labs Hpos Hall)
    as (a & H1 & H2 & _ & H3 & H4).
  by exists a.
Qed.

(** X13.  A label of [n_classes] or more, or below [-n_classes], is no column
    of the array: [labels_to_one_hot] raises an IndexError, whatever the
    other labels are.  A negative number of classes is a ValueError. *)
Theorem one_hot_label_out_of_range (classes : Z) (labs : list Z) :
  (0 <= classes ->
   Exists (fun c => c < - classes \/ classes <= c) labs ->
   labels_to_one_hot classes labs = Err IndexError) /\
  (classes < 0 -> labels_to_one_hot classes labs = Err ValueError).
Proof.
  unfold labels_to_one_hot. split.
  - intros Hpos Hex. assert ((classes <? 0) = false) as -> by zbool.
    rewrite indices_out_of_range; [done|].
    eapply Exists_impl; [exact Hex|]. cbn. intros; lia.
  - intros Hneg. by assert ((classes <? 0) = true) as -> by zbool.
Qed.

End OneHot.

(** ** Division of the pixels *)

Section Pixels.
Context {label : Type}.
Implicit Types s : state label.

Lemma all_pixels_map3 (P Q : float -> Prop) (f : float -> float) (im : image) :
  (forall x, P x -> Q (f x)) -> all_pixels P im -> all_pixels Q (map3 f im).
Proof.
  intros Hf. unfold all_pixels, map3. cbn [rows3].
  rewrite !Forall_forall. intros H plane Hplane.
  apply list_elem_of_fmap in Hplane as (plane0 & -> & Hplane0).
  specialize (H plane0 Hplane0). rewrite Forall_forall in H.
  apply Forall_forall. intros row Hrow.
  apply list_elem_of_fmap in Hrow as (row0 & -> & Hrow0).
  specialize (H row0 Hrow0). rewrite Forall_forall in H.
  apply Forall_forall. intros x Hx.
  apply list_elem_of_fmap in Hx as (x0 & -> & Hx0). auto.
Qed.

Lemma byte_cases (P : float -> bool) :
  forallb (fun k => P (PrimFloat.of_uint63 (Uint63.of_Z (Z.of_nat k)))) (seq 0 256)
    = true ->
  forall x, is_byte x -> P x = true.
Proof.
  intros Hall x (k & Hk & ->). rewrite forallb_forall in Hall.
  specialize (Hall (Z.to_nat k)). rewrite Z2Nat.id in Hall by lia.
  apply Hall, in_seq. lia.
Qed.

Lemma byte_divided_by_255 (x : float) :
  is_byte x -> (0 <=? x / 255)%float = true /\ (x / 255 <=? 1)%float = true.
Proof.
  intros Hx. apply andb_true_iff.
  apply (byte_cases (fun x => (0 <=? x / 255)%float && (x / 255 <=? 1)%float));
    [|done].
  vm_compute. reflexivity.
Qed.

Lemma byte_divided_by_256 (x : float) :
  is_byte x -> (0 <=? x / 256)%float = true /\ (x / 256 <? 1)%float = true.
Proof.
  intros Hx. apply andb_true_iff.
  apply (byte_cases (fun x => (0 <=? x / 256)%float && (x / 256 <? 1)%float));
    [|done].
  vm_compute. reflexivity.
Qed.

Lemma epoch_images_of_map3 (f : float -> float) (P Q : float -> Prop)
    (norm : option string) X (Y : list label) EX EY :
  (forall im, epoch_image norm im = Ok (map3 f im)) ->
  (forall x, P x -> Q (f x)) ->
  epoch_of norm X Y EX EY ->
  Forall (all_pixels P) X -> Forall (all_pixels Q) EX.
Proof.
  intros Hnorm Hf (idx & rows & Hp & _ & Hrows & HEX) HX.
  rewrite (map_result_ext _ _ _ Hnorm), map_result_total in HEX.
  inversion HEX; subst EX. apply Forall_fmap, Forall_forall. intros im Him.
  cbn. apply (all_pixels_map3 P Q f); [done|].
  rewrite Forall_forall in HX. apply HX. by eapply take_rows_elem.
Qed.

(** X14.  The two divisions bring the bytes of the archives into the unit
    interval: on an epoch dataset whose corpus holds bytes, with
    'divide_255' every pixel of the epoch buffer is from 0.0 to 1.0, and
    with 'divide_256' from 0.0 to below 1.0. *)
Theorem divided_pixels_are_in_the_unit_interval s :
  epoch_dataset s ->
  Forall (all_pixels is_byte) (corpus_images s) ->
  (normalization_mode s = Some "divide_255" ->
   Forall (all_pixels (fun x => (0 <=? x)%float = true /\ (x <=? 1)%float = true))
          (epoch_buffer_images s)) /\
  (normalization_mode s = Some "divide_256" ->
   Forall (all_pixels (fun x => (0 <=? x)%float = true /\ (x <? 1)%float = true))
          (epoch_buffer_images s)).
Proof.
  intros Hds Hbytes.
  destruct (epoch_dataset_inv s Hds) as (every & i & l & aug & norm & X & Y & Hinv).
  destruct Hinv as (Hb & _ & c & EX & EY & _ & Hm & Hof).
  destruct (num_examples_run _ _ _ _ _ _ _ _ Hb) as (_ & HX & _ & Hmode).
  destruct (epoch_buffers_eq _ _ _ _ Hm) as [-> _].
  rewrite HX in Hbytes. rewrite Hmode. split; intros ->.
  - eapply (epoch_images_of_map3 (fun x => (x / 255)%float) _ _ (Some "divide_255"));
      [intros im; reflexivity|apply byte_divided_by_255|exact Hof|exact Hbytes].
  - eapply (epoch_images_of_map3 (fun x => (x / 256)%float) _ _ (Some "divide_256"));
      [intros im; reflexivity|apply byte_divided_by_256|exact Hof|exact Hbytes].
Qed.

End Pixels.

(** ** The class of a row of scores *)

Section Argmax.

Lemma SFcompare_finite (s1 s2 : bool) (m1 m2 : positive) (e1 e2 : Z) :
  SFcompare (S754_finite s1 m1 e1) (S754_finite s2 m2 e2) =
  Some (match s1, s2 with
        | true, false => Lt
        | false, true => Gt
        | false, false =>
            match e1 ?= e2 with
            | Lt => Lt | Gt => Gt | Eq => (m1 ?= m2)%positive
            end
        | true, true =>
            match e1 ?= e2 with
            | Lt => Gt | Gt => Lt | Eq => CompOpp (m1 ?= m2)%positive
            end
        end).
Proof. reflexivity. Qed.

Ltac order_cases :=
  repeat match goal with
  | |- context [Z.compare ?a ?b] => destruct (Z.compare_spec a b)
  | |- context [Pos.compare ?a ?b] => destruct (Pos.compare_spec a b)
  end.

Lemma SFleb_trans (x y z : spec_float) :
  SFleb x y = true -> SFleb y z = true -> SFleb x z = true.
Proof.
  unfold SFleb.
  destruct x as [[]|[]| |[] m1 e1], y as [[]|[]| |[] m2 e2], z as [[]|[]| |[] m3 e3];
    try done; rewrite ?SFcompare_finite; cbv beta iota;
    order_cases; cbn; try done; try lia.
Qed.

Lemma SFleb_total (x y : spec_float) :
  x <> S754_nan -> y <> S754_nan -> SFleb x y = false -> SFleb y x = true.
Proof.
  unfold SFleb.
  destruct x as [[]|[]| |[] m1 e1], y as [[]|[]| |[] m2 e2];
    try done; rewrite ?SFcompare_finite; cbv beta iota;
    order_cases; cbn; try done; try lia.
Qed.

Lemma SFleb_refl (x : spec_float) : x <> S754_nan -> SFleb x x = true.
Proof.
  unfold SFleb. destruct x as [[]|[]| |[] m e]; try done;
    rewrite SFcompare_finite, Z.compare_refl, Pos.compare_refl; done.
Qed.

Lemma not_nan (x : float) : PrimFloat.is_nan x = false -> Prim2SF x <> S754_nan.
Proof.
  unfold PrimFloat.is_nan. rewrite FloatAxioms.eqb_spec. intros H E.
  by rewrite E in H.
Qed.

Lemma leb_trans (x y z : float) :
  (x <=? y)%float = true -> (y <=? z)%float = true -> (x <=? z)%float = true.
Proof. rewrite !FloatAxioms.leb_spec. apply SFleb_trans. Qed.

Lemma leb_total (x y : float) :
  PrimFloat.is_nan x = false -> PrimFloat.is_nan y = false ->
  (x <=? y)%float = false -> (y <=? x)%float = true.
Proof.
  rewrite !FloatAxioms.leb_spec. intros Hx Hy. apply SFleb_total; by apply not_nan.
Qed.

Lemma leb_refl (x : float) : PrimFloat.is_nan x = false -> (x <=? x)%float = true.
Proof. rewrite FloatAxioms.leb_spec. intros Hx. by apply SFleb_refl, not_nan. Qed.

(** The scan of [np.argmax], from a value it holds as the greatest so
    far. *)
Lemma argmax_from_spec (l : list float) :
  Forall (fun x => PrimFloat.is_nan x = false) l ->
  forall best best_i i,
    PrimFloat.is_nan best = false ->
    exists v,
      (best <=? v)%float = true /\
      Forall (fun x => (x <=? v)%float = true) l /\
      (argmax_from best best_i i l = best_i /\ v = best \/
       exists p,
         argmax_from best best_i i l = (i + p)%nat /\ l !! p = Some v /\
         (v <=? best)%float = false /\
         forall q x, (q < p)%nat -> l !! q = Some x -> (v <=? x)%float = false).
Proof.
  induction 1 as [|x l Hx Hl IH]; intros best best_i i Hbest.
  - exists best. split; [by apply leb_refl|]. split; [constructor|]. by left.
  - cbn [argmax_from]. rewrite Hbest.
    destruct (x <=? best)%float eqn:Hcmp; cbn [negb].
    + destruct (IH best best_i (S i) Hbest) as (v & Hbv & Hall & Hcase).
      exists v. split; [done|].
      split; [constructor; [by eapply leb_trans|done]|].
      destruct Hcase as [[-> ->]|(p & -> & Hp & Hvb & Hbefore)]; [by left|].
      right. exists (S p). split; [lia|]. split; [done|]. split; [done|].
      intros [|q] y Hq Hy; cbn in Hy.
      * inversion Hy; subst y.
        destruct (v <=? x)%float eqn:E; [|done].
        by rewrite (leb_trans v x best E Hcmp) in Hvb.
      * apply (Hbefore q); [lia|done].
    + destruct (IH x i (S i) Hx) as (v & Hxv & Hall & Hcase).
      pose proof (leb_total x best Hx Hbest Hcmp) as Hbx.
      exists v. split; [by eapply leb_trans|].
      split; [by constructor|]. right.
      destruct Hcase as [[-> ->]|(p & -> & Hp & Hvx & Hbefore)].
      * exists 0%nat. split; [lia|]. split; [done|]. split; [done|].
        intros q y Hq. lia.
      * exists (S p). split; [lia|]. split; [done|]. split.
        { destruct (v <=? best)%float eqn:E; [|done].
          by rewrite (leb_trans x v best Hxv E) in Hcmp. }
        intros [|q] y Hq Hy; cbn in Hy.
        -- by inversion Hy; subst y.
        -- apply (Hbefore q); [lia|done].
Qed.

Lemma argmax_first_maximum (row : list float) :
  row <> [] ->
  Forall (fun x => PrimFloat.is_nan x = false) row ->
  first_maximum row (argmax row) /\ argmax row < Z.of_nat (length row).
Proof.
  intros Hne Hall. destruct row as [|x rest]; [done|].
  apply Forall_cons in Hall as [Hx Hrest]. cbn [argmax].
  destruct (argmax_from_spec rest Hrest x 0%nat 1%nat Hx)
    as (v & Hxv & Hall & [[-> ->]|(p & -> & Hp & Hvx & Hbefore)]).
  - split; [|cbn; lia]. exists x. split; [lia|]. split; [done|].
    split; [constructor; [by apply leb_refl|done]|].
    intros q y Hq. cbn in Hq. lia.
  - split.
    + exists v. split; [lia|]. rewrite Nat2Z.id. split; [done|].
      split; [by constructor|].
      intros [|q] y Hq Hy; cbn in Hy.
      * by inversion Hy; subst y.
      * apply (Hbefore q); [cbn in Hq; lia|done].
    + apply lookup_lt_Some in Hp. cbn [length]. lia.
Qed.

(** X15.  [labels_from_one_hot] on rows of scores, none of them NaN, of one
    class or more: a class for every row, the first of those whose score
    is the greatest of the row, so a class of the array.  An array of no
    class is a ValueError. *)
Theorem labels_from_one_hot_takes_the_first_maximum (a : ndarray2) (n k : nat) :
  shape2 a = (n, k) ->
  Forall (fun row => length row = k) (rows2 a) ->
  Forall (Forall (fun x => PrimFloat.is_nan x = false)) (rows2 a) ->
  (k = 0%nat -> labels_from_one_hot a = Err ValueError) /\
  (k <> 0%nat ->
   exists classes,
     labels_from_one_hot a = Ok classes /\
     Forall2 (fun row j => first_maximum row j /\ j < Z.of_nat k) (rows2 a) classes).
Proof.
  intros Hs Hlen Hnan. unfold labels_from_one_hot. rewrite Hs. split.
  - by intros ->.
  - intros Hk. apply Nat.eqb_neq in Hk as Hk'. rewrite Hk'.
    eexists. split; [reflexivity|].
    apply Forall2_fmap_r, Forall_Forall2_diag.
    rewrite Forall_forall in Hlen, Hnan. apply Forall_forall. intros row Hrow.
    specialize (Hlen row Hrow). specialize (Hnan row Hrow).
    rewrite <- Hlen. apply argmax_first_maximum; [|done].
    intros ->. cbn in Hlen. lia.
Qed.

End Argmax.

(** * Properties of the provider *)

Section Layout.

Lemma lookup_tab {A} (n : nat) (f : nat -> A) (i : nat) (x : A) :
  tab n f !! i = Some x -> (i < n)%nat /\ x = f i.
Proof.
  unfold tab. rewrite list_lookup_fmap. intros H.
  destruct (seq 0 n !! i) as [j|] eqn:Hj; [|done].
  apply lookup_seq in Hj as [-> Hi]. cbn in H. by inversion H.
Qed.

(** X16.  The rows of a batch file are planes: the 1024 reds of an image, then
    its greens, then its blues, each plane row after row.  [read_cifar]
    makes of a row an image (32, 32, 3): the pixel at row [p], column [q]
    and channel [k] of image [i] is the byte [k * 1024 + p * 32 + q] of row
    [i].  Rows that do not make whole images are a ValueError. *)
Theorem planar_rows_become_images (a : ndarray2) (n : nat) :
  (length (elements2 a) = n * 3072 ->
   exists r,
     reshape a 3 32 32 = Ok r /\
     length (swapaxes_1_2 (swapaxes_1_3 r)) = n /\
     forall i im,
       swapaxes_1_2 (swapaxes_1_3 r) !! i = Some im ->
       shape3 im = data_shape /\
       forall p q k, p < 32 -> q < 32 -> k < 3 ->
         get3 im p q k = nth (i * 3072 + k * 1024 + p * 32 + q) (elements2 a) 0%float)%nat /\
  ((length (elements2 a) mod 3072 <> 0)%nat -> reshape a 3 32 32 = Err ValueError).
Proof.
  unfold reshape. change (3 * 32 * 32)%nat with 3072%nat.
  change (3072 =? 0)%nat with false. cbv iota. split.
  - intros Hlen. rewrite Hlen, Nat.Div0.mod_mul, Nat.div_mul by done.
    cbn [Nat.eqb]. eexists. split; [reflexivity|].
    unfold swapaxes_1_2, swapaxes_1_3, tab. rewrite !length_map, length_seq.
    split; [done|]. intros i im. rewrite !list_lookup_fmap.
    destruct (seq 0 n !! i) as [j|] eqn:Hj; [|done].
    apply lookup_seq in Hj as [-> Hi]. cbn [fmap option_fmap option_map plus].
    rewrite !shape3_build3. intros [= <-]. split; [done|].
    intros p q k Hp Hq Hk. rewrite !get3_build3 by done.
    f_equal. lia.
  - intros Hmod. apply Nat.eqb_neq in Hmod. by rewrite Hmod.
Qed.

End Layout.

Section Reading.

(** ** Running the methods of the provider *)

Lemma pbind_Returned {A B} (m : PM A) (k : A -> PM B) w a w1 :
  m w = Returned a w1 -> (x ← m; k x) w = k a w1.
Proof. unfold mbind, PM_bind. by intros ->. Qed.

Lemma pbind_Failed {A B} (m : PM A) (k : A -> PM B) w e w1 :
  m w = Failed e w1 -> (x ← m; k x) w = Failed e w1.
Proof. unfold mbind, PM_bind. by intros ->. Qed.

Lemma pbind_inv {A B} (m : PM A) (k : A -> PM B) w b w' :
  (x ← m; k x) w = Returned b w' ->
  exists a w1, m w = Returned a w1 /\ k a w1 = Returned b w'.
Proof.
  unfold mbind, PM_bind. destruct (m w) as [a w1|e w1|w1]; [|done..].
  intros H. by exists a, w1.
Qed.

Lemma load_pickle_Some fname d w :
  files w !! fname = Some d -> load_pickle fname w = Returned d w.
Proof. unfold load_pickle. by intros ->. Qed.

Lemma read_batches_run key filenames batches w :
  Forall2 (batch_read key w) filenames batches ->
  forall images_res labels_res,
    read_batches (Some key) filenames images_res labels_res w
    = Returned (images_res ++ map fst batches, labels_res ++ map snd batches) w.
Proof.
  induction 1 as [|fname [imgs labs] filenames batches Hb _ IH];
    intros images_res labels_res; cbn [read_batches map].
  - by rewrite !app_nil_r.
  - destruct Hb as (d & a & r & Hd & Ha & Hr & Hi & Hl). cbn [fst snd] in *.
    rewrite (pbind_Returned _ _ _ _ _ (load_pickle_Some _ _ _ Hd)).
    rewrite Ha. erewrite pbind_Returned by reflexivity.
    rewrite Hr. erewrite pbind_Returned by reflexivity.
    erewrite pbind_Returned by reflexivity.
    rewrite Hl. erewrite pbind_Returned by reflexivity.
    rewrite IH, <- Hi, <- !app_assoc. reflexivity.
Qed.

Lemma on_arrays_new_image_array (a : list image) w :
  on_arrays (new_image_array a) w =
  Returned (length (arrays_of_images w))
    (World (provider w) (objects w) (arrays_of_images w ++ [a]) (arrays_of_labels w)
           (generator w) (generator_used w) (files w)).
Proof. reflexivity. Qed.

Lemma on_arrays_new_label_array (a : list plabel) w :
  on_arrays (new_label_array a) w =
  Returned (length (arrays_of_labels w))
    (World (provider w) (objects w) (arrays_of_images w) (arrays_of_labels w ++ [a])
           (generator w) (generator_used w) (files w)).
Proof. reflexivity. Qed.

Lemma world_eta w :
  World (provider w) (objects w) (arrays_of_images w) (arrays_of_labels w)
        (generator w) (generator_used w) (files w) = w.
Proof. by destruct w. Qed.

Lemma the_provider_run w : the_provider w = Returned (provider w) w.
Proof. reflexivity. Qed.

Lemma read_cifar_run cls key filenames batches Y w :
  (CifarDataProvider_n_classes cls = 10 /\ key = key_labels \/
   CifarDataProvider_n_classes cls = 100 /\ key = key_fine_labels) ->
  filenames <> [] ->
  Forall2 (batch_read key w) filenames batches ->
  (if one_hot (provider w)
   then provider_labels_to_one_hot cls
          (forallb (fun l => negb (length l =? 0)%nat) (map snd batches),
           concat (map snd batches)) = Ok Y
   else Y = map class_index (concat (map snd batches))) ->
  read_cifar cls filenames w =
  Returned (length (arrays_of_images w), length (arrays_of_labels w))
    (World (provider w) (objects w)
           (arrays_of_images w ++ [concat (map fst batches)])
           (arrays_of_labels w ++ [Y])
           (generator w) (generator_used w) (files w)).
Proof.
  intros Hkey Hne Hall HY. unfold read_cifar.
  assert ((if CifarDataProvider_n_classes cls =? 10 then Some key_labels
           else if CifarDataProvider_n_classes cls =? 100 then Some key_fine_labels
                else None) = Some key) as ->.
  { by destruct Hkey as [[-> ->]|[-> ->]]. }
  rewrite (pbind_Returned _ _ _ _ _ (read_batches_run _ _ _ _ Hall [] [])).
  cbn [app fst snd].
  assert (Hnb : map fst batches <> [] /\ map snd batches <> []).
  { destruct Hall; [done|]. by cbn. }
  destruct Hnb as [Hi Hl].
  assert (np_vstack (map fst batches) = Ok (concat (map fst batches))) as ->.
  { unfold np_vstack. by destruct (map fst batches). }
  erewrite pbind_Returned by reflexivity.
  assert (np_hstack (map snd batches)
          = Ok (forallb (fun l => negb (length l =? 0)%nat) (map snd batches),
                concat (map snd batches))) as ->.
  { unfold np_hstack. by destruct (map snd batches). }
  erewrite pbind_Returned by reflexivity.
  rewrite (pbind_Returned _ _ _ _ _ (the_provider_run w)).
  erewrite (pbind_Returned _ _ _ Y w); cycle 1.
  { destruct (one_hot (provider w)); [by rewrite HY|by subst Y]. }
  rewrite (pbind_Returned _ _ _ _ _ (on_arrays_new_image_array _ w)).
  erewrite pbind_Returned by apply on_arrays_new_label_array.
  reflexivity.
Qed.

(** X17.  [read_cifar] on batch files it can read, one at least, with the key
    of the labels its class has: the images of all the files, in the order
    of the files, are one new array, and their labels another, class
    indices, or one-hot rows when the provider is one-hot, every file has a
    label and every label is an index of a class.  Nothing compares the
    number of images with the number of labels. *)
Theorem read_cifar_reads_every_batch cls key filenames batches w :
  (CifarDataProvider_n_classes cls = 10 /\ key = key_labels \/
   CifarDataProvider_n_classes cls = 100 /\ key = key_fine_labels) ->
  filenames <> [] ->
  Forall2 (batch_read key w) filenames batches ->
  (one_hot (provider w) = true ->
   Forall (fun batch => batch.2 <> []) batches /\
   Forall (fun c => - CifarDataProvider_n_classes cls <= c
                    < CifarDataProvider_n_classes cls)
          (concat (map snd batches))) ->
  exists Y,
    read_cifar cls filenames w =
      Returned (length (arrays_of_images w), length (arrays_of_labels w))
        (World (provider w) (objects w)
               (arrays_of_images w ++ [concat (map fst batches)])
               (arrays_of_labels w ++ [Y])
               (generator w) (generator_used w) (files w)) /\
    length Y = length (concat (map snd batches)) /\
    (one_hot (provider w) = false ->
     Y = map class_index (concat (map snd batches))) /\
    (one_hot (provider w) = true ->
     exists a,
       labels_to_one_hot (CifarDataProvider_n_classes cls)
                         (concat (map snd batches)) = Ok a /\
       shape2 a = (length (concat (map snd batches)),
                   Z.to_nat (CifarDataProvider_n_classes cls)) /\
       Y = map one_hot_row (rows2 a)).
Proof.
  intros Hkey Hne Hall Hhot.
  destruct (one_hot (provider w)) eqn:Hoh.
  - destruct (Hhot eq_refl) as [Hnonempty Hrange].
    destruct (labels_to_one_hot_rows (CifarDataProvider_n_classes cls)
                (concat (map snd batches))
                ltac:(destruct Hkey as [[-> _]|[-> _]]; lia) Hrange)
      as (a & Ha & Hshape & Hrows & _).
    exists (map one_hot_row (rows2 a)). split.
    + apply (read_cifar_run cls key); [done..|]. rewrite Hoh.
      unfold provider_labels_to_one_hot.
      assert (forallb (fun l => negb (length l =? 0)%nat) (map snd batches) = true)
        as ->.
      { apply forallb_forall. intros l Hl. apply in_map_iff in Hl as (b & <- & Hb).
        rewrite Forall_forall in Hnonempty.
        specialize (Hnonempty b ltac:(by apply list_elem_of_In)).
        by destruct (b.2). }
      by rewrite Ha.
    + split; [by rewrite length_map|]. split; [done|]. intros _. by exists a.
  - exists (map class_index (concat (map snd batches))). split.
    + apply (read_cifar_run cls key); [done..|]. by rewrite Hoh.
    + split; [by rewrite length_map|]. split; [done|]. done.
Qed.

Lemma load_pickle_None fname w :
  files w !! fname = None -> load_pickle fname w = Failed FileNotFoundError w.
Proof. unfold load_pickle. by intros ->. Qed.

Lemma reshape_whole (a : ndarray2) :
  (length (elements2 a) mod 3072 = 0)%nat -> exists r, reshape a 3 32 32 = Ok r.
Proof.
  intros H. unfold reshape. change (3 * 32 * 32)%nat with 3072%nat.
  change (3072 =? 0)%nat with false. cbv iota. rewrite H. by eexists.
Qed.

Lemma reshape_ragged (a : ndarray2) :
  (length (elements2 a) mod 3072 <> 0)%nat -> reshape a 3 32 32 = Err ValueError.
Proof.
  intros H. unfold reshape. change (3 * 32 * 32)%nat with 3072%nat.
  change (3072 =? 0)%nat with false. cbv iota.
  apply Nat.eqb_neq in H. by rewrite H.
Qed.

(** X18.  What makes [read_cifar] raise at its first file, or before: no file
    name at all (the ValueError of [np.vstack]), a file that is not there,
    a file without [b'data'], rows that do not make whole images, a class
    of neither 10 nor 100 classes ([labels_key] is then bound to nothing),
    a file without the key of the labels of the class, as a CIFAR-100 file
    read by a CIFAR-10 provider. *)
Theorem read_cifar_raises cls (fname : string) (rest : list string) w :
  read_cifar cls [] w = Failed (Exn ValueError) w /\
  (files w !! fname = None ->
   read_cifar cls (fname :: rest) w = Failed FileNotFoundError w) /\
  (forall d, files w !! fname = Some d ->
     (b_data d = None -> read_cifar cls (fname :: rest) w = Failed KeyError w) /\
     (forall a, b_data d = Some a ->
        ((length (elements2 a) mod 3072 <> 0)%nat ->
         read_cifar cls (fname :: rest) w = Failed (Exn ValueError) w) /\
        ((length (elements2 a) mod 3072 = 0)%nat ->
         (CifarDataProvider_n_classes cls <> 10 ->
          CifarDataProvider_n_classes cls <> 100 ->
          read_cifar cls (fname :: rest) w = Failed UnboundLocalError w) /\
         (CifarDataProvider_n_classes cls = 10 -> b_labels d = None ->
          read_cifar cls (fname :: rest) w = Failed KeyError w) /\
         (CifarDataProvider_n_classes cls = 100 -> b_fine_labels d = None ->
          read_cifar cls (fname :: rest) w = Failed KeyError w)))).
Proof.
  split; [reflexivity|]. split.
  { intros Hf. unfold read_cifar.
    apply pbind_Failed. cbn [read_batches].
    apply pbind_Failed. by apply load_pickle_None. }
  intros d Hd. split.
  { intros Ha. unfold read_cifar. apply pbind_Failed. cbn [read_batches].
    rewrite (pbind_Returned _ _ _ _ _ (load_pickle_Some _ _ _ Hd)).
    by rewrite Ha. }
  intros a Ha. split.
  { intros Hmod. unfold read_cifar. apply pbind_Failed. cbn [read_batches].
    rewrite (pbind_Returned _ _ _ _ _ (load_pickle_Some _ _ _ Hd)).
    rewrite Ha. erewrite pbind_Returned by reflexivity.
    by rewrite (reshape_ragged a Hmod). }
  intros Hmod. destruct (reshape_whole a Hmod) as [r Hr].
  repeat split.
  - intros H10 H100. apply Z.eqb_neq in H10, H100. unfold read_cifar.
    rewrite H10, H100. apply pbind_Failed. cbn [read_batches].
    rewrite (pbind_Returned _ _ _ _ _ (load_pickle_Some _ _ _ Hd)).
    rewrite Ha. erewrite pbind_Returned by reflexivity.
    rewrite Hr. erewrite pbind_Returned by reflexivity. reflexivity.
  - intros H10 Hl. unfold read_cifar. rewrite H10. cbn [Z.eqb Pos.eqb].
    apply pbind_Failed. cbn [read_batches].
    rewrite (pbind_Returned _ _ _ _ _ (load_pickle_Some _ _ _ Hd)).
    rewrite Ha. erewrite pbind_Returned by reflexivity.
    rewrite Hr. erewrite pbind_Returned by reflexivity.
    erewrite pbind_Returned by reflexivity.
    cbn [labels_at]. by rewrite Hl.
  - intros H100 Hl. unfold read_cifar. rewrite H100. cbn [Z.eqb Pos.eqb].
    apply pbind_Failed. cbn [read_batches].
    rewrite (pbind_Returned _ _ _ _ _ (load_pickle_Some _ _ _ Hd)).
    rewrite Ha. erewrite pbind_Returned by reflexivity.
    rewrite Hr. erewrite pbind_Returned by reflexivity.
    erewrite pbind_Returned by reflexivity.
    cbn [labels_at]. by rewrite Hl.
Qed.

End Reading.

(** ** Files and directories *)

Section Files.

Lemma os_path_join_inj (a b1 b2 : string) :
  starts_with_sep b1 = false -> starts_with_sep b2 = false ->
  os_path_join a b1 = os_path_join a b2 -> b1 = b2.
Proof.
  unfold os_path_join. intros -> ->.
  destruct (String.eqb a "" || ends_with_sep a); intros H.
  - by apply (inj (String.append a)) in H.
  - apply (inj (String.append a)) in H. by apply (inj (String.append "/")) in H.
Qed.

Lemma length_append (a b : string) :
  String.length (a +:+ b) = (String.length a + String.length b)%nat.
Proof. induction a as [|c a IH]; simpl; [done|by rewrite IH]. Qed.

Lemma append_inj_r (s a b : string) : a +:+ s = b +:+ s -> a = b.
Proof.
  revert b. induction a as [|c a IH]; intros [|c' b] H; simpl in H.
  - done.
  - apply (f_equal String.length) in H. simpl in H.
    rewrite !length_append in H. simpl in H. lia.
  - apply (f_equal String.length) in H. simpl in H.
    rewrite !length_append in H. simpl in H. lia.
  - inversion H. f_equal. by apply IH.
Qed.

Lemma NoDup_os_path_join (a : string) (names : list string) :
  Forall (fun b => starts_with_sep b = false) names ->
  NoDup names -> NoDup (map (os_path_join a) names).
Proof.
  intros Hall Hnd. apply NoDup_fmap_2_strong; [|done].
  rewrite Forall_forall in Hall.
  intros b1 b2 H1 H2. apply os_path_join_inj; auto.
Qed.

(** X19.  The files of the two archives, whatever the directory: five training
    batches and one test batch for CIFAR-10, one file of each for
    CIFAR-100, all in one directory under [save_path], no file named
    twice: no test file is a training file.  The augmented providers read
    the files of the plain ones. *)
Theorem train_and_test_files_differ (save_path : string) :
  (exists train test,
     get_filenames Cifar10DataProvider save_path = inr (train, test) /\
     get_filenames Cifar10AugmentedDataProvider save_path = inr (train, test) /\
     train = map (os_path_join (os_path_join save_path "cifar-10-batches-py"))
               ["data_batch_1"; "data_batch_2"; "data_batch_3";
                "data_batch_4"; "data_batch_5"] /\
     test = [os_path_join (os_path_join save_path "cifar-10-batches-py") "test_batch"] /\
     NoDup (train ++ test)) /\
  (exists train test,
     get_filenames Cifar100DataProvider save_path = inr (train, test) /\
     get_filenames Cifar100AugmentedDataProvider save_path = inr (train, test) /\
     train = [os_path_join (os_path_join save_path "cifar-100-python") "train"] /\
     test = [os_path_join (os_path_join save_path "cifar-100-python") "test"] /\
     NoDup (train ++ test)).
Proof.
  split.
  - eexists _, _. split; [reflexivity|]. split; [reflexivity|].
    split; [reflexivity|]. split; [reflexivity|].
    apply (NoDup_os_path_join _
             ["data_batch_1"; "data_batch_2"; "data_batch_3";
              "data_batch_4"; "data_batch_5"; "test_batch"]).
    + repeat constructor.
    + apply NoDup_ListNoDup. repeat constructor; cbn; intuition discriminate.
  - eexists _, _. split; [reflexivity|]. split; [reflexivity|].
    split; [reflexivity|]. split; [reflexivity|].
    apply (NoDup_os_path_join _ ["train"; "test"]).
    + repeat constructor.
    + apply NoDup_ListNoDup. repeat constructor; cbn; intuition discriminate.
Qed.

(** X20.  [save_path] keeps the directory the parameters gave and changes
    nothing; without one it is [/tmp/cifar] and the number of classes,
    which it stores, so that the next call gives the same directory and
    changes nothing.  Two numbers of classes never have the same default
    directory, nor the same address of the archive. *)
Theorem save_path_is_memoized (cls : provider_class) w :
  (forall path, _save_path (provider w) = Some path ->
     save_path cls w = Returned path w) /\
  (_save_path (provider w) = None ->
   exists w',
     save_path cls w
       = Returned ("/tmp/cifar" +:+ pretty (CifarDataProvider_n_classes cls)) w' /\
     provider w' = set_save_path
                     (Some ("/tmp/cifar" +:+ pretty (CifarDataProvider_n_classes cls)))
                     (provider w) /\
     save_path cls w'
       = Returned ("/tmp/cifar" +:+ pretty (CifarDataProvider_n_classes cls)) w') /\
  (forall cls' : provider_class,
     "/tmp/cifar" +:+ pretty (CifarDataProvider_n_classes cls)
       = "/tmp/cifar" +:+ pretty (CifarDataProvider_n_classes cls') \/
     data_url cls = data_url cls' ->
     CifarDataProvider_n_classes cls = CifarDataProvider_n_classes cls').
Proof.
  split; [|split].
  - intros path Hp. unfold save_path.
    rewrite (pbind_Returned _ _ _ _ _ (the_provider_run w)). by rewrite Hp.
  - intros Hp. unfold save_path. eexists.
    rewrite (pbind_Returned _ _ _ _ _ (the_provider_run w)). rewrite Hp.
    split; [reflexivity|]. split; [reflexivity|]. reflexivity.
  - intros cls' [H|H].
    + apply (inj (String.append "/tmp/cifar")) in H. by apply (inj pretty) in H.
    + unfold data_url in H.
      apply (inj (String.append "http://www.cs.toronto.edu/~kriz/cifar-")) in H.
      apply append_inj_r in H. by apply (inj pretty) in H.
Qed.

End Files.

(** ** The datasets of a provider *)

Section Construction.

Lemma quiet_mret {A} (a : A) : quiet (mret a).
Proof. intros w a' w' H. by inversion H. Qed.

Lemma quiet_throw {A} (e : pyerror) : quiet (@throw A e).
Proof. by intros w a' w' H. Qed.

Lemma quiet_bind {A B} (m : PM A) (k : A -> PM B) :
  quiet m -> (forall a, quiet (k a)) -> quiet (x ← m; k x).
Proof.
  intros Hm Hk w b w' H. apply pbind_inv in H as (a & w1 & H1 & H2).
  destruct (Hm _ _ _ H1) as [E1 E2]. destruct (Hk a _ _ _ H2) as [E3 E4].
  split; congruence.
Qed.

Lemma quiet_attempt {A} (r : result A) : quiet (attempt r).
Proof. destruct r; [apply quiet_mret|apply quiet_throw]. Qed.

Lemma quiet_getitem {A} (v : option A) : quiet (getitem v).
Proof. destruct v; [apply quiet_mret|apply quiet_throw]. Qed.

Lemma quiet_either {A} (r : pyerror + A) : quiet (either r).
Proof. destruct r; [apply quiet_throw|apply quiet_mret]. Qed.

Lemma quiet_with_self {A} (o : CifarDataSet) (m : @M plabel A) : quiet (with_self o m).
Proof.
  intros w a w' H. unfold with_self in H.
  destruct (m (enter o w)); inversion H; by subst.
Qed.

Lemma quiet_on_arrays {A} (m : @M plabel A) : quiet (on_arrays m).
Proof.
  unfold on_arrays. apply quiet_bind; [apply quiet_with_self|].
  intros p. apply quiet_mret.
Qed.

Lemma quiet_load_pickle (fname : string) : quiet (load_pickle fname).
Proof.
  intros w a w' H. unfold load_pickle in H.
  destruct (files w !! fname); inversion H; by subst.
Qed.

Lemma quiet_the_provider : quiet the_provider.
Proof. intros w a w' H. by inversion H. Qed.

Create HintDb quiet discriminated.
#[local] Hint Resolve quiet_mret quiet_throw quiet_attempt quiet_getitem quiet_either
  quiet_with_self quiet_on_arrays quiet_load_pickle quiet_the_provider : quiet.

Ltac solve_quiet := repeat first
  [ solve [auto with quiet]
  | apply quiet_bind; [|intros ?]
  | match goal with |- quiet (match ?x with _ => _ end) => destruct x end ].

Lemma quiet_read_batches key filenames :
  forall images_res labels_res,
    quiet (read_batches key filenames images_res labels_res).
Proof.
  induction filenames as [|fname rest IH]; intros images_res labels_res;
    cbn [read_batches]; [apply quiet_mret|].
  solve_quiet; apply IH.
Qed.

Lemma quiet_read_cifar cls filenames : quiet (read_cifar cls filenames).
Proof.
  unfold read_cifar. apply quiet_bind; [apply quiet_read_batches|]. intros p. solve_quiet.
Qed.

Lemma quiet_download f (url path : string) : quiet (download f url path).
Proof.
  intros w a w' H. unfold download in H.
  destruct (f url path (files w)); inversion H; by subst.
Qed.

Lemma quiet_attribute {A} (name : CifarDataProvider -> option A) :
  quiet (attribute name).
Proof. unfold attribute. solve_quiet. Qed.

(** The constructor of a dataset adds one object and leaves the provider
    alone. *)
Lemma CifarDataSet_inv imgs labs classes shuffle norm aug w k w' :
  CifarDataSet_ imgs labs classes shuffle norm aug w = Returned k w' ->
  k = length (objects w) /\ provider w' = provider w /\
  exists o, objects w' = objects w ++ [o].
Proof.
  unfold CifarDataSet_. intros H. apply pbind_inv in H as (p & w1 & H1 & H2).
  destruct (quiet_with_self _ _ _ _ _ H1) as [E1 E2].
  unfold new_object in H2. inversion H2; subst. cbn.
  split; [by rewrite E2|]. split; [done|]. exists p.2. by rewrite E2.
Qed.

Lemma save_path_inv cls w path w' :
  save_path cls w = Returned path w' ->
  objects w' = objects w /\ train (provider w') = train (provider w) /\
  validation (provider w') = validation (provider w) /\
  test (provider w') = test (provider w).
Proof.
  unfold save_path. intros H. apply pbind_inv in H as (p & w1 & H1 & H2).
  inversion H1; subst. destruct (_save_path (provider w1)).
  - by inversion H2; subst.
  - apply pbind_inv in H2 as ([] & w2 & H2 & H3). inversion H2; subst.
    by inversion H3; subst.
Qed.

Ltac pinv H a w := apply pbind_inv in H as (a & w & ? & H).

Lemma add_train_and_validation_inv cls vs sp shuffle norm images labels w w' :
  add_train_and_validation cls vs sp shuffle norm images labels w = Returned tt w' ->
  if bool_decide (is_Some vs /\ is_Some sp)
  then length (objects w') = S (S (length (objects w))) /\
       provider w' = set_validation (S (length (objects w)))
                       (set_train (length (objects w)) (provider w))
  else length (objects w') = S (length (objects w)) /\
       provider w' = set_train (length (objects w)) (provider w).
Proof.
  intros H. unfold add_train_and_validation in H.
  assert (Hplain :
    (o ← CifarDataSet_ images labels (CifarDataProvider_n_classes cls)
           shuffle norm (data_augmentation cls);
     set_provider (set_train o)) w = Returned tt w' ->
    length (objects w') = S (length (objects w)) /\
    provider w' = set_train (length (objects w)) (provider w)).
  { intros H'. apply pbind_inv in H' as (o & w1 & H1 & H2).
    apply CifarDataSet_inv in H1 as (-> & E1 & ot & E2).
    inversion H2; subst. cbn. rewrite E1, E2, length_app. cbn. split; [lia|done]. }
  destruct vs as [b|], sp as [f|];
    [|rewrite bool_decide_eq_false_2 by (intros [_ [? ?]]; done); auto
     |rewrite bool_decide_eq_false_2 by (intros [[? ?] _]; done); auto
     |rewrite bool_decide_eq_false_2 by (intros [[? ?] _]; done); auto].
  rewrite bool_decide_eq_true_2 by (split; by eexists).
  clear Hplain.
  pinv H X w1. pinv H split_idx w2. pinv H ti w3. pinv H Y w4. pinv H tlab w5.
  pinv H o w6. pinv H u w7. pinv H X' w8. pinv H vi w9. pinv H Y' w10.
  pinv H vlab w11. pinv H o' w12.
  repeat match goal with
  | E : on_arrays _ _ = Returned _ _ |- _ => apply quiet_on_arrays in E as [? ?]
  | E : attempt _ _ = Returned _ _ |- _ => apply quiet_attempt in E as [? ?]
  | E : CifarDataSet_ _ _ _ _ _ _ _ = Returned _ _ |- _ =>
      apply CifarDataSet_inv in E as (? & ? & ? & ?)
  | E : set_provider _ _ = Returned _ _ |- _ => inversion E; clear E
  end.
  subst. cbn in *.
  repeat match goal with
  | E : objects ?v = _ |- context [objects ?v] => rewrite E
  | E : provider ?v = _ |- context [provider ?v] => rewrite E
  end.
  rewrite !length_app. cbn. split; [lia|].
  f_equal. lia.
Qed.

Lemma add_test_set_inv cls vs sp shuffle norm test_fnames w w' :
  add_test_set cls vs sp shuffle norm test_fnames w = Returned tt w' ->
  length (objects w') = S (length (objects w)) /\
  provider w' =
    if truthy_bool vs && negb (truthy_float sp)
    then set_validation (length (objects w))
           (set_test (length (objects w)) (provider w))
    else set_test (length (objects w)) (provider w).
Proof.
  intros H. unfold add_test_set in H.
  pinv H p w1. pinv H o w2. pinv H u w3. revert H.
  repeat match goal with
  | E : read_cifar _ _ _ = Returned _ _ |- _ => apply quiet_read_cifar in E as [? ?]
  | E : CifarDataSet_ _ _ _ _ _ _ _ = Returned _ _ |- _ =>
      apply CifarDataSet_inv in E as (? & ? & ? & ?)
  | E : set_provider _ _ = Returned _ _ |- _ => inversion E; clear E
  end.
  subst. destruct (truthy_bool vs && negb (truthy_float sp)); intros Hend.
  - apply pbind_inv in Hend as (o' & w4 & Hattr & Hend). unfold attribute in Hattr.
    apply pbind_inv in Hattr as (q & w5 & H5 & H6). inversion H5; subst. cbn in H6.
    inversion H6; subst. inversion Hend; subst. cbn.
    repeat match goal with
    | E : objects ?v = _ |- context [objects ?v] => rewrite E
    | E : provider ?v = _ |- context [provider ?v] => rewrite E
    end.
    rewrite !length_app. cbn. split; [lia|done].
  - inversion Hend; subst. cbn.
    repeat match goal with
    | E : objects ?v = _ |- context [objects ?v] => rewrite E
    | E : provider ?v = _ |- context [provider ?v] => rewrite E
    end.
    rewrite !length_app. cbn. split; [lia|done].
Qed.

(** X21.  The datasets of a provider that was built, the first dataset made
    being numbered [n]: [train] is that one; with a validation set and a
    split both given (a validation set given as False too) the next one is
    made for the validation, and [test] is the last one made.  When a
    validation set is asked for and the split is not given, or is zero,
    [validation] is the test dataset itself, the one object under two
    names, and a validation dataset made for a split of zero is dropped.
    With neither, the provider has no [validation]. *)
Theorem provider_datasets download cls (params : train_params.dict) w0 w :
  CifarDataProvider__init__ download cls params w0 = Returned tt w ->
  let vs := train_params.validation_set params in
  let sp := train_params.validation_split params in
  let n := length (objects w0) in
  let split := bool_decide (is_Some vs /\ is_Some sp) in
  let shared := truthy_bool vs && negb (truthy_float sp) in
  train (provider w) = Some n /\
  test (provider w) = Some (if split then S (S n) else S n) /\
  length (objects w) = S (if split then S (S n) else S n) /\
  validation (provider w) =
    (if shared then test (provider w)
     else if split then Some (S n) else None).
Proof.
  intros H vs sp n split shared. unfold CifarDataProvider__init__ in H.
  apply pbind_inv in H as (u & w1 & H1 & H).
  apply pbind_inv in H as (path & w2 & H2 & H).
  apply pbind_inv in H as (u' & w3 & H3 & H).
  apply pbind_inv in H as (path' & w4 & H4 & H).
  apply pbind_inv in H as (fnames & w5 & H5 & H).
  apply pbind_inv in H as (p & w6 & H6 & H).
  apply pbind_inv in H as ([] & w7 & H7 & H).
  fold vs sp in H, H7.
  apply add_test_set_inv in H as [L8 P8]. fold shared in P8.
  apply add_train_and_validation_inv in H7. fold split in H7.
  apply quiet_read_cifar in H6 as [P6 O6].
  apply quiet_either in H5 as [P5 O5].
  apply save_path_inv in H4 as (O4 & T4 & V4 & S4).
  apply quiet_download in H3 as [P3 O3].
  apply save_path_inv in H2 as (O2 & T2 & V2 & S2).
  inversion H1; subst w1; clear H1. cbn in O2, T2, V2, S2.
  assert (Hw6 : objects w6 = objects w0 /\ train (provider w6) = None /\
                validation (provider w6) = None /\ test (provider w6) = None).
  { rewrite O6, O5, O4, O3, O2, P6, P5, T4, V4, S4, P3. done. }
  destruct Hw6 as (O & T & V & S).
  rewrite P8, L8.
  destruct split; destruct H7 as [L7 P7]; rewrite L7, P7, O; fold n;
    destruct shared; cbn; rewrite ?V; done.
Qed.

(** *** Running the constructors *)

Lemma on_arrays_read_images w (r : ref) X :
  arrays_of_images w !! r = Some X -> on_arrays (read_images r) w = Returned X w.
Proof.
  intros Hr. unfold on_arrays, with_self, mbind, PM_bind, read_images, enter. cbn.
  rewrite Hr. cbn. unfold leave. cbn. by rewrite world_eta.
Qed.

Lemma on_arrays_read_labels w (r : ref) Y :
  arrays_of_labels w !! r = Some Y -> on_arrays (read_labels r) w = Returned Y w.
Proof.
  intros Hr. unfold on_arrays, with_self, mbind, PM_bind, read_labels, enter. cbn.
  rewrite Hr. cbn. unfold leave. cbn. by rewrite world_eta.
Qed.

Lemma CifarDataSet_Ret imgs labs classes shuffle norm aug w s :
  new_CifarDataSet imgs labs classes shuffle norm aug (enter blank w) = Ret tt s ->
  CifarDataSet_ imgs labs classes shuffle norm aug w =
  Returned (length (objects w))
    (World (provider w) (objects w ++ [self s]) (image_arrays s) (label_arrays s)
           (raw_draws s) (draws_used s) (files w)).
Proof.
  intros H. unfold CifarDataSet_, with_self, mbind, PM_bind. by rewrite H.
Qed.

Lemma CifarDataSet_Raise imgs labs classes shuffle norm aug w e s :
  new_CifarDataSet imgs labs classes shuffle norm aug (enter blank w) = Raise e s ->
  CifarDataSet_ imgs labs classes shuffle norm aug w = Failed (Exn e) (leave s w).
Proof.
  intros H. unfold CifarDataSet_, with_self, mbind, PM_bind. by rewrite H.
Qed.

Lemma py_slice_aligned {A B} (X : list A) (Y : list B) (start stop : option Z) :
  length X = length Y ->
  length (py_slice X start stop) = length (py_slice Y start stop).
Proof. intros H. by rewrite !py_slice_length, H. Qed.

(** X22.  The train and validation datasets of a class with augmentation on:
    on training files that hold an example the first dataset with an
    example in its corpus stops the constructor of the provider with the
    IndexError of [augment_image]. *)
Theorem augmented_provider_is_never_built cls (vs : option bool) (sp : option float)
    (shuffle norm : option string) (images labels : ref) w X Y :
  data_augmentation cls = true ->
  arrays_of_images w !! images = Some X ->
  arrays_of_labels w !! labels = Some Y ->
  length X = length Y ->
  X <> [] ->
  shuffle = None \/ shuffle = Some "once_prior_train" \/
    shuffle = Some "every_epoch" ->
  (forall f, is_Some vs -> sp = Some f -> exists k, split_index (length X) f = Ok k) ->
  exists w',
    add_train_and_validation cls vs sp shuffle norm images labels w
    = Failed (Exn IndexError) w'.
Proof.
  intros Haug HX HY Hlen Hne Hshuffle Hsplit. unfold add_train_and_validation.
  rewrite Haug.
  assert (Hplain : exists w',
    (o ← CifarDataSet_ images labels (CifarDataProvider_n_classes cls)
           shuffle norm true;
     set_provider (set_train o)) w = Failed (Exn IndexError) w').
  { destruct (new_CifarDataSet_augmented images labels
                (CifarDataProvider_n_classes cls) shuffle norm (enter blank w) X Y
                HX HY Hlen Hshuffle) as [Hraise _].
    destruct (Hraise Hne) as (s' & Hrun & _).
    eexists. apply pbind_Failed. by apply CifarDataSet_Raise. }
  destruct vs as [b|], sp as [f|]; try exact Hplain. clear Hplain.
  destruct (Hsplit f ltac:(by eexists) eq_refl) as [k Hk].
  rewrite (pbind_Returned _ _ _ _ _ (on_arrays_read_images _ _ _ HX)).
  rewrite Hk. erewrite pbind_Returned by reflexivity.
  rewrite (pbind_Returned _ _ _ _ _ (on_arrays_new_image_array _ w)).
  set (w1 := World _ _ _ _ _ _ _).
  rewrite (pbind_Returned _ _ _ _ _ (on_arrays_read_labels w1 _ _ HY)).
  rewrite (pbind_Returned _ _ _ _ _ (on_arrays_new_label_array _ w1)).
  set (w2 := World _ _ _ _ _ _ _).
  set (tX := py_slice X None (Some k)). set (tY := py_slice Y None (Some k)).
  assert (HtX : image_arrays (enter blank w2) !! length (arrays_of_images w) = Some tX)
    by (cbn; by apply list_lookup_middle).
  assert (HtY : label_arrays (enter blank w2) !! length (arrays_of_labels w) = Some tY)
    by (cbn; by apply list_lookup_middle).
  destruct (new_CifarDataSet_augmented (length (arrays_of_images w))
              (length (arrays_of_labels w))
              (CifarDataProvider_n_classes cls) shuffle norm (enter blank w2) tX tY
              HtX HtY (py_slice_aligned X Y _ _ Hlen) Hshuffle) as [Hraise Hret].
  destruct (decide (tX = [])) as [Hnil|Hcons].
  2:{ destruct (Hraise Hcons) as (s' & Hrun & _).
      eexists. apply pbind_Failed. by apply CifarDataSet_Raise. }
  destruct (Hret Hnil) as (s & Hrun & Hki & Hkl).
  rewrite (pbind_Returned _ _ _ _ _ (CifarDataSet_Ret _ _ _ _ _ _ _ _ Hrun)).
  erewrite pbind_Returned by reflexivity.
  set (w3 := World _ _ _ _ _ _ _).
  assert (HX3 : arrays_of_images w3 !! images = Some X).
  { apply Hki. cbn. by apply lookup_app_l_Some. }
  assert (HY3 : arrays_of_labels w3 !! labels = Some Y).
  { apply Hkl. cbn. by apply lookup_app_l_Some. }
  rewrite (pbind_Returned _ _ _ _ _ (on_arrays_read_images _ _ _ HX3)).
  rewrite (pbind_Returned _ _ _ _ _ (on_arrays_new_image_array _ w3)).
  set (w4 := World _ _ _ _ _ _ _).
  rewrite (pbind_Returned _ _ _ _ _ (on_arrays_read_labels w4 _ _ HY3)).
  rewrite (pbind_Returned _ _ _ _ _ (on_arrays_new_label_array _ w4)).
  set (w5 := World _ _ _ _ _ _ _).
  set (vX := py_slice X (Some k) None). set (vY := py_slice Y (Some k) None).
  assert (HvX : image_arrays (enter blank w5) !! length (arrays_of_images w3) = Some vX)
    by (cbn; by apply list_lookup_middle).
  assert (HvY : label_arrays (enter blank w5) !! length (arrays_of_labels w4) = Some vY)
    by (cbn; by apply list_lookup_middle).
  destruct (new_CifarDataSet_augmented (length (arrays_of_images w3))
              (length (arrays_of_labels w4))
              (CifarDataProvider_n_classes cls) shuffle norm (enter blank w5) vX vY
              HvX HvY (py_slice_aligned X Y _ _ Hlen) Hshuffle) as [Hraise' _].
  assert (HvXne : vX <> []).
  { assert (Hs : tX ++ vX = X) by apply py_slice_split.
    rewrite Hnil in Hs. change (vX = X) in Hs. by rewrite Hs. }
  destruct (Hraise' HvXne) as (s' & Hrun' & _).
  eexists. apply pbind_Failed. by apply CifarDataSet_Raise.
Qed.

Lemma py_slice_Forall {A} (P : A -> Prop) (l : list A) (start stop : option Z) :
  Forall P l -> Forall P (py_slice l start stop).
Proof.
  intros H. unfold py_slice. destruct (slice_range (length l) start stop) as [lo len].
  by apply Forall_take, Forall_drop.
Qed.

(** [a[:k]] and [a[k:]] for any [k]: the rows before a place of the
    array and the rows from it on. *)
Lemma py_slice_cut {A} (l : list A) (k : Z) :
  let cut := Z.to_nat (slice_bound (Z.of_nat (length l)) k) in
  py_slice l None (Some k) = take cut l /\
  py_slice l (Some k) None = drop cut l /\
  (cut <= length l)%nat /\
  (0 <= k <= Z.of_nat (length l) -> cut = Z.to_nat k).
Proof.
  intros cut. unfold py_slice, slice_range. cbn [from_option].
  pose proof (slice_bound_range (Z.of_nat (length l)) k ltac:(lia)) as Hk.
  rewrite Z.sub_0_r. change (Z.to_nat 0) with 0%nat. rewrite drop_0.
  fold cut. split; [done|]. split.
  { apply take_ge. rewrite length_drop. unfold cut. lia. }
  split; [unfold cut; lia|].
  intros Hin. unfold cut, slice_bound.
  assert ((k <? 0) = false) as -> by lia. by rewrite Z.min_l by lia.
Qed.

(** The corpus of a dataset object, from the place of its arrays. *)
Lemma corpus_at (o : CifarDataSet) w (i l : ref) CX CY :
  images o = Some i -> labels o = Some l ->
  arrays_of_images w !! i = Some CX -> arrays_of_labels w !! l = Some CY ->
  corpus_images (enter o w) = CX /\ corpus_labels (enter o w) = CY.
Proof.
  intros Hi Hl HX HY. unfold corpus_images, corpus_labels, enter.
  cbn [self image_arrays label_arrays]. by rewrite Hi, Hl, HX, HY.
Qed.

(** The run of the split, for the three ways of shuffling. *)
Lemma add_train_and_validation_run cls (validation_set : bool)
    (validation_split : float) (shuffle norm : option string)
    (images labels : ref) w X Y (split_idx : Z) :
  data_augmentation cls = false ->
  arrays_of_images w !! images = Some X ->
  arrays_of_labels w !! labels = Some Y ->
  length X = length Y ->
  shuffle = None \/ shuffle = Some "once_prior_train" \/
    shuffle = Some "every_epoch" ->
  Forall (fun im => exists e, epoch_image norm im = Ok e) X ->
  split_index (length X) validation_split = Ok split_idx ->
  exists w' train_set validation_set',
    add_train_and_validation cls (Some validation_set) (Some validation_split)
      shuffle norm images labels w = Returned tt w' /\
    train (provider w') = Some (length (objects w)) /\
    validation (provider w') = Some (S (length (objects w))) /\
    objects w' !! length (objects w) = Some train_set /\
    objects w' !! S (length (objects w)) = Some validation_set' /\
    corpus_from shuffle
      (py_slice X None (Some split_idx)) (py_slice Y None (Some split_idx))
      (corpus_images (enter train_set w')) (corpus_labels (enter train_set w')) /\
    corpus_from shuffle
      (py_slice X (Some split_idx) None) (py_slice Y (Some split_idx) None)
      (corpus_images (enter validation_set' w'))
      (corpus_labels (enter validation_set' w')) /\
    arrays_of_images w' !! images = Some X /\
    arrays_of_labels w' !! labels = Some Y.
Proof.
  intros Haug HX HY Hlen Hshuffle Hnorm Hk. unfold add_train_and_validation.
  rewrite Haug.
  rewrite (pbind_Returned _ _ _ _ _ (on_arrays_read_images _ _ _ HX)).
  rewrite Hk. erewrite pbind_Returned by reflexivity.
  rewrite (pbind_Returned _ _ _ _ _ (on_arrays_new_image_array _ w)).
  set (w1 := World _ _ _ _ _ _ _).
  rewrite (pbind_Returned _ _ _ _ _ (on_arrays_read_labels w1 _ _ HY)).
  rewrite (pbind_Returned _ _ _ _ _ (on_arrays_new_label_array _ w1)).
  set (w2 := World _ _ _ _ _ _ _).
  set (tX := py_slice X None (Some split_idx)).
  set (tY := py_slice Y None (Some split_idx)).
  set (ti := length (arrays_of_images w)). set (tl := length (arrays_of_labels w)).
  assert (HtX : image_arrays (enter blank w2) !! ti = Some tX)
    by (cbn; by apply list_lookup_middle).
  assert (HtY : label_arrays (enter blank w2) !! tl = Some tY)
    by (cbn; by apply list_lookup_middle).
  destruct (new_CifarDataSet_corpus ti tl (CifarDataProvider_n_classes cls)
              shuffle norm (enter blank w2) tX tY HtX HtY
              (py_slice_aligned X Y _ _ Hlen) Hshuffle
              ltac:(by apply py_slice_Forall))
    as (s1 & i1 & l1 & CX1 & CY1 & Hrun1 & Hi1 & Hl1 & HCX1 & HCY1 & Hfrom1
        & Hki1 & Hkl1).
  rewrite (pbind_Returned _ _ _ _ _ (CifarDataSet_Ret _ _ _ _ _ _ _ _ Hrun1)).
  erewrite pbind_Returned by reflexivity.
  set (w3 := World _ _ _ _ _ _ _).
  assert (HX3 : arrays_of_images w3 !! images = Some X).
  { apply Hki1. cbn. by apply lookup_app_l_Some. }
  assert (HY3 : arrays_of_labels w3 !! labels = Some Y).
  { apply Hkl1. cbn. by apply lookup_app_l_Some. }
  rewrite (pbind_Returned _ _ _ _ _ (on_arrays_read_images _ _ _ HX3)).
  rewrite (pbind_Returned _ _ _ _ _ (on_arrays_new_image_array _ w3)).
  set (w4 := World _ _ _ _ _ _ _).
  rewrite (pbind_Returned _ _ _ _ _ (on_arrays_read_labels w4 _ _ HY3)).
  rewrite (pbind_Returned _ _ _ _ _ (on_arrays_new_label_array _ w4)).
  set (w5 := World _ _ _ _ _ _ _).
  set (vX := py_slice X (Some split_idx) None).
  set (vY := py_slice Y (Some split_idx) None).
  set (vi := length (arrays_of_images w3)). set (vl := length (arrays_of_labels w4)).
  assert (HvX : image_arrays (enter blank w5) !! vi = Some vX)
    by (cbn; by apply list_lookup_middle).
  assert (HvY : label_arrays (enter blank w5) !! vl = Some vY)
    by (cbn; by apply list_lookup_middle).
  destruct (new_CifarDataSet_corpus vi vl (CifarDataProvider_n_classes cls)
              shuffle norm (enter blank w5) vX vY HvX HvY
              (py_slice_aligned X Y _ _ Hlen) Hshuffle
              ltac:(by apply py_slice_Forall))
    as (s2 & i2 & l2 & CX2 & CY2 & Hrun2 & Hi2 & Hl2 & HCX2 & HCY2 & Hfrom2
        & Hki2 & Hkl2).
  rewrite (pbind_Returned _ _ _ _ _ (CifarDataSet_Ret _ _ _ _ _ _ _ _ Hrun2)).
  eexists _, (self s1), (self s2). split; [reflexivity|].
  cbn [provider objects train validation set_train set_validation
       arrays_of_images arrays_of_labels].
  assert (HCX1' : image_arrays s2 !! i1 = Some CX1).
  { apply Hki2. cbn. by apply lookup_app_l_Some. }
  assert (HCY1' : label_arrays s2 !! l1 = Some CY1).
  { apply Hkl2. cbn. by apply lookup_app_l_Some. }
  split; [done|]. split; [cbn; rewrite length_app; cbn; f_equal; lia|].
  split.
  { cbn. rewrite lookup_app_l by (rewrite length_app; cbn; lia).
    by apply list_lookup_middle. }
  split.
  { cbn. apply list_lookup_middle. rewrite length_app. cbn. lia. }
  clearbody ti tl vi vl.
  match goal with
  | |- context [enter (self s1) ?w] =>
      destruct (corpus_at (self s1) w i1 l1 CX1 CY1 Hi1 Hl1 HCX1' HCY1') as [-> ->];
      destruct (corpus_at (self s2) w i2 l2 CX2 CY2 Hi2 Hl2 HCX2 HCY2) as [-> ->]
  end.
  split; [done|]. split; [done|].
  split.
  - apply Hki2. cbn. by apply lookup_app_l_Some.
  - apply Hkl2. cbn. apply lookup_app_l_Some. done.
Qed.

(** X23.  The train and validation datasets of a provider without augmentation,
    from a corpus it read, with a split and no shuffle before the
    training: both datasets are built, the corpus of the train dataset is
    [images[:split_idx]] with [labels[:split_idx]] and the corpus of the
    validation dataset is [images[split_idx:]] with [labels[split_idx:]]:
    the one followed by the other is the corpus that was read, no example
    in both, none left out. *)
Theorem train_and_validation_split_the_corpus cls (validation_set : bool)
    (validation_split : float) (shuffle norm : option string)
    (images labels : ref) w X Y (split_idx : Z) :
  data_augmentation cls = false ->
  arrays_of_images w !! images = Some X ->
  arrays_of_labels w !! labels = Some Y ->
  length X = length Y ->
  shuffle = None \/ shuffle = Some "every_epoch" ->
  Forall (fun im => exists e, epoch_image norm im = Ok e) X ->
  split_index (length X) validation_split = Ok split_idx ->
  exists w' train_set validation_set',
    add_train_and_validation cls (Some validation_set) (Some validation_split)
      shuffle norm images labels w = Returned tt w' /\
    train (provider w') = Some (length (objects w)) /\
    validation (provider w') = Some (S (length (objects w))) /\
    objects w' !! length (objects w) = Some train_set /\
    objects w' !! S (length (objects w)) = Some validation_set' /\
    corpus_images (enter train_set w') = py_slice X None (Some split_idx) /\
    corpus_labels (enter train_set w') = py_slice Y None (Some split_idx) /\
    corpus_images (enter validation_set' w') = py_slice X (Some split_idx) None /\
    corpus_labels (enter validation_set' w') = py_slice Y (Some split_idx) None /\
    corpus_images (enter train_set w') ++ corpus_images (enter validation_set' w') = X /\
    corpus_labels (enter train_set w') ++ corpus_labels (enter validation_set' w') = Y.
Proof.
  intros Haug HX HY Hlen Hshuffle Hnorm Hk.
  assert (Hplain : shuffle <> Some "once_prior_train")
    by (by destruct Hshuffle as [-> | ->]).
  destruct (add_train_and_validation_run cls validation_set validation_split
              shuffle norm images labels w X Y split_idx
              Haug HX HY Hlen ltac:(destruct Hshuffle; auto) Hnorm Hk)
    as (w' & train_set & validation_set' & Hrun & Ht & Hv & Hot & Hov
        & Hft & Hfv & _).
  unfold corpus_from in Hft, Hfv. rewrite decide_False in Hft, Hfv by done.
  destruct Hft as [HtX HtY], Hfv as [HvX HvY].
  exists w', train_set, validation_set'. rewrite HtX, HtY, HvX, HvY.
  repeat (split; [done|]). split; apply py_slice_split.
Qed.

(** C6.  With [validation_set] and a fraction [validation_split] given, a
    provider without augmentation cuts the training corpus it read, before
    any shuffle, at [split_idx = int(N * (1 - validation_split))]: the
    difference and the product are binary64 operations, each rounded, and
    [int] drops the fraction of the result, so the cut is not always the
    floor of the exact product.  The train dataset is given
    [images[:split_idx]] with [labels[:split_idx]] and the validation
    dataset [images[split_idx:]] with [labels[split_idx:]]: whatever the
    cut, the first [cut] examples and the rest, where [cut] is [split_idx]
    when it is from 0 to N (a negative [split_idx] counts from the end and
    one past N stops at N).  A dataset keeps what it is given as its
    corpus, in order, or with 'once_prior_train' shuffles it once, images
    and labels alike; the corpus that was read is where it was.  For 50000
    examples and the fraction 0.1 the cut is at 45000. *)
Theorem validation_split_partitions cls (validation_set : bool)
    (validation_split : float) (shuffle norm : option string)
    (images labels : ref) w X Y (split_idx : Z) :
  data_augmentation cls = false ->
  arrays_of_images w !! images = Some X ->
  arrays_of_labels w !! labels = Some Y ->
  length X = length Y ->
  shuffle = None \/ shuffle = Some "once_prior_train" \/
    shuffle = Some "every_epoch" ->
  Forall (fun im => exists e, epoch_image norm im = Ok e) X ->
  split_index (length X) validation_split = Ok split_idx ->
  let cut := Z.to_nat (slice_bound (Z.of_nat (length X)) split_idx) in
  (exists q,
     float_value (py_float (length X) * (1 - validation_split))%float = Some q /\
     split_idx = Qtruncate q) /\
  (cut <= length X)%nat /\
  (0 <= split_idx <= Z.of_nat (length X) -> cut = Z.to_nat split_idx) /\
  (Z.of_nat (length X) = 50000 ->
   validation_split = 0x1.999999999999ap-4%float -> split_idx = 45000) /\
  exists w' train_set validation_set',
    add_train_and_validation cls (Some validation_set) (Some validation_split)
      shuffle norm images labels w = Returned tt w' /\
    train (provider w') = Some (length (objects w)) /\
    validation (provider w') = Some (S (length (objects w))) /\
    objects w' !! length (objects w) = Some train_set /\
    objects w' !! S (length (objects w)) = Some validation_set' /\
    corpus_from shuffle (take cut X) (take cut Y)
      (corpus_images (enter train_set w')) (corpus_labels (enter train_set w')) /\
    corpus_from shuffle (drop cut X) (drop cut Y)
      (corpus_images (enter validation_set' w'))
      (corpus_labels (enter validation_set' w')) /\
    (shuffle <> Some "once_prior_train" ->
     corpus_images (enter train_set w') ++ corpus_images (enter validation_set' w')
       = X /\
     corpus_labels (enter train_set w') ++ corpus_labels (enter validation_set' w')
       = Y) /\
    arrays_of_images w' !! images = Some X /\
    arrays_of_labels w' !! labels = Some Y.
Proof.
  intros Haug HX HY Hlen Hshuffle Hnorm Hk cut.
  destruct (py_slice_cut X split_idx) as (HtX & HvX & Hcut & Hin).
  destruct (py_slice_cut Y split_idx) as (HtY & HvY & _ & _).
  rewrite <- Hlen in HtY, HvY. fold cut in HtX, HvX, HtY, HvY, Hcut, Hin.
  split; [by apply py_int_truncates|]. split; [exact Hcut|]. split; [exact Hin|].
  split.
  { intros HN Hf. subst validation_split.
    unfold split_index, py_float in Hk. rewrite HN in Hk.
    vm_compute in Hk. by inversion Hk. }
  destruct (add_train_and_validation_run cls validation_set validation_split
              shuffle norm images labels w X Y split_idx
              Haug HX HY Hlen Hshuffle Hnorm Hk)
    as (w' & train_set & validation_set' & Hrun & Ht & Hv & Hot & Hov
        & Hft & Hfv & HX' & HY').
  rewrite HtX, HtY in Hft. rewrite HvX, HvY in Hfv.
  exists w', train_set, validation_set'.
  repeat (split; [done|]). split; [|done].
  intros Hplain. unfold corpus_from in Hft, Hfv.
  rewrite decide_False in Hft, Hfv by done.
  destruct Hft as [-> ->], Hfv as [-> ->]. by rewrite !take_drop.
Qed.

Lemma mul_nan (x : float) : Prim2SF (x * nan)%float = S754_nan.
Proof.
  rewrite mul_spec. change (Prim2SF nan) with S754_nan.
  unfold SF64mul, SFmul. by destruct (Prim2SF x) as [[]|[]| |[] m e].
Qed.

(** X24.  The place of the split is computed before any dataset is made: when
    [int()] raises, as it does on a split that is not a number (the
    ValueError of [int(nan)]), the constructor of the provider stops with
    that exception, no dataset made and no array added. *)
Theorem split_failure_builds_nothing cls (validation_set : bool)
    (shuffle norm : option string) (images labels : ref) w X :
  arrays_of_images w !! images = Some X ->
  (forall validation_split e,
     split_index (length X) validation_split = Err e ->
     add_train_and_validation cls (Some validation_set) (Some validation_split)
       shuffle norm images labels w = Failed (Exn e) w) /\
  add_train_and_validation cls (Some validation_set) (Some nan)
    shuffle norm images labels w = Failed (Exn ValueError) w.
Proof.
  intros HX.
  assert (Hgen : forall validation_split e,
     split_index (length X) validation_split = Err e ->
     add_train_and_validation cls (Some validation_set) (Some validation_split)
       shuffle norm images labels w = Failed (Exn e) w).
  { intros f e Hf. unfold add_train_and_validation.
    rewrite (pbind_Returned _ _ _ _ _ (on_arrays_read_images _ _ _ HX)).
    by rewrite Hf. }
  split; [exact Hgen|]. apply Hgen.
  unfold split_index. change (1 - nan)%float with nan.
  unfold py_int. by rewrite mul_nan.
Qed.

End Construction.

(** * The further properties at work *)

Lemma random_generator_use_witness :
  epoch_dataset example_dataset /\
  shuffle_every_epoch (self example_dataset) = Some true /\
  draws_used (final (start_new_epoch example_dataset))
  = S (draws_used example_dataset).
Proof.
  assert (Hevery : shuffle_every_epoch (self example_dataset) = Some true)
    by (vm_compute; reflexivity).
  split; [exact example_is_epoch_dataset|]. split; [exact Hevery|].
  destruct (random_generator_use example_dataset true 1 2
              example_is_epoch_dataset Hevery) as (_ & Hdraws & _).
  exact Hdraws.
Defined.

Lemma plain_epoch_reuses_the_corpus_witness :
  epoch_dataset scenario_dataset /\
  exists i l,
    images (self scenario_dataset) = Some i /\
    epoch_images (self (final (start_new_epoch scenario_dataset))) = Some i /\
    labels (self scenario_dataset) = Some l /\
    epoch_labels (self (final (start_new_epoch scenario_dataset))) = Some l.
Proof.
  split; [exact scenario_is_epoch_dataset|].
  destruct (plain_epoch_reuses_the_corpus scenario_dataset
              scenario_is_epoch_dataset
              ltac:(vm_compute; reflexivity) ltac:(vm_compute; reflexivity)
              ltac:(vm_compute; discriminate))
    as (i & l & Hi & Hl & Hrun).
  exists i, l. rewrite Hrun.
  cbn [final self epoch_images epoch_labels set_epoch_labels set_epoch_images
       set_batch_counter].
  split; [exact Hi|]. split; [reflexivity|]. split; [exact Hl|reflexivity].
Defined.

Lemma epoch_holds_every_example_once_witness :
  epoch_dataset example_dataset /\
  exists idx,
    idx ≡ₚ seq 0 5 /\
    take_rows example_labels idx = Ok (epoch_buffer_labels example_dataset).
Proof.
  split; [exact example_is_epoch_dataset|].
  destruct (epoch_holds_every_example_once example_dataset example_is_epoch_dataset)
    as (idx & rows & Hp & Hl & _).
  exists idx.
  assert (E : corpus_labels example_dataset = example_labels)
    by (vm_compute; reflexivity).
  rewrite E in Hp, Hl. by split.
Defined.

Lemma augmented_dataset_is_never_built_witness :
  exists s',
    new_CifarDataSet 0%nat 0%nat 10 None (Some "divide_255") true example_world
    = Raise IndexError s'.
Proof.
  destruct (augmented_dataset_is_never_built 0%nat 0%nat 10 None (Some "divide_255")
              example_world example_images example_labels
              eq_refl eq_refl eq_refl (or_introl eq_refl)) as [Hraise _].
  destruct Hraise as (s' & Hrun & _); [discriminate|]. by exists s'.
Defined.

Lemma epoch_tail_is_dropped_witness :
  epoch_dataset example_dataset /\
  exists batches s',
    next_batches 2 2 example_dataset = Ret batches s' /\
    Z.of_nat (length (images_at_cursor s' 2)) = 1 /\
    exists s'', next_batch 1 2 s' = Unfinished s''.
Proof.
  split; [exact example_is_epoch_dataset|].
  destruct (epoch_tail_is_dropped example_dataset 5 2 example_is_epoch_dataset
              ltac:(vm_compute; reflexivity) ltac:(vm_compute; reflexivity)
              ltac:(lia) ltac:(vm_compute; discriminate))
    as (batches & s' & Hrun & _ & Hlen & Hnext).
  exists batches, s'. by repeat split.
Defined.

Lemma shuffle_images_labels_misaligned_witness :
  exists s', shuffle_images_labels 0%nat 0%nat misaligned_world = Raise IndexError s'.
Proof.
  destruct (shuffle_images_labels_misaligned misaligned_world 0%nat 0%nat
              example_images [0; 1; 2] eq_refl eq_refl) as [Hshort _].
  apply Hshort. cbn. lia.
Defined.

Lemma once_prior_train_shuffles_once_witness :
  exists s,
    new_CifarDataSet 0%nat 0%nat 10 (Some "once_prior_train") None false example_world
      = Ret tt s /\
    corpus_images s ≡ₚ example_images /\
    draws_used s = 1%nat /\
    image_arrays s !! 0%nat = Some example_images.
Proof.
  destruct (once_prior_train_shuffles_once 0%nat 0%nat 10 None example_world
              example_images example_labels eq_refl eq_refl eq_refl
              ltac:(apply Forall_forall; intros im _; by exists im))
    as (s & Hrun & _ & _ & Hp & _ & Hd & _ & Hi & _).
  exists s. by repeat split.
Defined.

Lemma normalize_image_by_chanel_channels_witness :
  shape3 tenths_image = (2, 4, 3)%nat /\
  exists new_image,
    normalize_image_by_chanel tenths_image = Ok new_image /\
    shape3 new_image = (2, 4, 3)%nat /\
    np_mean (channel tenths_image 0) = 0x1.ccccccccccccdp-2%float /\
    np_std (channel tenths_image 0) = 0x1.d54178e8830d5p-3%float /\
    get3 new_image 0 1 0 = (-0x1.1751a365d41a3p+0)%float /\
    get3 new_image 1 3 2 = 0x1.870be4c1c28b0p+0%float.
Proof.
  split; [reflexivity|].
  destruct (normalize_image_by_chanel_channels tenths_image 2 4 3 eq_refl)
    as [_ Hok].
  destruct (Hok ltac:(lia)) as (new_image & Hrun & Hshape & Hpix).
  exists new_image. split; [exact Hrun|]. split; [exact Hshape|].
  split; [vm_compute; reflexivity|]. split; [vm_compute; reflexivity|].
  rewrite (Hpix 0 1 0)%nat, (Hpix 1 3 2)%nat by lia.
  split; vm_compute; reflexivity.
Defined.

Lemma normalize_all_images_by_chanels_batch_witness :
  exists new_image nan_image s',
    normalize_all_images_by_chanels 0%nat tenths_world = Ret 1%nat s' /\
    image_arrays s' = [[tenths_image; pixel_image 7]; [new_image; nan_image]] /\
    shape3 new_image = (2, 4, 3)%nat /\
    get3 new_image 0 1 0 = (-0x1.1751a365d41a3p+0)%float /\
    get3 new_image 0 1 1 = (-0x1.1751a365d41a3p+0)%float /\
    shape3 nan_image = (1, 1, 3)%nat /\
    PrimFloat.is_nan (get3 nan_image 0 0 0) = true.
Proof.
  destruct (@normalize_all_images_by_chanels_batch Z tenths_world 0%nat
              [tenths_image; pixel_image 7] eq_refl) as [Hok _].
  destruct Hok as (R & Hrun & Hnorm).
  { repeat constructor. }
  apply Forall2_cons_inv_l in Hnorm as (new_image & R' & [Hs1 Hp1] & Hnorm & ->).
  apply Forall2_cons_inv_l in Hnorm as (nan_image & R'' & [Hs2 Hp2] & Hnorm & ->).
  apply Forall2_nil_inv_l in Hnorm as ->.
  exists new_image, nan_image. eexists. split; [exact Hrun|].
  split; [reflexivity|]. split; [exact Hs1|].
  rewrite (Hp1 0 1 0)%nat, (Hp1 0 1 1)%nat by (cbn; lia).
  split; [vm_compute; reflexivity|]. split; [vm_compute; reflexivity|].
  split; [exact Hs2|].
  rewrite (Hp2 0 0 0)%nat by (cbn; lia). vm_compute; reflexivity.
Defined.

Lemma one_hot_negative_labels_wrap_witness :
  exists a,
    labels_to_one_hot 10 [-1; 3; -10] = Ok a /\
    labels_from_one_hot a = Ok [9; 3; 0].
Proof.
  destruct (one_hot_negative_labels_wrap 10 [-1; 3; -10] ltac:(lia)
              ltac:(repeat constructor; lia)) as (a & Hto & _ & _ & Hfrom).
  by exists a.
Defined.

Lemma one_hot_label_out_of_range_witness :
  labels_to_one_hot 10 [3; 10] = Err IndexError /\
  labels_to_one_hot (-1) [] = Err ValueError.
Proof.
  destruct (one_hot_label_out_of_range 10 [3; 10]) as [Hrange _].
  destruct (one_hot_label_out_of_range (-1) []) as [_ Hneg].
  split; [|apply Hneg; lia].
  apply Hrange; [lia|]. apply Exists_cons_tl, Exists_cons_hd. lia.
Defined.

Lemma divided_pixels_are_in_the_unit_interval_witness :
  epoch_dataset example_dataset /\
  Forall (all_pixels (fun x => (0 <=? x)%float = true /\ (x <=? 1)%float = true))
         (epoch_buffer_images example_dataset).
Proof.
  split; [exact example_is_epoch_dataset|].
  destruct (divided_pixels_are_in_the_unit_interval example_dataset
              example_is_epoch_dataset) as [H255 _].
  - assert (E : corpus_images example_dataset = example_images)
      by (vm_compute; reflexivity).
    rewrite E. unfold example_images.
    apply Forall_fmap, Forall_forall. intros v Hv.
    assert (Hbyte : 0 <= v <= 255).
    { repeat (apply elem_of_cons in Hv as [->|Hv]; [lia|]).
      apply elem_of_nil in Hv. destruct Hv. }
    unfold all_pixels, pixel_image. cbn [rows3 compose].
    repeat apply Forall_cons_2; try apply Forall_nil_2.
    + exists v. split; [exact Hbyte|reflexivity].
    + exists 0. split; [lia|vm_compute; reflexivity].
    + exists 1. split; [lia|vm_compute; reflexivity].
  - apply H255. vm_compute. reflexivity.
Defined.

Lemma labels_from_one_hot_takes_the_first_maximum_witness :
  exists classes,
    labels_from_one_hot (Nd2 (2, 3)%nat [[0.5; 2; 2]; [1; 0; 0.25]]%float)
      = Ok classes /\
    Forall2 (fun row j => first_maximum row j /\ j < 3)
            [[0.5; 2; 2]; [1; 0; 0.25]]%float classes.
Proof.
  destruct (labels_from_one_hot_takes_the_first_maximum
              (Nd2 (2, 3)%nat [[0.5; 2; 2]; [1; 0; 0.25]]%float) 2 3 eq_refl
              ltac:(repeat constructor) ltac:(repeat constructor)) as [_ Hok].
  destruct (Hok ltac:(lia)) as (classes & Hrun & Hall). by exists classes.
Defined.

Lemma planar_rows_become_images_witness :
  exists r,
    reshape (Nd2 (1, 3072)%nat [example_row]) 3 32 32 = Ok r /\
    length (swapaxes_1_2 (swapaxes_1_3 r)) = 1%nat /\
    forall im, swapaxes_1_2 (swapaxes_1_3 r) !! 0%nat = Some im ->
               shape3 im = (32, 32, 3)%nat /\
               get3 im 1 2 1 = nth (1024 + 32 + 2) example_row 0%float.
Proof.
  destruct (planar_rows_become_images (Nd2 (1, 3072)%nat [example_row]) 1)
    as [Hok _].
  destruct Hok as (r & Hr & Hlen & Hpix); [vm_compute; reflexivity|].
  exists r. split; [exact Hr|]. split; [exact Hlen|].
  intros im Him. destruct (Hpix 0%nat im Him) as [Hshape Hget].
  split; [exact Hshape|]. rewrite (Hget 1 2 1)%nat by lia.
  assert (E : elements2 (Nd2 (1, 3072)%nat [example_row]) = example_row).
  { unfold elements2. cbn [rows2 concat]. apply app_nil_r. }
  rewrite E. reflexivity.
Defined.

Lemma example_batch_read :
  batch_read key_fine_labels empty_world "/data/cifar-100-python/train"
             (example_decoded, [5]).
Proof.
  exists (example_batch 5), (Nd2 (1, 3072)%nat [example_row]).
  destruct (reshape (Nd2 (1, 3072)%nat [example_row]) 3 32 32) as [r|e] eqn:Hr;
    [|vm_compute in Hr; discriminate].
  exists r. split; [vm_compute; reflexivity|]. split; [reflexivity|].
  split; [reflexivity|]. split; [|reflexivity].
  unfold example_decoded. cbn [fst]. by rewrite Hr.
Qed.

Lemma read_cifar_reads_every_batch_witness :
  exists Y,
    read_cifar Cifar100DataProvider ["/data/cifar-100-python/train"] empty_world =
      Returned (0%nat, 0%nat)
        (World (provider empty_world) [] [example_decoded] [Y]
               example_draws 0 example_files) /\
    Y = [class_index 5].
Proof.
  destruct (read_cifar_reads_every_batch Cifar100DataProvider key_fine_labels
              ["/data/cifar-100-python/train"] [(example_decoded, [5])] empty_world
              (or_intror (conj eq_refl eq_refl)) ltac:(discriminate)
              ltac:(repeat constructor; exact example_batch_read)
              ltac:(discriminate))
    as (Y & Hrun & _ & Hplain & _).
  exists Y. split.
  - rewrite Hrun. cbn [app concat map fst]. by rewrite app_nil_r.
  - exact (Hplain eq_refl).
Defined.

(** A provider of CIFAR-10 on the files of CIFAR-100, and on a file that
    is not there. *)
Lemma read_cifar_raises_witness :
  read_cifar Cifar10DataProvider ["/data/cifar-100-python/train"] empty_world
    = Failed KeyError empty_world /\
  read_cifar Cifar10DataProvider ["/data/cifar-10-batches-py/data_batch_1"] empty_world
    = Failed FileNotFoundError empty_world.
Proof.
  destruct (read_cifar_raises Cifar10DataProvider "/data/cifar-100-python/train" []
              empty_world) as (_ & _ & Hfile).
  destruct (read_cifar_raises Cifar10DataProvider
              "/data/cifar-10-batches-py/data_batch_1" [] empty_world)
    as (_ & Hmissing & _).
  split; [|apply Hmissing; vm_compute; reflexivity].
  destruct (Hfile (example_batch 5) ltac:(vm_compute; reflexivity)) as [_ Hdata].
  destruct (Hdata (Nd2 (1, 3072)%nat [example_row]) eq_refl) as [_ Hwhole].
  destruct (Hwhole ltac:(vm_compute; reflexivity)) as (_ & Hten & _).
  by apply Hten.
Defined.

Lemma save_path_is_memoized_witness :
  exists w',
    save_path Cifar100DataProvider empty_world = Returned "/tmp/cifar100" w' /\
    save_path Cifar100DataProvider w' = Returned "/tmp/cifar100" w'.
Proof.
  destruct (save_path_is_memoized Cifar100DataProvider empty_world)
    as (_ & Hdefault & _).
  destruct (Hdefault eq_refl) as (w' & Hfirst & _ & Hsecond).
  exists w'. by split.
Defined.

(** A validation set asked for without a split: the test dataset under
    two names. *)
Lemma provider_datasets_witness :
  let w := world_of (CifarDataProvider__init__ no_download Cifar100DataProvider
                       example_params empty_world) in
  CifarDataProvider__init__ no_download Cifar100DataProvider example_params empty_world
    = Returned tt w /\
  train (provider w) = Some 0%nat /\ test (provider w) = Some 1%nat /\
  validation (provider w) = Some 1%nat.
Proof.
  assert (Hrun : CifarDataProvider__init__ no_download Cifar100DataProvider
                   example_params empty_world
                 = Returned tt
                     (world_of (CifarDataProvider__init__ no_download
                                  Cifar100DataProvider example_params empty_world)))
    by (vm_compute; reflexivity).
  cbv zeta. split; [exact Hrun|].
  destruct (provider_datasets no_download Cifar100DataProvider example_params
              empty_world _ Hrun) as (Htrain & Htest & _ & Hval).
  split; [exact Htrain|]. split; [exact Htest|].
  rewrite Hval. exact Htest.
Defined.

Lemma augmented_provider_is_never_built_witness :
  exists w',
    add_train_and_validation Cifar100AugmentedDataProvider None None None None
      0%nat 0%nat corpus_world
    = Failed (Exn IndexError) w'.
Proof.
  apply (augmented_provider_is_never_built Cifar100AugmentedDataProvider None None
           None None 0%nat 0%nat corpus_world example_images
           (map class_index example_labels));
    [reflexivity | reflexivity | reflexivity | reflexivity | discriminate
    | left; reflexivity | intros f [b Hb]; discriminate].
Defined.

Lemma train_and_validation_split_the_corpus_witness :
  split_index 5 0.5%float = Ok 2 /\
  exists w' train_set validation_set,
    add_train_and_validation Cifar100DataProvider (Some false) (Some 0.5%float)
      None None 0%nat 0%nat corpus_world = Returned tt w' /\
    objects w' = [train_set; validation_set] /\
    corpus_images (enter train_set w') = take 2 example_images /\
    corpus_images (enter validation_set w') = drop 2 example_images.
Proof.
  assert (Hidx : split_index 5 0.5%float = Ok 2) by (vm_compute; reflexivity).
  split; [exact Hidx|].
  destruct (train_and_validation_split_the_corpus Cifar100DataProvider false
              0.5%float None None 0%nat 0%nat corpus_world example_images
              (map class_index example_labels) 2
              eq_refl eq_refl eq_refl eq_refl (or_introl eq_refl)
              ltac:(apply Forall_forall; intros im _; by exists im) Hidx)
    as (w' & t & v & Hrun & _ & _ & Ht & Hv & Hti & _ & Hvi & _).
  exists w', t, v. split; [exact Hrun|].
  split.
  { apply add_train_and_validation_inv in Hrun.
    rewrite bool_decide_eq_true_2 in Hrun by (split; by eexists).
    destruct Hrun as [Hlen _]. cbn in Hlen, Ht, Hv.
    destruct (objects w') as [|o1 [|o2 [|o3 rest]]]; cbn in Hlen; try lia.
    cbn in Ht, Hv. by inversion Ht; inversion Hv; subst. }
  split; [exact Hti|exact Hvi].
Defined.

Lemma validation_split_partitions_witness :
  exists w' train_set validation_set',
    add_train_and_validation Cifar10DataProvider (Some true)
      (Some 0x1.999999999999ap-4%float) None None 0%nat 0%nat large_world
      = Returned tt w' /\
    objects w' !! 0%nat = Some train_set /\
    objects w' !! 1%nat = Some validation_set' /\
    corpus_images (enter train_set w')
      = take (Z.to_nat 45000) (replicate (Z.to_nat 50000) (pixel_image 0)) /\
    corpus_images (enter validation_set' w')
      = drop (Z.to_nat 45000) (replicate (Z.to_nat 50000) (pixel_image 0)) /\
    Z.of_nat (length (corpus_images (enter train_set w'))) = 45000 /\
    Z.of_nat (length (corpus_images (enter validation_set' w'))) = 5000.
Proof.
  assert (Hidx : split_index (length (replicate (Z.to_nat 50000) (pixel_image 0)))
                             0x1.999999999999ap-4%float = Ok 45000)
    by (rewrite length_replicate; vm_compute; reflexivity).
  destruct (validation_split_partitions Cifar10DataProvider true
              0x1.999999999999ap-4%float None None 0%nat 0%nat large_world
              (replicate (Z.to_nat 50000) (pixel_image 0))
              (replicate (Z.to_nat 50000) (class_index 0)) 45000
              eq_refl eq_refl eq_refl
              ltac:(by rewrite !length_replicate)
              ltac:(by left)
              ltac:(apply Forall_replicate; by eexists)
              Hidx)
    as (_ & _ & Hcut & _ & w' & train_set & validation_set' & Hrun & _ & _
        & Hot & Hov & Hft & Hfv & _).
  rewrite Hcut in Hft, Hfv by (rewrite length_replicate; lia).
  unfold corpus_from in Hft, Hfv. rewrite decide_False in Hft, Hfv by done.
  destruct Hft as [HtX _], Hfv as [HvX _].
  exists w', train_set, validation_set'.
  split; [exact Hrun|]. split; [exact Hot|]. split; [exact Hov|].
  split; [exact HtX|]. split; [exact HvX|].
  rewrite HtX, HvX, length_take, length_drop, length_replicate. lia.
Defined.

(** C6, as stated, fails on the code.  Of five examples with the
    fraction 0.8 the design document gives the first
    [floor (5 * (1 - 0.8)) = 1] to the train dataset; the code computes
    [1 - 0.8] as 0.19999999999999996, the product with 5 as
    0.9999999999999998, and [int] of it as 0: the train dataset has no
    example and the validation dataset has the five.  The floor of the
    exact product, for the fraction the float stands for, is not the cut
    either: with 0.4 the exact product is below 3, its floor is 2, and the
    binary64 product is 3.0, the cut the code makes.  Of 50000 examples
    with the fraction 0.9 the code gives 4999 to the train dataset, not
    [floor (50000 * (1 - 0.9)) = 5000]. *)
Lemma split_is_not_the_floor :
  floor_split 5 (QArith_base.Qmake 8 10) = 1 /\
  split_index 5 0x1.999999999999ap-1%float = Ok 0 /\
  (exists w' train_set validation_set',
     add_train_and_validation Cifar10DataProvider (Some true)
       (Some 0x1.999999999999ap-1%float) None None 0%nat 0%nat corpus_world
       = Returned tt w' /\
     objects w' !! 0%nat = Some train_set /\
     objects w' !! 1%nat = Some validation_set' /\
     corpus_images (enter train_set w') = [] /\
     corpus_images (enter validation_set' w') = example_images) /\
  (exists q,
     float_value 0x1.999999999999ap-2%float = Some q /\
     floor_split 5 q = 2 /\
     split_index 5 0x1.999999999999ap-2%float = Ok 3) /\
  floor_split 50000 (QArith_base.Qmake 9 10) = 5000 /\
  split_index (Z.to_nat 50000) 0x1.ccccccccccccdp-1%float = Ok 4999.
Proof.
  split; [vm_compute; reflexivity|]. split; [vm_compute; reflexivity|]. split.
  { eexists _, _, _. split; [vm_compute; reflexivity|].
    split; [reflexivity|]. split; [reflexivity|].
    split; vm_compute; reflexivity. }
  split.
  { eexists. split; [vm_compute; reflexivity|].
    split; vm_compute; reflexivity. }
  split; vm_compute; reflexivity.
Qed.

Lemma split_failure_builds_nothing_witness :
  add_train_and_validation Cifar100DataProvider (Some true) (Some nan)
    None None 0%nat 0%nat corpus_world
  = Failed (Exn ValueError) corpus_world.
Proof.
  destruct (split_failure_builds_nothing Cifar100DataProvider true None None
              0%nat 0%nat corpus_world example_images eq_refl) as [_ Hnan].
  exact Hnan.
Defined.
